(** * Drake Maye-dle front-end: a shallow embedding of the game page

    The repository holds three revisions of one React component,
    [QBGuessingGame]:

    - [PageTsx]:  src/frontend/pfr-guesser-frontend/app/page.tsx
                  (daily and unlimited modes, 250 ms autocomplete delay);
    - [Part000]:  src/unnamed/part_000
                  (positions, session-expiry recovery, Give Up button,
                  200 ms autocomplete delay);
    - [Part001]:  src/unnamed/part_001
                  (a single unlimited mode, 250 ms autocomplete delay).

    The component state is a record with one field per [useState] cell.  An
    event handler is a closure over the state of the render that created it:
    it reads that snapshot, awaits [fetch] calls and calls setters.  A handler
    is embedded as a function from the snapshot and the results of its
    [fetch] calls to the ordered list of effects it performs (requests,
    setter calls, console output, timers) together with its completion.
    Applying the setter calls of a trace to a state gives the next render.

    Two ways of running the page are defined.  [runSeq] handles one event at
    a time, each handler running to completion.  [run] lets a handler stop at
    every [await fetch] while the page is rendered and further events are
    handled; [runSeq_is_run] shows the first to be a special case of the
    second.

    The server is not part of the sources: its answers are inputs of the
    handlers. *)

From Stdlib Require Import Bool Arith ZArith List String Ascii Lia.
Import ListNotations.

Local Open Scope string_scope.
Local Open Scope nat_scope.
Local Open Scope list_scope.

(** ** The three revisions *)

Inductive Client : Type := PageTsx | Part000 | Part001.

(** ** JavaScript strings

    A string is a sequence of characters with codes below 256. *)

Module Js.

(** The characters [String.prototype.trim] strips (WhiteSpace and
    LineTerminator of ECMAScript) that have a code below 256:
    TAB, LF, VT, FF, CR, SP and NBSP. *)
Definition isWhiteSpace (c : ascii) : bool :=
  let n := nat_of_ascii c in
  ((9 <=? n) && (n <=? 13)) || (n =? 32) || (n =? 160).

Fixpoint trimStart (s : string) : string :=
  match s with
  | EmptyString => EmptyString
  | String c s' => if isWhiteSpace c then trimStart s' else s
  end.

Fixpoint trimEnd (s : string) : string :=
  match s with
  | EmptyString => EmptyString
  | String c s' =>
      match trimEnd s' with
      | EmptyString => if isWhiteSpace c then EmptyString else String c EmptyString
      | t => String c t
      end
  end.

Definition trim (s : string) : string := trimEnd (trimStart s).

(** Every character of [s] is white space. *)
Fixpoint allWhiteSpace (s : string) : bool :=
  match s with
  | EmptyString => true
  | String c s' => isWhiteSpace c && allWhiteSpace s'
  end.

(** Truthiness of a string: only the empty string is falsy. *)
Definition truthy (s : string) : bool :=
  match s with EmptyString => false | String _ _ => true end.

(** Truthiness of [string | null | undefined]. *)
Definition truthyOpt (o : option string) : bool :=
  match o with None => false | Some s => truthy s end.

(** Truthiness of [boolean | undefined]. *)
Definition isTrue (o : option bool) : bool :=
  match o with Some true => true | _ => false end.

(** [a || b] on a possibly missing string [a] and a string [b]. *)
Definition orElse (a : option string) (b : string) : string :=
  match a with
  | Some s => if truthy s then s else b
  | None => b
  end.

(** [s.includes(sub)]. *)
Fixpoint includes (s sub : string) : bool :=
  String.prefix sub s ||
  match s with
  | EmptyString => false
  | String _ s' => includes s' sub
  end.

(** [o === lit] for a possibly missing string [o]. *)
Definition strictEq (o : option string) (lit : string) : bool :=
  match o with Some s => String.eqb s lit | None => false end.

End Js.

(** ** Data exchanged with the API server *)

Inductive GameMode : Type := daily | unlimited.

Inductive Position : Type := QB | WR | RB.

(** The fields of [SeasonStats] shared by the three revisions; the
    position-specific counting statistics only feed the statistics table. *)
Record SeasonStats : Type := mkSeasonStats {
  season : nat;
  team : option string;
  games : option nat;
  awards : option string
}.

Record GuessResult : Type := mkGuessResult {
  name : string;
  correct : bool;
  era : option string;
  teams_overlap : option bool;
  pfr_id : option string
}.

(** The parsed JSON body of a response: the fields the component reads. *)
Module Json.

Record Feedback : Type := mkFeedback {
  era : option string;
  teams_overlap : option bool
}.

Record Body : Type := mkBody {
  detail : option string;
  session_id : option string;
  seasons : list SeasonStats;
  position : option Position;
  correct : bool;
  feedback : option Feedback;
  pfr_id : option string;
  name : option string;
  players : option (list string)
}.

(** [{detail}] of a failure. *)
Definition error (d : string) : Body :=
  mkBody (Some d) None [] None false None None None None.

(** [{session_id, seasons, position}] of /daily_qb and /random_qb. *)
Definition game (sid : string) (ss : list SeasonStats) (p : option Position) : Body :=
  mkBody None (Some sid) ss p false None None None None.

(** [{correct, feedback, pfr_id}] of /guess. *)
Definition guess (c : bool) (f : option Feedback) (p : option string) : Body :=
  mkBody None None [] None c f p None None.

(** [{name, pfr_id, position}] of /reveal. *)
Definition reveal (n : string) (p : option string) (pos : option Position) : Body :=
  mkBody None None [] pos false None p (Some n) None.

(** [data.feedback?.era] and [data.feedback?.teams_overlap]. *)
Definition feedback_era (b : Body) : option string :=
  match feedback b with Some f => era f | None => None end.

Definition feedback_teams_overlap (b : Body) : option bool :=
  match feedback b with Some f => teams_overlap f | None => None end.

End Json.

(** What [res.json()] gives: the parsed body, or a rejection. *)
Inductive ResBody : Type :=
| BadJson (msg : string)
| Parsed (b : Json.Body).

Record Response : Type := mkResponse {
  status : nat;
  body : ResBody
}.

(** [res.ok]: the status is in the range 200-299. *)
Definition ok (res : Response) : bool :=
  (200 <=? status res) && (status res <=? 299).

(** What [await fetch(...)] gives: a response, or a rejection (the network
    failed) carrying the message of the error. *)
Inductive FetchResult : Type :=
| NetworkError (msg : string)
| Responded (res : Response).

Inductive Request : Type :=
| GetDailyQb
| GetRandomQb
| PostGuess (guess : string) (session_id : option string)
| PostReveal (session_id : option string)
| GetAutocomplete (q : string).

(** ** Component state: one field per [useState] cell

    [gameMode], [answerPfrId] are absent from [Part001], and [position],
    [answerPosition], [selectedSuggestionIndex] exist only in [Part000]; a
    revision never writes a field it does not have. *)

Record State : Type := mkState {
  gameMode : GameMode;
  sessionId : option string;
  position : Position;
  seasons : list SeasonStats;
  guess : string;
  guesses : list GuessResult;
  loading : bool;
  error : option string;
  gameWon : bool;
  gameLost : bool;
  answer : option string;
  answerPfrId : option string;
  answerPosition : option Position;
  copied : bool;
  showSeasons : bool;
  showTeams : bool;
  showAwards : bool;
  showHelp : bool;
  suggestions : list string;
  showSuggestions : bool;
  selectedSuggestionIndex : option nat
}.

(** The initial values given to [useState]; [selectedSuggestionIndex] is
    [-1] ([None]) when no suggestion is selected. *)
Definition initialState : State :=
  {| gameMode := daily; sessionId := None; position := QB; seasons := [];
     guess := ""; guesses := []; loading := true; error := None;
     gameWon := false; gameLost := false; answer := None;
     answerPfrId := None; answerPosition := None; copied := false;
     showSeasons := false; showTeams := false; showAwards := false;
     showHelp := false; suggestions := []; showSuggestions := false;
     selectedSuggestionIndex := None |}.

Definition MAX_GUESSES : nat := 8.

(** ** Effects *)

(** A call of a state setter. *)
Inductive Setter : Type :=
| SetGameMode (m : GameMode)
| SetSessionId (sid : option string)
| SetPosition (p : Position)
| SetSeasons (ss : list SeasonStats)
| SetGuess (g : string)
| SetGuesses (gs : list GuessResult)
| SetLoading (b : bool)
| SetError (e : option string)
| SetGameWon (b : bool)
| SetGameLost (b : bool)
| SetAnswer (a : option string)
| SetAnswerPfrId (a : option string)
| SetAnswerPosition (p : option Position)
| SetCopied (b : bool)
| SetShowSeasons (b : bool)
| SetShowTeams (b : bool)
| SetShowAwards (b : bool)
| SetShowHelp (b : bool)
| SetSuggestions (l : list string)
| SetShowSuggestions (b : bool)
| SetSelectedSuggestionIndex (i : option nat).

Inductive Effect : Type :=
| Fetch (r : Request)
| Set_ (a : Setter)
| Console (msg : string)
| SetTimeout (ms : nat) (a : Setter).

Definition Trace : Type := list Effect.

Definition applySetter (s : State) (a : Setter) : State :=
  match a with
  | SetGameMode m =>
      mkState m (sessionId s) (position s) (seasons s) (guess s) (guesses s) (loading s) (error s) (gameWon s) (gameLost s) (answer s) (answerPfrId s) (answerPosition s) (copied s) (showSeasons s) (showTeams s) (showAwards s) (showHelp s) (suggestions s) (showSuggestions s) (selectedSuggestionIndex s)
  | SetSessionId x =>
      mkState (gameMode s) x (position s) (seasons s) (guess s) (guesses s) (loading s) (error s) (gameWon s) (gameLost s) (answer s) (answerPfrId s) (answerPosition s) (copied s) (showSeasons s) (showTeams s) (showAwards s) (showHelp s) (suggestions s) (showSuggestions s) (selectedSuggestionIndex s)
  | SetPosition x =>
      mkState (gameMode s) (sessionId s) x (seasons s) (guess s) (guesses s) (loading s) (error s) (gameWon s) (gameLost s) (answer s) (answerPfrId s) (answerPosition s) (copied s) (showSeasons s) (showTeams s) (showAwards s) (showHelp s) (suggestions s) (showSuggestions s) (selectedSuggestionIndex s)
  | SetSeasons x =>
      mkState (gameMode s) (sessionId s) (position s) x (guess s) (guesses s) (loading s) (error s) (gameWon s) (gameLost s) (answer s) (answerPfrId s) (answerPosition s) (copied s) (showSeasons s) (showTeams s) (showAwards s) (showHelp s) (suggestions s) (showSuggestions s) (selectedSuggestionIndex s)
  | SetGuess x =>
      mkState (gameMode s) (sessionId s) (position s) (seasons s) x (guesses s) (loading s) (error s) (gameWon s) (gameLost s) (answer s) (answerPfrId s) (answerPosition s) (copied s) (showSeasons s) (showTeams s) (showAwards s) (showHelp s) (suggestions s) (showSuggestions s) (selectedSuggestionIndex s)
  | SetGuesses x =>
      mkState (gameMode s) (sessionId s) (position s) (seasons s) (guess s) x (loading s) (error s) (gameWon s) (gameLost s) (answer s) (answerPfrId s) (answerPosition s) (copied s) (showSeasons s) (showTeams s) (showAwards s) (showHelp s) (suggestions s) (showSuggestions s) (selectedSuggestionIndex s)
  | SetLoading x =>
      mkState (gameMode s) (sessionId s) (position s) (seasons s) (guess s) (guesses s) x (error s) (gameWon s) (gameLost s) (answer s) (answerPfrId s) (answerPosition s) (copied s) (showSeasons s) (showTeams s) (showAwards s) (showHelp s) (suggestions s) (showSuggestions s) (selectedSuggestionIndex s)
  | SetError x =>
      mkState (gameMode s) (sessionId s) (position s) (seasons s) (guess s) (guesses s) (loading s) x (gameWon s) (gameLost s) (answer s) (answerPfrId s) (answerPosition s) (copied s) (showSeasons s) (showTeams s) (showAwards s) (showHelp s) (suggestions s) (showSuggestions s) (selectedSuggestionIndex s)
  | SetGameWon x =>
      mkState (gameMode s) (sessionId s) (position s) (seasons s) (guess s) (guesses s) (loading s) (error s) x (gameLost s) (answer s) (answerPfrId s) (answerPosition s) (copied s) (showSeasons s) (showTeams s) (showAwards s) (showHelp s) (suggestions s) (showSuggestions s) (selectedSuggestionIndex s)
  | SetGameLost x =>
      mkState (gameMode s) (sessionId s) (position s) (seasons s) (guess s) (guesses s) (loading s) (error s) (gameWon s) x (answer s) (answerPfrId s) (answerPosition s) (copied s) (showSeasons s) (showTeams s) (showAwards s) (showHelp s) (suggestions s) (showSuggestions s) (selectedSuggestionIndex s)
  | SetAnswer x =>
      mkState (gameMode s) (sessionId s) (position s) (seasons s) (guess s) (guesses s) (loading s) (error s) (gameWon s) (gameLost s) x (answerPfrId s) (answerPosition s) (copied s) (showSeasons s) (showTeams s) (showAwards s) (showHelp s) (suggestions s) (showSuggestions s) (selectedSuggestionIndex s)
  | SetAnswerPfrId x =>
      mkState (gameMode s) (sessionId s) (position s) (seasons s) (guess s) (guesses s) (loading s) (error s) (gameWon s) (gameLost s) (answer s) x (answerPosition s) (copied s) (showSeasons s) (showTeams s) (showAwards s) (showHelp s) (suggestions s) (showSuggestions s) (selectedSuggestionIndex s)
  | SetAnswerPosition x =>
      mkState (gameMode s) (sessionId s) (position s) (seasons s) (guess s) (guesses s) (loading s) (error s) (gameWon s) (gameLost s) (answer s) (answerPfrId s) x (copied s) (showSeasons s) (showTeams s) (showAwards s) (showHelp s) (suggestions s) (showSuggestions s) (selectedSuggestionIndex s)
  | SetCopied x =>
      mkState (gameMode s) (sessionId s) (position s) (seasons s) (guess s) (guesses s) (loading s) (error s) (gameWon s) (gameLost s) (answer s) (answerPfrId s) (answerPosition s) x (showSeasons s) (showTeams s) (showAwards s) (showHelp s) (suggestions s) (showSuggestions s) (selectedSuggestionIndex s)
  | SetShowSeasons x =>
      mkState (gameMode s) (sessionId s) (position s) (seasons s) (guess s) (guesses s) (loading s) (error s) (gameWon s) (gameLost s) (answer s) (answerPfrId s) (answerPosition s) (copied s) x (showTeams s) (showAwards s) (showHelp s) (suggestions s) (showSuggestions s) (selectedSuggestionIndex s)
  | SetShowTeams x =>
      mkState (gameMode s) (sessionId s) (position s) (seasons s) (guess s) (guesses s) (loading s) (error s) (gameWon s) (gameLost s) (answer s) (answerPfrId s) (answerPosition s) (copied s) (showSeasons s) x (showAwards s) (showHelp s) (suggestions s) (showSuggestions s) (selectedSuggestionIndex s)
  | SetShowAwards x =>
      mkState (gameMode s) (sessionId s) (position s) (seasons s) (guess s) (guesses s) (loading s) (error s) (gameWon s) (gameLost s) (answer s) (answerPfrId s) (answerPosition s) (copied s) (showSeasons s) (showTeams s) x (showHelp s) (suggestions s) (showSuggestions s) (selectedSuggestionIndex s)
  | SetShowHelp x =>
      mkState (gameMode s) (sessionId s) (position s) (seasons s) (guess s) (guesses s) (loading s) (error s) (gameWon s) (gameLost s) (answer s) (answerPfrId s) (answerPosition s) (copied s) (showSeasons s) (showTeams s) (showAwards s) x (suggestions s) (showSuggestions s) (selectedSuggestionIndex s)
  | SetSuggestions x =>
      mkState (gameMode s) (sessionId s) (position s) (seasons s) (guess s) (guesses s) (loading s) (error s) (gameWon s) (gameLost s) (answer s) (answerPfrId s) (answerPosition s) (copied s) (showSeasons s) (showTeams s) (showAwards s) (showHelp s) x (showSuggestions s) (selectedSuggestionIndex s)
  | SetShowSuggestions x =>
      mkState (gameMode s) (sessionId s) (position s) (seasons s) (guess s) (guesses s) (loading s) (error s) (gameWon s) (gameLost s) (answer s) (answerPfrId s) (answerPosition s) (copied s) (showSeasons s) (showTeams s) (showAwards s) (showHelp s) (suggestions s) x (selectedSuggestionIndex s)
  | SetSelectedSuggestionIndex x =>
      mkState (gameMode s) (sessionId s) (position s) (seasons s) (guess s) (guesses s) (loading s) (error s) (gameWon s) (gameLost s) (answer s) (answerPfrId s) (answerPosition s) (copied s) (showSeasons s) (showTeams s) (showAwards s) (showHelp s) (suggestions s) (showSuggestions s) x
  end.

(** The state after the setter calls of a trace, in order.  Requests and
    console output leave the state alone; the setter of a timer runs later
    (see [System]). *)
Definition applyEffect (s : State) (e : Effect) : State :=
  match e with
  | Set_ a => applySetter s a
  | _ => s
  end.

Definition render (s : State) (t : Trace) : State := fold_left applyEffect t s.

(** The requests of a trace, in order. *)
Definition requests (t : Trace) : list Request :=
  flat_map (fun e => match e with Fetch r => [r] | _ => [] end) t.

(** ** Handler computations: a trace and a completion

    [inr a] is normal completion with value [a]; [inl msg] is a thrown
    [Error] with message [msg] (every value the component throws or catches
    is an [Error]). *)

Definition M (A : Type) : Type := (Trace * (string + A))%type.

Definition ret {A} (a : A) : M A := ([], inr a).

Definition throw {A} (msg : string) : M A := ([], inl msg).

Definition bind {A B} (m : M A) (k : A -> M B) : M B :=
  match m with
  | (t, inl e) => (t, inl e)
  | (t, inr a) => let (t', r) := k a in (t ++ t', r)
  end.

Notation "x <- m ;; k" := (bind m (fun x => k))
  (at level 61, m at next level, right associativity).
Notation "m ;; k" := (bind m (fun _ => k))
  (at level 61, right associativity).

Definition emit (e : Effect) : M unit := ([e], inr tt).

Definition set_ (a : Setter) : M unit := emit (Set_ a).

Definition console (msg : string) : M unit := emit (Console msg).

Definition setTimeout (ms : nat) (a : Setter) : M unit := emit (SetTimeout ms a).

(** [await fetch(req)], the server (or the network) answering [r]. *)
Definition fetch (req : Request) (r : FetchResult) : M Response :=
  ([Fetch req],
   match r with
   | NetworkError msg => inl msg
   | Responded res => inr res
   end).

(** [await res.json()]. *)
Definition json (res : Response) : M Json.Body :=
  match body res with
  | BadJson msg => throw msg
  | Parsed b => ret b
  end.

(** [try { m } catch (err) { h err }]. *)
Definition tryCatch {A} (m : M A) (h : string -> M A) : M A :=
  match m with
  | (t, inl e) => let (t', r) := h e in (t ++ t', r)
  | (t, inr a) => (t, inr a)
  end.

(** [try { m } finally { f }]. *)
Definition tryFinally {A} (m : M A) (f : M unit) : M A :=
  match m with
  | (t, r) =>
      match f with
      | (t', inl e) => (t ++ t', inl e)
      | (t', inr _) => (t ++ t', r)
      end
  end.

Definition trace {A} (m : M A) : Trace := fst m.

(** The next render after a handler called on [s] has run to completion. *)
Definition call {A} (s : State) (m : M A) : State := render s (trace m).

(** ** What the revisions have *)

(** [gameMode] and the /daily_qb endpoint. *)
Definition hasModes (v : Client) : bool :=
  match v with Part001 => false | _ => true end.

(** [pfr_id] of a guess and [answerPfrId]. *)
Definition hasPfrId (v : Client) : bool :=
  match v with Part001 => false | _ => true end.

(** [position], [answerPosition], the session-expiry branch and the Give Up
    button. *)
Definition isPart000 (v : Client) : bool :=
  match v with Part000 => true | _ => false end.

Definition when (b : bool) (m : M unit) : M unit := if b then m else ret tt.

(** ** [loadGame] ([loadQB] in [PageTsx] and [Part001]) *)

Definition endpoint (v : Client) (mode : GameMode) : Request :=
  if hasModes v then
    match mode with daily => GetDailyQb | unlimited => GetRandomQb end
  else GetRandomQb.

Definition loadFailedLog (v : Client) : string :=
  if isPart000 v then "Failed to load game" else "Failed to load QB".

Definition loadGame (v : Client) (mode : GameMode) (rl : FetchResult) : M unit :=
  set_ (SetLoading true) ;;
  set_ (SetError None) ;;
  tryFinally
    (tryCatch
       (res <- fetch (endpoint v mode) rl ;;
        (if negb (ok res) then throw "Failed to load game" else ret tt) ;;
        data <- json res ;;
        set_ (SetSessionId (Json.session_id data)) ;;
        set_ (SetSeasons (Json.seasons data)) ;;
        when (isPart000 v)
          (set_ (SetPosition (match Json.position data with Some p => p | None => QB end))) ;;
        when (hasModes v) (set_ (SetGameMode mode)) ;;
        set_ (SetGuesses []) ;;
        set_ (SetGameWon false) ;;
        set_ (SetGameLost false) ;;
        set_ (SetAnswer None) ;;
        when (hasPfrId v) (set_ (SetAnswerPfrId None)) ;;
        when (isPart000 v) (set_ (SetAnswerPosition None)) ;;
        set_ (SetGuess "") ;;
        set_ (SetShowSeasons false) ;;
        set_ (SetShowTeams false) ;;
        set_ (SetShowAwards false))
       (fun err =>
          console (loadFailedLog v) ;;
          set_ (SetError (Some "Failed to load game. Please refresh the page."))))
    (set_ (SetLoading false)).

(** ** [revealAnswer] *)

Definition sessionExpiredNotice : string :=
  "Your session expired. A new game has been loaded!".

(** The branch of [Part000] for a 404 whose detail mentions the session:
    reload the game in the mode of the snapshot, and post a notice that a
    timer clears after three seconds. *)
Definition recoverSession (v : Client) (s : State) (rl : FetchResult) : M unit :=
  console "Session expired, reloading game..." ;;
  loadGame v (gameMode s) rl ;;
  set_ (SetError (Some sessionExpiredNotice)) ;;
  setTimeout 3000 (SetError None).

Definition isSessionExpiry (res : Response) (errorMessage : string) : bool :=
  (status res =? 404) && Js.includes errorMessage "Session not found".

Definition revealAnswer (v : Client) (s : State) (rr rl : FetchResult) : M unit :=
  if negb (Js.truthyOpt (sessionId s)) then ret tt
  else
    tryCatch
      (res <- fetch (PostReveal (sessionId s)) rr ;;
       if negb (ok res) then
         if isPart000 v then
           errorData <- json res ;;
           let errorMessage := Js.orElse (Json.detail errorData) "Failed to reveal answer" in
           if isSessionExpiry res errorMessage then recoverSession v s rl
           else throw errorMessage
         else throw "Failed to reveal answer"
       else
         data <- json res ;;
         set_ (SetAnswer (Json.name data)) ;;
         when (hasPfrId v) (set_ (SetAnswerPfrId (Json.pfr_id data))) ;;
         when (isPart000 v) (set_ (SetAnswerPosition (Json.position data))) ;;
         set_ (SetGameLost true))
      (fun err =>
         console "Failed to reveal answer" ;;
         set_ (SetError (Some (if isPart000 v then err else "Failed to reveal answer")))).

(** ** [submitGuess] *)

(** The object appended to [guesses]. *)
Definition newGuess (v : Client) (s : State) (data : Json.Body) : GuessResult :=
  {| name := guess s;
     correct := Json.correct data;
     era := Json.feedback_era data;
     teams_overlap := Json.feedback_teams_overlap data;
     pfr_id := if hasPfrId v then Json.pfr_id data else None |}.

Definition submitGuess (v : Client) (s : State) (rg rr rl : FetchResult) : M unit :=
  if negb (Js.truthy (Js.trim (guess s))) || gameWon s || gameLost s
     || negb (Js.truthyOpt (sessionId s)) then ret tt
  else if MAX_GUESSES <=? List.length (guesses s) then ret tt
  else
    tryCatch
      (res <- fetch (PostGuess (guess s) (sessionId s)) rg ;;
       if negb (ok res) then
         errorData <- json res ;;
         let errorMessage := Js.orElse (Json.detail errorData) "Guess failed" in
         if isPart000 v && isSessionExpiry res errorMessage then recoverSession v s rl
         else throw errorMessage
       else
         data <- json res ;;
         let newGuesses := guesses s ++ [newGuess v s data] in
         set_ (SetGuesses newGuesses) ;;
         (if Json.correct data then set_ (SetGameWon true)
          else if MAX_GUESSES <=? List.length newGuesses then revealAnswer v s rr rl
          else ret tt) ;;
         set_ (SetGuess "") ;;
         set_ (SetSuggestions []) ;;
         set_ (SetShowSuggestions false))
      (fun err =>
         console "Guess failed" ;;
         set_ (SetError (Some err))).

(** ** Feedback colour of a guess row

    The [className] fragment the guesses list chooses for a guess. *)

Definition noMatchClass (v : Client) : string :=
  if isPart000 v then "bg-[#374151] border-[#4b5563]"
  else "bg-slate-700 text-slate-300".

Definition greenClass (v : Client) : string :=
  if isPart000 v then "bg-gradient-to-r from-[#22c55e] to-[#16a34a] border-transparent"
  else "bg-gradient-to-r from-green-500 to-emerald-500 text-white shadow-lg".

Definition orangeClass (v : Client) : string :=
  if isPart000 v then "bg-gradient-to-r from-[#f59e0b] to-[#d97706] border-transparent"
  else "bg-gradient-to-r from-orange-400 to-amber-400 text-white shadow-md".

Definition yellowClass (v : Client) : string :=
  if isPart000 v then "bg-gradient-to-r from-[#eab308] to-[#ca8a04] border-transparent"
  else "bg-gradient-to-r from-yellow-400 to-yellow-500 text-slate-900 shadow-md".

Definition bgClass (v : Client) (g : GuessResult) : string :=
  if correct g then greenClass v
  else if Js.isTrue (teams_overlap g) then orangeClass v
  else if Js.strictEq (era g) "same" then yellowClass v
  else noMatchClass v.

(** ** The rendered page and its event handlers *)

(** The component returns one of three trees: the spinner while [loading],
    the error card, or the game.  [Part000] shows the error card only when no
    game is on screen ([error && !seasons.length]) and a toast otherwise. *)
Inductive Screen : Type := Spinner | ErrorCard | GamePage.

Definition screen (v : Client) (s : State) : Screen :=
  if loading s then Spinner
  else if Js.truthyOpt (error s)
          && (if isPart000 v then Nat.eqb (List.length (seasons s)) 0 else true)
       then ErrorCard
       else GamePage.

Definition onGamePage (v : Client) (s : State) : bool :=
  match screen v s with GamePage => true | _ => false end.

Definition onErrorCard (v : Client) (s : State) : bool :=
  match screen v s with ErrorCard => true | _ => false end.

Inductive Hint : Type := HintSeasons | HintTeams | HintAwards.

(** What the player can do, each with the answers of the server to the
    requests the handler may send ([rg] to /guess, [rr] to /reveal, [rl] to
    /daily_qb or /random_qb). *)
Inductive Event : Type :=
| TryAgain (rl : FetchResult)
| SwitchMode (mode : GameMode) (rl : FetchResult)
| NewGame (rl : FetchResult)
| Change (text : string)
| Submit (rg rr rl : FetchResult)
| GiveUp (rr rl : FetchResult)
| ShowHint (h : Hint)
| Minor (a : Setter).

Definition terminal (s : State) : bool := gameWon s || gameLost s.

(** The handlers not embedded one by one (the help dialog, the share button,
    the suggestions list and its keyboard navigation, the focus of the input,
    the callback of the autocomplete request, the callbacks of timers) call
    setters of these cells only; [Minor a] stands for any such call, at any
    time. *)
Definition minorSetter (a : Setter) : bool :=
  match a with
  | SetGuess _ | SetError _ | SetCopied _ | SetShowHelp _
  | SetSuggestions _ | SetShowSuggestions _ | SetSelectedSuggestionIndex _ => true
  | _ => false
  end.

Definition hintShown (s : State) (h : Hint) : bool :=
  match h with
  | HintSeasons => showSeasons s
  | HintTeams => showTeams s
  | HintAwards => showAwards s
  end.

(** Whether the element that raises the event is on screen and not
    [disabled].  [Submit] is the Enter key in the guess input (disabled once
    the game is over) or the Guess button (disabled, moreover, while the
    trimmed guess is empty). *)
Definition enabled (v : Client) (s : State) (ev : Event) : bool :=
  match ev with
  | TryAgain _ => onErrorCard v s
  | SwitchMode _ _ => onGamePage v s && hasModes v
  | NewGame _ => onGamePage v s && terminal s
  | Change _ => onGamePage v s && negb (terminal s)
  | Submit _ _ _ => onGamePage v s && negb (terminal s)
  | GiveUp _ _ => onGamePage v s && isPart000 v && negb (terminal s)
  | ShowHint h => onGamePage v s && negb (hintShown s h)
  | Minor a => minorSetter a
  end.

Definition modeEqb (a b : GameMode) : bool :=
  match a, b with
  | daily, daily | unlimited, unlimited => true
  | _, _ => false
  end.

Definition switchMode (v : Client) (s : State) (mode : GameMode) (rl : FetchResult) : M unit :=
  if negb (modeEqb mode (gameMode s)) then loadGame v mode rl else ret tt.

(** The handler of an event, as the render of state [s] binds it. *)
Definition handler (v : Client) (s : State) (ev : Event) : M unit :=
  match ev with
  | TryAgain rl => loadGame v (gameMode s) rl
  | SwitchMode mode rl => switchMode v s mode rl
  | NewGame rl => loadGame v (if isPart000 v then unlimited else gameMode s) rl
  | Change text => set_ (SetGuess text)
  | Submit rg rr rl => submitGuess v s rg rr rl
  | GiveUp rr rl => revealAnswer v s rr rl
  | ShowHint HintSeasons => set_ (SetShowSeasons true)
  | ShowHint HintTeams => set_ (SetShowTeams true)
  | ShowHint HintAwards => set_ (SetShowAwards true)
  | Minor a => set_ a
  end.

(** *** One handler at a time

    The page after an event whose handler ran to completion before anything
    else happened. *)
Definition stepSeq (v : Client) (s : State) (ev : Event) : State :=
  if enabled v s ev then call s (handler v s ev) else s.

(** The page after the mount effect ([loadGame("daily")], answered by [rl])
    and a sequence of events, each handled to completion. *)
Definition runSeq (v : Client) (rl : FetchResult) (evs : list Event) : State :=
  fold_left (stepSeq v) evs (call initialState (loadGame v daily rl)).

(** *** Handlers in flight

    A handler runs until its next [await fetch]; the rest of its trace waits
    for the response while the page is rendered and other events are handled.
    The rest still holds the values of the snapshot the handler was created
    in. *)

Record System : Type := mkSystem {
  cur : State;
  inflight : list Trace
}.

(** The effects up to and including the next request, and the rest. *)
Fixpoint untilFetch (t : Trace) : Trace * Trace :=
  match t with
  | [] => ([], [])
  | Fetch r :: t' => ([Fetch r], t')
  | e :: t' => let (now, later) := untilFetch t' in (e :: now, later)
  end.

(** The callbacks of the timers a segment starts. *)
Definition timersOf (t : Trace) : list Trace :=
  flat_map (fun e => match e with SetTimeout _ a => [[Set_ a]] | _ => [] end) t.

(** Run [t] to its next request on the current page; [others] are the other
    traces in flight. *)
Definition exec (s : State) (t : Trace) (others : list Trace) : System :=
  let (now, later) := untilFetch t in
  {| cur := render s now;
     inflight := others ++ match later with [] => [] | _ => [later] end ++ timersOf now |}.

Fixpoint removeNth {A} (i : nat) (l : list A) : list A :=
  match i, l with
  | _, [] => []
  | 0, _ :: l' => l'
  | S i', x :: l' => x :: removeNth i' l'
  end.

Inductive Step : Type :=
| Dispatch (ev : Event)       (* the player raises an event *)
| Resume (i : nat).           (* the i-th trace in flight goes on: its response
                                 has arrived, or its timer has fired *)

Definition step (v : Client) (sys : System) (st : Step) : System :=
  match st with
  | Dispatch ev =>
      if enabled v (cur sys) ev
      then exec (cur sys) (trace (handler v (cur sys) ev)) (inflight sys)
      else sys
  | Resume i =>
      match nth_error (inflight sys) i with
      | Some t => exec (cur sys) t (removeNth i (inflight sys))
      | None => sys
      end
  end.

(** The system after mounting: the first render with [loadGame("daily")]
    sent and waiting. *)
Definition boot (v : Client) (rl : FetchResult) : System :=
  exec initialState (trace (loadGame v daily rl)) [].

Definition run (v : Client) (rl : FetchResult) (steps : list Step) : System :=
  fold_left (step v) steps (boot v rl).

(** ** The autocomplete effect

    [useEffect(() => { ... }, [guess])]: when [guess] changes, React runs the
    cleanup the previous run returned and then the effect again.  The effect
    starts a timer whose callback sends the /autocomplete request; its cleanup
    clears that timer.  Time is a count of milliseconds. *)

Module Autocomplete.

(** The delay given to [setTimeout]. *)
Definition debounceMs (v : Client) : nat :=
  if isPart000 v then 200 else 250.

(** The callback of the timer, the server answering [r]. *)
Definition callback (v : Client) (q : string) (r : FetchResult) : M unit :=
  tryCatch
    (res <- fetch (GetAutocomplete q) r ;;
     (if negb (ok res) then throw "Autocomplete failed" else ret tt) ;;
     data <- json res ;;
     set_ (SetSuggestions (match Json.players data with Some l => l | None => [] end)) ;;
     set_ (SetShowSuggestions true) ;;
     when (isPart000 v) (set_ (SetSelectedSuggestionIndex None)))
    (fun _ => set_ (SetSuggestions [])).

(** A pending timeout: its identifier, the time it is due, and the guess
    its callback closes over. *)
Record Timer : Type := mkTimer {
  timerId : nat;
  due : nat;
  query : string
}.

(** A request sent, with the time it was sent at and, for reference, the
    guess in the input and the time of its last change at that moment. *)
Record Sent : Type := mkSent {
  sentAt : nat;
  request : Request;
  inputThen : string;
  lastChangeThen : nat
}.

Record Browser : Type := mkBrowser {
  now : nat;
  nextTimerId : nat;
  timers : list Timer;
  cleanup : option nat;     (* the timer the pending cleanup function clears *)
  input : string;           (* the guess the effect last ran for *)
  changedAt : nat;          (* when the guess last changed *)
  sent : list Sent
}.

Definition start : Browser :=
  {| now := 0; nextTimerId := 0; timers := []; cleanup := None;
     input := ""; changedAt := 0; sent := [] |}.

Definition clearTimeout (id : nat) (l : list Timer) : list Timer :=
  filter (fun tm => negb (timerId tm =? id)) l.

(** The guess changes to [g]: the pending cleanup runs, then the effect.
    The effect returns early, with no cleanup, when the trimmed guess is
    empty. *)
Definition onGuessChange (v : Client) (g : string) (b : Browser) : Browser :=
  let cleared :=
    match cleanup b with
    | Some id => clearTimeout id (timers b)
    | None => timers b
    end in
  if negb (Js.truthy (Js.trim g)) then
    {| now := now b; nextTimerId := nextTimerId b; timers := cleared;
       cleanup := None; input := g; changedAt := now b; sent := sent b |}
  else
    let id := nextTimerId b in
    {| now := now b; nextTimerId := S id;
       timers := cleared ++ [mkTimer id (now b + debounceMs v) g];
       cleanup := Some id; input := g; changedAt := now b; sent := sent b |}.

(** The setter calls of the effect itself (the early return). *)
Definition effectTrace (v : Client) (g : string) : Trace :=
  if negb (Js.truthy (Js.trim g)) then
    Set_ (SetSuggestions []) ::
    (if isPart000 v then [Set_ (SetSelectedSuggestionIndex None)] else [])
  else [].

(** The requests a timer sends when it comes due: those of its callback,
    the server answering [r]. *)
Definition fire (v : Client) (r : FetchResult) (b : Browser) (tm : Timer) : list Sent :=
  map (fun req => mkSent (due tm) req (input b) (changedAt b))
      (requests (trace (callback v (query tm) r))).

(** [dt] milliseconds pass: the timers that come due run their callback. *)
Definition elapse (v : Client) (dt : nat) (r : FetchResult) (b : Browser) : Browser :=
  let t := now b + dt in
  let fired := filter (fun tm => due tm <=? t) (timers b) in
  {| now := t; nextTimerId := nextTimerId b;
     timers := filter (fun tm => negb (due tm <=? t)) (timers b);
     cleanup := cleanup b; input := input b; changedAt := changedAt b;
     sent := sent b ++ flat_map (fire v r b) fired |}.

Inductive Event : Type :=
| Type_ (g : string)                 (* [setGuess(g)] *)
| Wait (dt : nat) (r : FetchResult). (* [dt] milliseconds pass; the server
                                        answers [r] to what is sent *)

(** [setGuess] with the value the cell already holds is no change: the
    effect does not run again. *)
Definition step (v : Client) (b : Browser) (ev : Event) : Browser :=
  match ev with
  | Type_ g => if String.eqb g (input b) then b else onGuessChange v g b
  | Wait dt r => elapse v dt r b
  end.

Definition run (v : Client) (evs : list Event) : Browser :=
  fold_left (step v) evs start.

(** Every pending timer is the one the pending cleanup clears, and was
    started by the last change of the guess. *)
Definition timersCurrent (v : Client) (b : Browser) : Prop :=
  forall tm, In tm (timers b) ->
    cleanup b = Some (timerId tm)
    /\ query tm = input b
    /\ due tm = changedAt b + debounceMs v.

(** Every request was sent for the guess then in the input, a full delay
    after the last change of that guess. *)
Definition sentDebounced (v : Client) (b : Browser) : Prop :=
  forall e, In e (sent b) ->
    request e = GetAutocomplete (inputThen e)
    /\ sentAt e = lastChangeThen e + debounceMs v.

End Autocomplete.

(** ** Notions used in the statements *)

(** The state passes both guards: [submitGuess] goes on to send /guess. *)
Definition accepts (s : State) : bool :=
  Js.truthy (Js.trim (guess s)) && negb (gameWon s) && negb (gameLost s)
  && Js.truthyOpt (sessionId s) && (List.length (guesses s) <? MAX_GUESSES).

(** A property [P] of single effects holds of every effect of a computation. *)
Definition allEffects (P : Effect -> bool) {A} (m : M A) : Prop :=
  forallb P (trace m) = true.

Definition boundedSetter (a : Setter) : bool :=
  match a with
  | SetGuesses gs => List.length gs <=? MAX_GUESSES
  | _ => true
  end.

(** The effect never stores more than [MAX_GUESSES] guesses. *)
Definition boundedEffect (e : Effect) : bool :=
  match e with
  | Set_ a | SetTimeout _ a => boundedSetter a
  | _ => true
  end.

Definition boundedTrace (t : Trace) : Prop := forallb boundedEffect t = true.

(** The invariant of the system: the page holds at most [MAX_GUESSES]
    guesses, and so does every value a trace in flight will store. *)
Definition guessesBounded (sys : System) : Prop :=
  List.length (guesses (cur sys)) <= MAX_GUESSES /\ Forall boundedTrace (inflight sys).

(** A sequence of [submitGuess] calls, each run to completion on the page the
    previous one left, the player typing [text] before each: the last page
    and the effects of all the calls. *)
Fixpoint submitAll (v : Client) (s : State)
    (calls : list (string * FetchResult * FetchResult * FetchResult)) : State * Trace :=
  match calls with
  | [] => (s, [])
  | (text, rg, rr, rl) :: rest =>
      let s1 := if terminal s then s else call s (set_ (SetGuess text)) in
      let m := submitGuess v s1 rg rr rl in
      let (s', t) := submitAll v (call s1 m) rest in
      (s', trace m ++ t)
  end.

(** ** Sample server answers and pages *)

Module Sample.

Definition okGame : FetchResult :=
  Responded (mkResponse 200 (Parsed (Json.game "s-1" [mkSeasonStats 2021 (Some "NWE") (Some 17) None] (Some QB)))).

Definition right : FetchResult :=
  Responded (mkResponse 200 (Parsed (Json.guess true None (Some "JoneMa05")))).

Definition wrong : FetchResult :=
  Responded (mkResponse 200
    (Parsed (Json.guess false (Some (Json.mkFeedback (Some "far") (Some false))) (Some "BradTo00")))).

Definition okReveal : FetchResult :=
  Responded (mkResponse 200 (Parsed (Json.reveal "Mac Jones" (Some "JoneMa05") (Some QB)))).

Definition sessionGone : FetchResult :=
  Responded (mkResponse 404 (Parsed (Json.error "Session not found"))).

Definition offline : FetchResult := NetworkError "Failed to fetch".

(** The page of a freshly loaded daily game. *)
Definition fresh (v : Client) : State := runSeq v okGame [].

(** The player has typed a name. *)
Definition typed (v : Client) : State := runSeq v okGame [Change "Tom Brady"].

Definition wrongCall : string * FetchResult * FetchResult * FetchResult :=
  ("Tom Brady", wrong, offline, offline).

(** Seven wrong guesses, and an eighth name typed. *)
Definition seven (v : Client) : State :=
  call (fst (submitAll v (fresh v) (repeat wrongCall 7))) (set_ (SetGuess "Tom Brady")).

(** Eight wrong guesses whose /reveal request failed (the game is not
    over), and a ninth name typed. *)
Definition eight (v : Client) : State :=
  call (fst (submitAll v (fresh v) (repeat wrongCall 8))) (set_ (SetGuess "Tom Brady")).

End Sample.



(** Two races.  In [Part000]: the player submits the right name and clicks
    Give Up before /guess has answered; both requests succeed.  In [PageTsx]:
    with seven wrong guesses on the page, the player submits a wrong name,
    then the right one, before the first /guess has answered. *)
Module Race.

Import Sample.


Definition wrongRound : list Step :=
  [Dispatch (Change "Tom Brady"); Dispatch (Submit wrong offline offline); Resume 0].

Definition twoGuesses : list Step :=
  Resume 0 :: List.concat (repeat wrongRound 7)
  ++ [Dispatch (Change "Tom Brady");
      Dispatch (Submit wrong okReveal offline);
      Dispatch (Change "Mac Jones");
      Dispatch (Submit right offline offline);
      Resume 0;
      Resume 1;
      Resume 0].

End Race.

(** * The rest of the page *)

(** ** [getPfrUrl] ([PageTsx] and [Part000]) *)

(** [s.charAt(0)]: the first character, or the empty string. *)
Definition charAt0 (s : string) : string :=
  match s with
  | EmptyString => EmptyString
  | String c _ => String c EmptyString
  end.

Definition pfrPlayers : string := "https://www.pro-football-reference.com/players/".

Definition getPfrUrl (pfrId : string) : string :=
  String.append pfrPlayers
    (String.append (charAt0 pfrId)
       (String.append "/" (String.append pfrId ".htm"))).

(** ** [hintsUsed] *)

Definition hintsUsed (s : State) : nat :=
  List.length (filter (fun b : bool => b) [showSeasons s; showTeams s; showAwards s]).

(** ** The progress dots of [Part000]

    [Array.from({ length: MAX_GUESSES })] mapped to a dot each; [g] is
    [guesses[i]], [undefined] past the end of the list. *)

Definition emptyDot : string := "bg-[#2a3046]".
Definition greenDot : string := "bg-[#22c55e]".
Definition orangeDot : string := "bg-[#f59e0b]".
Definition yellowDot : string := "bg-[#eab308]".
Definition noMatchDot : string := "bg-[#374151]".

Definition dotClass (g : option GuessResult) : string :=
  match g with
  | None => emptyDot
  | Some g =>
      if correct g then greenDot
      else if Js.isTrue (teams_overlap g) then orangeDot
      else if Js.strictEq (era g) "same" then yellowDot
      else noMatchDot
  end.

Definition dotScale (g : option GuessResult) : string :=
  match g with Some _ => "scale-100" | None => "scale-75 opacity-50" end.

Definition progressDots (s : State) : list (string * string) :=
  map (fun i => (dotClass (nth_error (guesses s) i), dotScale (nth_error (guesses s) i)))
      (seq 0 MAX_GUESSES).

(** ** The suggestions list and the keyboard *)

(** [onFocus] of the input, and [onBlur] in [Part000]. *)
Definition onFocus : M unit := set_ (SetShowSuggestions true).

(** [onClick] ([onMouseDown] in [Part000]) of a row of the list.  The
    handler of [Part000] ends with [inputRef.current?.focus()]: when the
    input does not have the focus ([focused] is false, as within the 150 ms
    after a blur) and is not disabled, the browser gives it the focus and its
    [onFocus] runs, inside the handler. *)
Definition pickSuggestion (v : Client) (s : State) (focused : bool)
    (suggestion : string) : M unit :=
  set_ (SetGuess suggestion) ;;
  set_ (SetSuggestions []) ;;
  set_ (SetShowSuggestions false) ;;
  when (isPart000 v && negb focused && negb (gameWon s || gameLost s)) onFocus.

Definition onBlur : M unit := setTimeout 150 (SetShowSuggestions false).

(** [handleKeyPress] of [PageTsx] and [Part001]. *)
Definition handleKeyPress (v : Client) (s : State) (key : string)
    (rg rr rl : FetchResult) : M unit :=
  if String.eqb key "Enter" then submitGuess v s rg rr rl else ret tt.

(** [selectedSuggestionIndex] as the number the component holds: [-1] when
    nothing is selected. *)
Definition indexOf (o : option nat) : Z :=
  match o with None => (-1)%Z | Some i => Z.of_nat i end.

Definition toIndex (z : Z) : option nat :=
  if (z <? 0)%Z then None else Some (Z.to_nat z).

(** The updaters given to [setSelectedSuggestionIndex] by the arrow keys;
    [len] is [suggestions.length]. *)
Definition arrowDown (len : nat) (prev : Z) : Z :=
  if (prev <? Z.of_nat len - 1)%Z then (prev + 1)%Z else 0%Z.

Definition arrowUp (len : nat) (prev : Z) : Z :=
  if (prev >? 0)%Z then (prev - 1)%Z else (Z.of_nat len - 1)%Z.

(** [handleKeyDown] of [Part000].  The updaters are applied to the index of
    the page the handler is bound on (key events are handled one at a time).
    The result is [None] when the handler would store [undefined] as the
    guess: [suggestions[selectedSuggestionIndex]] past the end of the list. *)
Definition handleKeyDown (s : State) (key : string) (rg rr rl : FetchResult)
    : option (M unit) :=
  let len := List.length (suggestions s) in
  let prev := indexOf (selectedSuggestionIndex s) in
  if showSuggestions s && (0 <? len) then
    if String.eqb key "ArrowDown" then
      Some (set_ (SetSelectedSuggestionIndex (toIndex (arrowDown len prev))))
    else if String.eqb key "ArrowUp" then
      Some (set_ (SetSelectedSuggestionIndex (toIndex (arrowUp len prev))))
    else if String.eqb key "Enter" && (0 <=? prev)%Z then
      match nth_error (suggestions s) (Z.to_nat prev) with
      | Some suggestion =>
          Some (set_ (SetGuess suggestion) ;;
                set_ (SetSuggestions []) ;;
                set_ (SetShowSuggestions false) ;;
                set_ (SetSelectedSuggestionIndex None))
      | None => None
      end
    else if String.eqb key "Enter" then Some (submitGuess Part000 s rg rr rl)
    else if String.eqb key "Escape" then Some (set_ (SetShowSuggestions false))
    else Some (ret tt)
  else if String.eqb key "Enter" then Some (submitGuess Part000 s rg rr rl)
  else Some (ret tt).

(** The key handler of the guess input in each revision. *)
Definition onKey (v : Client) (s : State) (key : string) (rg rr rl : FetchResult)
    : option (M unit) :=
  if isPart000 v then handleKeyDown s key rg rr rl
  else Some (handleKeyPress v s key rg rr rl).

(** What happens around the suggestions list, besides the events of the
    game. *)
Inductive UiEvent : Type :=
| Game (ev : Event)
| KeyDown (key : string) (rg rr rl : FetchResult)
| PickSuggestion (suggestion : string) (focused : bool)
                                            (* [focused]: the input has the focus *)
| Focus
| BlurTimeout                               (* the timer of [onBlur] fires *)
| GuessEffect                               (* the autocomplete effect runs *)
| Suggest (q : string) (r : FetchResult).   (* its timer fires: the callback *)

Definition isMinor (ev : Event) : bool :=
  match ev with Minor _ => true | _ => false end.

(** The input takes keys and focus while it is on screen and not disabled;
    a row can be picked while the list is open and holds it. *)
Definition uiEnabled (v : Client) (s : State) (ev : UiEvent) : bool :=
  match ev with
  | Game ev => enabled v s ev && negb (isMinor ev)
  | KeyDown _ _ _ _ => onGamePage v s && negb (terminal s)
  | PickSuggestion suggestion _ =>
      onGamePage v s && showSuggestions s
      && existsb (String.eqb suggestion) (suggestions s)
  | Focus => onGamePage v s && negb (terminal s)
  | BlurTimeout => isPart000 v
  | GuessEffect => true
  | Suggest _ _ => true
  end.

Definition uiHandler (v : Client) (s : State) (ev : UiEvent) : option (M unit) :=
  match ev with
  | Game ev => Some (handler v s ev)
  | KeyDown key rg rr rl => onKey v s key rg rr rl
  | PickSuggestion suggestion focused => Some (pickSuggestion v s focused suggestion)
  | Focus => Some onFocus
  | BlurTimeout => Some (set_ (SetShowSuggestions false))
  | GuessEffect => Some (Autocomplete.effectTrace v (guess s), inr tt)
  | Suggest q r => Some (Autocomplete.callback v q r)
  end.

(** The page after one of these events, handled to completion. *)
Definition uiStep (v : Client) (s : State) (ev : UiEvent) : State :=
  if uiEnabled v s ev then
    match uiHandler v s ev with
    | Some m => call s m
    | None => s
    end
  else s.

Definition uiRun (v : Client) (rl : FetchResult) (evs : list UiEvent) : State :=
  fold_left (uiStep v) evs (call initialState (loadGame v daily rl)).

(** The selected index, when there is one, points into the list (or the list
    is empty, and then the handler does not look at it); only [Part000] ever
    selects. *)
Definition indexInRange (v : Client) (s : State) : bool :=
  match selectedSuggestionIndex s with
  | None => true
  | Some i =>
      isPart000 v
      && ((i <? List.length (suggestions s)) || (List.length (suggestions s) =? 0))
  end.

(** ** Failed requests *)

(** [fetch] rejects, or the status is not 2xx, or the body is not JSON. *)
Definition failed (r : FetchResult) : bool :=
  match r with
  | NetworkError _ => true
  | Responded res =>
      negb (ok res) || match body res with BadJson _ => true | Parsed _ => false end
  end.

(** ** Notions used in the properties of the rest of the page *)

(** The message of the error a failed request ends in: that of the rejection
    of [fetch] or of [res.json()], else [detail || fallback]. *)
Definition failureMessage (r : FetchResult) (fallback : string) : string :=
  match r with
  | NetworkError msg => msg
  | Responded res =>
      match body res with
      | BadJson msg => msg
      | Parsed data => Js.orElse (Json.detail data) fallback
      end
  end.

(** The answer takes the session-expiry branch of [Part000]. *)
Definition expired (v : Client) (r : FetchResult) (fallback : string) : bool :=
  isPart000 v &&
  match r with
  | NetworkError _ => false
  | Responded res =>
      negb (ok res) &&
      match body res with
      | BadJson _ => false
      | Parsed data => isSessionExpiry res (Js.orElse (Json.detail data) fallback)
      end
  end.

(** The game cells of two pages agree: session, statistics, mode, guesses,
    flags, answer and hints. *)
Definition sameGame (s s' : State) : Prop :=
  sessionId s' = sessionId s /\ seasons s' = seasons s /\ gameMode s' = gameMode s
  /\ position s' = position s
  /\ guesses s' = guesses s /\ gameWon s' = gameWon s /\ gameLost s' = gameLost s
  /\ answer s' = answer s /\ answerPfrId s' = answerPfrId s
  /\ answerPosition s' = answerPosition s
  /\ showSeasons s' = showSeasons s /\ showTeams s' = showTeams s
  /\ showAwards s' = showAwards s.


(** The effect leaves the selected index in range: it stores no list but the
    empty one and selects nothing. *)
Definition keepsList (e : Effect) : bool :=
  match e with
  | Set_ (SetSuggestions (_ :: _)) | SetTimeout _ (SetSuggestions (_ :: _)) => false
  | Set_ (SetSelectedSuggestionIndex (Some _))
  | SetTimeout _ (SetSelectedSuggestionIndex (Some _)) => false
  | _ => true
  end.

(** The effect stores no guess but the empty one. *)
Definition clearsGuess (e : Effect) : bool :=
  match e with
  | Set_ (SetGuess g) | SetTimeout _ (SetGuess g) => negb (Js.truthy g)
  | _ => true
  end.


Definition allWrong (l : list GuessResult) : bool :=
  forallb (fun g => negb (correct g)) l.

(** The game is won exactly when the last guess of the list is correct, and
    no other guess of the list ever is. *)
Definition wonByLast (s : State) : Prop :=
  (gameWon s = true ->
   exists l g, guesses s = l ++ [g] /\ correct g = true /\ allWrong l = true)
  /\ (gameWon s = false -> allWrong (guesses s) = true).

(** The effect stores wrong guesses only and does not raise [gameWon]. *)
Definition keepsWrong (e : Effect) : bool :=
  match e with
  | Set_ (SetGuesses l) | SetTimeout _ (SetGuesses l) => allWrong l
  | Set_ (SetGameWon true) | SetTimeout _ (SetGameWon true) => false
  | _ => true
  end.


Definition optEqb (a b : option string) : bool :=
  match a, b with
  | Some x, Some y => String.eqb x y
  | None, None => true
  | _, _ => false
  end.

(** A request a handler bound on page [s] may send: /guess with the guess
    and the session of the page, the guess not blank; /reveal with the session
    of the page; a load; never /autocomplete; and /daily_qb only where modes
    exist. *)
Definition sentFrom (v : Client) (s : State) (e : Effect) : bool :=
  match e with
  | Fetch (PostGuess g sid) =>
      Js.truthy (Js.trim g) && String.eqb g (guess s)
      && Js.truthyOpt sid && optEqb sid (sessionId s)
  | Fetch (PostReveal sid) => Js.truthyOpt sid && optEqb sid (sessionId s)
  | Fetch (GetAutocomplete _) => false
  | Fetch GetDailyQb => hasModes v
  | Fetch GetRandomQb => true
  | _ => true
  end.


(** The effect stores no mode other than [m]. *)
Definition modeOnly (m : GameMode) (e : Effect) : bool :=
  match e with
  | Set_ (SetGameMode m') => modeEqb m' m
  | _ => true
  end.


Definition isType (ev : Autocomplete.Event) : bool :=
  match ev with Autocomplete.Type_ _ => true | Autocomplete.Wait _ _ => false end.

(** Pending timers and requests sent are for guesses that are not blank. *)
Definition noBlank (b : Autocomplete.Browser) : Prop :=
  (forall tm, In tm (Autocomplete.timers b) -> Js.allWhiteSpace (Autocomplete.query tm) = false)
  /\ (forall e, In e (Autocomplete.sent b) ->
        exists q, Autocomplete.request e = GetAutocomplete q /\ Js.allWhiteSpace q = false).

(** ** The session-expiry branch *)

(** The handler run [m], called on page [s] after the request [req] was
    answered 404 with detail [msg], recreated the session.  After [req] it
    sent the request that loads a game in the current mode, and no other; it
    started one timer, which clears the error cell after three seconds; the
    error cell holds the expiry notice and not the detail.  When the load
    succeeds the page holds a fresh game of the new session in the same mode:
    it is on screen as the game page (the notice as a toast) when the new
    game has statistics, and otherwise the error card shows the notice until
    the timer clears it.  When the load fails the game is left as it was. *)
Definition Recovered (v : Client) (s : State) (rl : FetchResult) (msg : string)
    (req : Request) (m : M unit) : Prop :=
  requests (trace m) = [req; endpoint v (gameMode s)]
  /\ timersOf (trace m) = [[Set_ (SetError None)]]
  /\ In (SetTimeout 3000 (SetError None)) (trace m)
  /\ error (call s m) = Some sessionExpiredNotice
  /\ error (call s m) <> Some msg
  /\ loading (call s m) = false
  /\ (forall res' data',
        rl = Responded res' -> ok res' = true -> body res' = Parsed data' ->
        sessionId (call s m) = Json.session_id data'
        /\ seasons (call s m) = Json.seasons data'
        /\ gameMode (call s m) = gameMode s
        /\ guesses (call s m) = []
        /\ terminal (call s m) = false
        /\ answer (call s m) = None
        /\ guess (call s m) = ""
        /\ hintsUsed (call s m) = 0
        /\ screen v (call s m) =
             (if List.length (Json.seasons data') =? 0 then ErrorCard else GamePage)
        /\ screen v (render (call s m) [Set_ (SetError None)]) = GamePage)
  /\ (failed rl = true -> sameGame s (call s m)).

(** The handler run [m] treated the answer as any other failure: it sent
    [req] and no other request, so reloaded nothing; it started no timer and
    left the game as it was; and it stored [shown] as the error, which puts
    the error card on screen. *)
Definition Surfaced (v : Client) (s : State) (req : Request) (shown : string)
    (m : M unit) : Prop :=
  requests (trace m) = [req]
  /\ timersOf (trace m) = []
  /\ sameGame s (call s m)
  /\ error (call s m) = Some shown
  /\ (loading s = false -> screen v (call s m) = ErrorCard).

(** The revision recreates the session whenever /guess or /reveal answers
    404 with a detail that mentions "Session not found". *)
Definition RecoversSession (v : Client) : Prop :=
  forall (s : State) (rr rl : FetchResult) (res : Response) (data : Json.Body) (msg : string),
    status res = 404 -> body res = Parsed data ->
    Json.detail data = Some msg -> Js.includes msg "Session not found" = true ->
    (accepts s = true ->
     Recovered v s rl msg (PostGuess (guess s) (sessionId s))
       (submitGuess v s (Responded res) rr rl))
    /\ (Js.truthyOpt (sessionId s) = true ->
        Recovered v s rl msg (PostReveal (sessionId s))
          (revealAnswer v s (Responded res) rl)).

(** The revision shows such an answer as a failure: the detail for /guess,
    "Failed to reveal answer" for /reveal. *)
Definition SurfacesExpiry (v : Client) : Prop :=
  forall (s : State) (rr rl : FetchResult) (res : Response) (data : Json.Body) (msg : string),
    status res = 404 -> body res = Parsed data ->
    Json.detail data = Some msg -> Js.includes msg "Session not found" = true ->
    (accepts s = true ->
     Surfaced v s (PostGuess (guess s) (sessionId s)) msg
       (submitGuess v s (Responded res) rr rl))
    /\ (Js.truthyOpt (sessionId s) = true ->
        Surfaced v s (PostReveal (sessionId s)) "Failed to reveal answer"
          (revealAnswer v s (Responded res) rl)).

(** * Properties *)

(** ** Strings *)

Lemma trimStart_allWhiteSpace (s : string) :
  Js.allWhiteSpace s = true -> Js.trimStart s = "".
Proof.
  induction s as [|c s IH]; simpl; intros H; [reflexivity|].
  apply andb_prop in H as [Hc Hs]. rewrite Hc. exact (IH Hs).
Qed.

Lemma trimStart_head (s : string) :
  Js.allWhiteSpace s = false ->
  exists c t, Js.trimStart s = String c t /\ Js.isWhiteSpace c = false.
Proof.
  induction s as [|c s IH]; simpl; intros H; [discriminate|].
  destruct (Js.isWhiteSpace c) eqn:Hc.
  - apply IH. exact H.
  - exists c, s. split; [reflexivity | exact Hc].
Qed.

Lemma trimEnd_head (c : ascii) (t : string) :
  Js.isWhiteSpace c = false -> Js.truthy (Js.trimEnd (String c t)) = true.
Proof.
  intros Hc. simpl. destruct (Js.trimEnd t); [rewrite Hc|]; reflexivity.
Qed.

(** [!guess.trim()] holds exactly for the strings made of white space. *)
Lemma trim_falsy_iff (s : string) :
  Js.truthy (Js.trim s) = false <-> Js.allWhiteSpace s = true.
Proof.
  unfold Js.trim. split; intros H.
  - destruct (Js.allWhiteSpace s) eqn:Hs; [reflexivity|].
    destruct (trimStart_head s Hs) as (c & t & Ht & Hc).
    rewrite Ht, (trimEnd_head c t Hc) in H. discriminate.
  - rewrite (trimStart_allWhiteSpace s H). reflexivity.
Qed.

(** ** The guards of [submitGuess] *)

Lemma submitGuess_rejects (v : Client) (s : State) (rg rr rl : FetchResult) :
  accepts s = false -> submitGuess v s rg rr rl = ret tt.
Proof.
  unfold accepts, submitGuess. intros H.
  destruct (Js.truthy (Js.trim (guess s))); [|reflexivity].
  destruct (gameWon s); [reflexivity|].
  destruct (gameLost s); [reflexivity|].
  destruct (Js.truthyOpt (sessionId s)); [|reflexivity].
  cbn [andb negb orb] in *.
  rewrite Nat.ltb_antisym in H. apply negb_false_iff in H.
  rewrite H. reflexivity.
Qed.

(** What [submitGuess] does once the guards are passed. *)
Lemma submitGuess_accepts (v : Client) (s : State) (rg rr rl : FetchResult) :
  accepts s = true ->
  submitGuess v s rg rr rl =
  tryCatch
    (res <- fetch (PostGuess (guess s) (sessionId s)) rg ;;
     if negb (ok res) then
       errorData <- json res ;;
       let errorMessage := Js.orElse (Json.detail errorData) "Guess failed" in
       if isPart000 v && isSessionExpiry res errorMessage then recoverSession v s rl
       else throw errorMessage
     else
       data <- json res ;;
       let newGuesses := guesses s ++ [newGuess v s data] in
       set_ (SetGuesses newGuesses) ;;
       (if Json.correct data then set_ (SetGameWon true)
        else if MAX_GUESSES <=? List.length newGuesses then revealAnswer v s rr rl
        else ret tt) ;;
       set_ (SetGuess "") ;;
       set_ (SetSuggestions []) ;;
       set_ (SetShowSuggestions false))
    (fun err => console "Guess failed" ;; set_ (SetError (Some err))).
Proof.
  unfold accepts. intros H.
  repeat (apply andb_prop in H as [H ?]).
  unfold submitGuess.
  rewrite H. destruct (gameWon s); [discriminate|]. destruct (gameLost s); [discriminate|].
  match goal with Hs : Js.truthyOpt _ = true |- _ => rewrite Hs end.
  match goal with Hl : (_ <? _) = true |- _ =>
    rewrite Nat.ltb_antisym in Hl; apply negb_true_iff in Hl; rewrite Hl end.
  reflexivity.
Qed.

(** ** Properties of every effect of a handler

    A property [P] of single effects holds of a computation when it holds of
    every effect of its trace; the lemmas follow the shape of the handlers. *)

Section AllEffects.

Variable P : Effect -> bool.

Lemma allEffects_ret {A} (a : A) : allEffects P (ret a).
Proof. reflexivity. Qed.

Lemma allEffects_throw {A} (msg : string) : allEffects P (@throw A msg).
Proof. reflexivity. Qed.

Lemma allEffects_emit (e : Effect) : P e = true -> allEffects P (emit e).
Proof. intros H. unfold allEffects. simpl. rewrite H. reflexivity. Qed.

Lemma allEffects_fetch (req : Request) (r : FetchResult) :
  P (Fetch req) = true -> allEffects P (fetch req r).
Proof. intros H. unfold allEffects. simpl. rewrite H. reflexivity. Qed.

Lemma allEffects_json (res : Response) : allEffects P (json res).
Proof. unfold json. destruct (body res); reflexivity. Qed.

Lemma allEffects_bind {A B} (m : M A) (k : A -> M B) :
  allEffects P m -> (forall a, allEffects P (k a)) -> allEffects P (bind m k).
Proof.
  unfold allEffects, bind. destruct m as [t [e|a]]; simpl; intros Hm Hk; [exact Hm|].
  specialize (Hk a). destruct (k a) as [t' r]. simpl in *.
  rewrite forallb_app, Hm, Hk. reflexivity.
Qed.

Lemma allEffects_tryCatch {A} (m : M A) (h : string -> M A) :
  allEffects P m -> (forall e, allEffects P (h e)) -> allEffects P (tryCatch m h).
Proof.
  unfold allEffects, tryCatch. destruct m as [t [e|a]]; simpl; intros Hm Hh; [|exact Hm].
  specialize (Hh e). destruct (h e) as [t' r]. simpl in *.
  rewrite forallb_app, Hm, Hh. reflexivity.
Qed.

Lemma allEffects_tryFinally {A} (m : M A) (f : M unit) :
  allEffects P m -> allEffects P f -> allEffects P (tryFinally m f).
Proof.
  unfold allEffects, tryFinally. destruct m as [t r], f as [t' [e|u]]; simpl;
    intros Hm Hf; rewrite forallb_app, Hm, Hf; reflexivity.
Qed.

Lemma allEffects_when (b : bool) (m : M unit) : allEffects P m -> allEffects P (when b m).
Proof. destruct b; simpl; [trivial | reflexivity]. Qed.

End AllEffects.

(** Split a goal [allEffects P m] along the shape of [m]; what is left are the
    single effects. *)
Ltac effects_step :=
  first
    [ apply allEffects_ret
    | apply allEffects_throw
    | apply allEffects_json
    | apply allEffects_bind; [|intros ?]
    | apply allEffects_tryCatch; [|intros ?]
    | apply allEffects_tryFinally
    | apply allEffects_when
    | apply allEffects_fetch; [reflexivity]
    | apply allEffects_emit; [reflexivity]
    | match goal with
      | |- allEffects _ (if ?c then _ else _) => destruct c eqn:?
      | |- allEffects _ (let _ := _ in _) => cbv zeta
      end ].

Ltac effects := unfold set_, console, setTimeout; repeat effects_step.

(** ** The bound on the guesses list *)

Lemma loadGame_bounded (v : Client) (mode : GameMode) (rl : FetchResult) :
  allEffects boundedEffect (loadGame v mode rl).
Proof. unfold loadGame. effects. Qed.

Lemma recoverSession_bounded (v : Client) (s : State) (rl : FetchResult) :
  allEffects boundedEffect (recoverSession v s rl).
Proof. unfold recoverSession. effects; try apply loadGame_bounded. Qed.

Lemma revealAnswer_bounded (v : Client) (s : State) (rr rl : FetchResult) :
  allEffects boundedEffect (revealAnswer v s rr rl).
Proof. unfold revealAnswer. effects; try apply recoverSession_bounded. Qed.

Lemma submitGuess_bounded (v : Client) (s : State) (rg rr rl : FetchResult) :
  allEffects boundedEffect (submitGuess v s rg rr rl).
Proof.
  destruct (accepts s) eqn:Ha.
  - rewrite (submitGuess_accepts v s rg rr rl Ha). effects;
      try apply recoverSession_bounded; try apply revealAnswer_bounded.
    apply allEffects_emit. simpl. apply Nat.leb_le.
    unfold accepts in Ha. apply andb_prop in Ha as [_ Hl]. apply Nat.ltb_lt in Hl.
    rewrite length_app. simpl. lia.
  - rewrite (submitGuess_rejects v s rg rr rl Ha). apply allEffects_ret.
Qed.

Lemma handler_bounded (v : Client) (s : State) (ev : Event) :
  enabled v s ev = true -> allEffects boundedEffect (handler v s ev).
Proof.
  intros He.
  destruct ev as [rl|mode rl|rl|text|rg rr rl|rr rl|[| |]|a]; simpl.
  - apply loadGame_bounded.
  - unfold switchMode. destruct (negb _); [apply loadGame_bounded | apply allEffects_ret].
  - apply loadGame_bounded.
  - effects.
  - apply submitGuess_bounded.
  - apply revealAnswer_bounded.
  - effects.
  - effects.
  - effects.
  - destruct a; try discriminate He; effects.
Qed.

Lemma applyEffect_bounded (s : State) (e : Effect) :
  List.length (guesses s) <= MAX_GUESSES -> boundedEffect e = true ->
  List.length (guesses (applyEffect s e)) <= MAX_GUESSES.
Proof.
  intros Hs He. destruct e as [r|a|msg|ms a]; simpl; try exact Hs.
  destruct a; simpl in *; try exact Hs. apply Nat.leb_le. exact He.
Qed.

Lemma render_bounded (t : Trace) : forall s,
  List.length (guesses s) <= MAX_GUESSES -> boundedTrace t ->
  List.length (guesses (render s t)) <= MAX_GUESSES.
Proof.
  unfold boundedTrace, render.
  induction t as [|e t IH]; simpl; intros s Hs Ht; [exact Hs|].
  apply andb_prop in Ht as [He Ht].
  apply IH; [apply applyEffect_bounded; assumption | exact Ht].
Qed.

Lemma untilFetch_app (t : Trace) :
  t = fst (untilFetch t) ++ snd (untilFetch t).
Proof.
  induction t as [|e t IH]; [reflexivity|].
  destruct e; simpl; try reflexivity;
    destruct (untilFetch t) as [now later]; simpl in *; rewrite <- IH; reflexivity.
Qed.

Lemma untilFetch_bounded (t : Trace) :
  boundedTrace t ->
  boundedTrace (fst (untilFetch t)) /\ boundedTrace (snd (untilFetch t)).
Proof.
  unfold boundedTrace. intros H. rewrite (untilFetch_app t), forallb_app in H.
  apply andb_prop in H. exact H.
Qed.

Lemma timersOf_bounded (t : Trace) :
  boundedTrace t -> Forall boundedTrace (timersOf t).
Proof.
  unfold boundedTrace, timersOf.
  induction t as [|e t IH]; simpl; intros H; [constructor|].
  apply andb_prop in H as [He Ht]. apply Forall_app. split; [|exact (IH Ht)].
  destruct e; try constructor; [|constructor]. simpl in *. rewrite He. reflexivity.
Qed.

Lemma removeNth_Forall {A} (Q : A -> Prop) (l : list A) : forall i,
  Forall Q l -> Forall Q (removeNth i l).
Proof.
  induction l as [|x l IH]; intros i H; destruct i; simpl; trivial;
    inversion H; subst; [assumption | constructor; auto].
Qed.

Lemma exec_bounded (s : State) (t : Trace) (others : list Trace) :
  List.length (guesses s) <= MAX_GUESSES -> boundedTrace t -> Forall boundedTrace others ->
  guessesBounded (exec s t others).
Proof.
  intros Hs Ht Ho. unfold exec.
  destruct (untilFetch_bounded t Ht) as [Hnow Hlater].
  destruct (untilFetch t) as [now later]. simpl in *.
  split; simpl.
  - apply render_bounded; assumption.
  - apply Forall_app. split; [exact Ho|]. apply Forall_app. split.
    + destruct later; constructor; [assumption | constructor].
    + apply timersOf_bounded. exact Hnow.
Qed.

Lemma step_bounded (v : Client) (sys : System) (st : Step) :
  guessesBounded sys -> guessesBounded (step v sys st).
Proof.
  intros [Hs Hf]. destruct st as [ev|i]; simpl.
  - destruct (enabled v (cur sys) ev) eqn:He; [|split; assumption].
    apply exec_bounded; [assumption | apply handler_bounded, He | assumption].
  - destruct (nth_error (inflight sys) i) as [t|] eqn:Hi; [|split; assumption].
    apply exec_bounded; [assumption | | apply removeNth_Forall; assumption].
    apply nth_error_In in Hi. rewrite Forall_forall in Hf. exact (Hf t Hi).
Qed.

Lemma run_bounded (v : Client) (rl : FetchResult) (steps : list Step) :
  guessesBounded (run v rl steps).
Proof.
  unfold run.
  assert (H : guessesBounded (boot v rl)).
  { apply exec_bounded; [simpl; unfold MAX_GUESSES; lia | apply loadGame_bounded | constructor]. }
  revert H. generalize (boot v rl).
  induction steps as [|st steps IH]; simpl; intros sys H; [exact H|].
  apply IH, step_bounded, H.
Qed.

Lemma stepSeq_bounded (v : Client) (s : State) (ev : Event) :
  List.length (guesses s) <= MAX_GUESSES ->
  List.length (guesses (stepSeq v s ev)) <= MAX_GUESSES.
Proof.
  intros H. unfold stepSeq, call. destruct (enabled v s ev) eqn:He; [|exact H].
  apply render_bounded; [exact H | apply handler_bounded, He].
Qed.

Lemma runSeq_bounded (v : Client) (rl : FetchResult) (evs : list Event) :
  List.length (guesses (runSeq v rl evs)) <= MAX_GUESSES.
Proof.
  unfold runSeq.
  assert (H : List.length (guesses (call initialState (loadGame v daily rl))) <= MAX_GUESSES).
  { apply render_bounded; [simpl; unfold MAX_GUESSES; lia | apply loadGame_bounded]. }
  revert H. generalize (call initialState (loadGame v daily rl)).
  induction evs as [|ev evs IH]; simpl; intros s H; [exact H|].
  apply IH, stepSeq_bounded, H.
Qed.

Lemma submitAll_bounded (v : Client)
    (calls : list (string * FetchResult * FetchResult * FetchResult)) : forall s,
  List.length (guesses s) <= MAX_GUESSES ->
  List.length (guesses (fst (submitAll v s calls))) <= MAX_GUESSES.
Proof.
  induction calls as [|[[[text rg] rr] rl] rest IH]; simpl; intros s H; [exact H|].
  set (s1 := if terminal s then s else call s (set_ (SetGuess text))).
  assert (H1 : List.length (guesses s1) <= MAX_GUESSES).
  { subst s1. destruct (terminal s); [exact H|]. exact H. }
  specialize (IH (call s1 (submitGuess v s1 rg rr rl))).
  destruct (submitAll v (call s1 (submitGuess v s1 rg rr rl)) rest) as [s' t]. simpl in *.
  apply IH. apply render_bounded; [exact H1 | apply submitGuess_bounded].
Qed.

(** ** C1, C4, C10: the guards *)

(** C1.  The guesses list never holds more than [MAX_GUESSES] = 8 entries:
    not on any page the system reaches from mounting, whatever the events,
    the answers of the server and the order in which handlers in flight are
    resumed, and not after any sequence of [submitGuess] calls on a page
    within the bound.  A [submitGuess] call on a page that already holds 8
    guesses performs no effect at all: no request, no setter call. *)
Theorem guesses_never_exceed_max
    (v : Client) (rl : FetchResult) (steps : list Step)
    (calls : list (string * FetchResult * FetchResult * FetchResult))
    (s : State) (rg rr rl' : FetchResult) :
  List.length (guesses (cur (run v rl steps))) <= MAX_GUESSES
  /\ (List.length (guesses s) <= MAX_GUESSES ->
      List.length (guesses (fst (submitAll v s calls))) <= MAX_GUESSES)
  /\ (MAX_GUESSES <= List.length (guesses s) ->
      submitGuess v s rg rr rl' = ret tt
      /\ call s (submitGuess v s rg rr rl') = s).
Proof.
  split; [apply run_bounded|]. split; [apply submitAll_bounded|].
  intros H.
  assert (E : submitGuess v s rg rr rl' = ret tt).
  { apply submitGuess_rejects. unfold accepts.
    apply Nat.ltb_ge in H. rewrite H. apply andb_false_r. }
  split; [exact E | rewrite E; reflexivity].
Qed.

Lemma guesses_never_exceed_max_witness :
  MAX_GUESSES <= List.length (guesses (Sample.eight Part000))
  /\ terminal (Sample.eight Part000) = false
  /\ accepts (Sample.seven Part000) = true
  /\ submitGuess Part000 (Sample.eight Part000) Sample.right Sample.okReveal Sample.okGame = ret tt.
Proof.
  split; [vm_compute; apply le_n|]. split; [reflexivity|]. split; [reflexivity|].
  apply (guesses_never_exceed_max Part000 Sample.okGame [] [] (Sample.eight Part000)
           Sample.right Sample.okReveal Sample.okGame).
  vm_compute. apply le_n.
Defined.

Lemma submitGuess_terminal (v : Client) (s : State) (rg rr rl : FetchResult) :
  terminal s = true -> submitGuess v s rg rr rl = ret tt.
Proof.
  intros H. apply submitGuess_rejects. unfold accepts, terminal in *.
  destruct (gameWon s), (gameLost s); try discriminate;
    rewrite ?andb_false_r; reflexivity.
Qed.

Lemma submitAll_terminal (v : Client) (s : State)
    (calls : list (string * FetchResult * FetchResult * FetchResult)) :
  terminal s = true -> submitAll v s calls = (s, []).
Proof.
  intros H. induction calls as [|[[[text a] b] c] rest IH]; simpl; [reflexivity|].
  rewrite H, (submitGuess_terminal v s a b c H).
  change (call s (ret tt)) with s. rewrite IH. reflexivity.
Qed.

(** C4.  Once [gameWon] or [gameLost] is true, [submitGuess] returns at its
    first guard: it performs no effect (no request, no setter call), so the
    page is unchanged; and so for every sequence of further calls. *)
Theorem terminal_rejects_guess
    (v : Client) (s : State) (rg rr rl : FetchResult)
    (calls : list (string * FetchResult * FetchResult * FetchResult)) :
  terminal s = true ->
  submitGuess v s rg rr rl = ret tt
  /\ call s (submitGuess v s rg rr rl) = s
  /\ submitAll v s calls = (s, []).
Proof.
  intros H. split; [apply submitGuess_terminal, H|].
  split; [rewrite (submitGuess_terminal v s rg rr rl H); reflexivity|].
  apply submitAll_terminal, H.
Qed.

Lemma terminal_rejects_guess_witness :
  terminal (call (Sample.typed PageTsx)
              (submitGuess PageTsx (Sample.typed PageTsx) Sample.right Sample.offline Sample.offline)) = true
  /\ submitGuess PageTsx
       (call (Sample.typed PageTsx)
          (submitGuess PageTsx (Sample.typed PageTsx) Sample.right Sample.offline Sample.offline))
       Sample.wrong Sample.okReveal Sample.okGame = ret tt.
Proof.
  split; [reflexivity|].
  apply (terminal_rejects_guess PageTsx _ Sample.wrong Sample.okReveal Sample.okGame []).
  reflexivity.
Defined.

(** C10.  When the guess consists of white space only (the empty string
    included), [submitGuess] returns at its first guard: it sends no /guess
    request and calls no setter, so the page is unchanged. *)
Theorem whitespace_guess_ignored
    (v : Client) (s : State) (rg rr rl : FetchResult) :
  Js.allWhiteSpace (guess s) = true ->
  submitGuess v s rg rr rl = ret tt
  /\ call s (submitGuess v s rg rr rl) = s.
Proof.
  intros H. apply trim_falsy_iff in H.
  assert (E : submitGuess v s rg rr rl = ret tt).
  { apply submitGuess_rejects. unfold accepts. rewrite H. reflexivity. }
  split; [exact E | rewrite E; reflexivity].
Qed.

Lemma whitespace_guess_ignored_witness :
  let s := call (Sample.fresh Part001) (set_ (SetGuess (String (ascii_of_nat 9) "   "))) in
  Js.allWhiteSpace (guess s) = true
  /\ terminal s = false
  /\ Js.truthyOpt (sessionId s) = true
  /\ submitGuess Part001 s Sample.right Sample.okReveal Sample.okGame = ret tt.
Proof.
  split; [reflexivity|]. split; [reflexivity|]. split; [reflexivity|].
  apply (whitespace_guess_ignored Part001 _ Sample.right Sample.okReveal Sample.okGame).
  reflexivity.
Defined.

(** ** C2, C3: the outcome of an accepted guess *)

Lemma bind_ret {A B} (a : A) (k : A -> M B) : bind (ret a) k = k a.
Proof. unfold bind, ret. destruct (k a). reflexivity. Qed.

Lemma bind_fetch_responded {B} (req : Request) (res : Response) (k : Response -> M B) :
  bind (fetch req (Responded res)) k = bind (emit (Fetch req)) (fun _ => k res).
Proof. reflexivity. Qed.

(** What the handler does after a successful /guess response. *)
Lemma submitGuess_ok (v : Client) (s : State) (rr rl : FetchResult)
    (res : Response) (data : Json.Body) :
  accepts s = true -> ok res = true -> body res = Parsed data ->
  submitGuess v s (Responded res) rr rl =
  tryCatch
    (emit (Fetch (PostGuess (guess s) (sessionId s))) ;;
     set_ (SetGuesses (guesses s ++ [newGuess v s data])) ;;
     (if Json.correct data then set_ (SetGameWon true)
      else if MAX_GUESSES <=? List.length (guesses s ++ [newGuess v s data])
           then revealAnswer v s rr rl
           else ret tt) ;;
     set_ (SetGuess "") ;;
     set_ (SetSuggestions []) ;;
     set_ (SetShowSuggestions false))
    (fun err => console "Guess failed" ;; set_ (SetError (Some err))).
Proof.
  intros Ha Hok Hb. rewrite (submitGuess_accepts v s _ rr rl Ha).
  rewrite bind_fetch_responded, Hok. cbn [negb].
  unfold json at 1. rewrite Hb, bind_ret. reflexivity.
Qed.

(** C2.  When [submitGuess] gets a successful /guess response with
    [correct = true], it appends the guess to the list and sets [gameWon]
    (and leaves [gameLost] false); after that every [submitGuess] call
    returns at the first guard, with no effect. *)
Theorem correct_guess_wins
    (v : Client) (s : State) (rr rl : FetchResult) (res : Response) (data : Json.Body)
    (calls : list (string * FetchResult * FetchResult * FetchResult)) :
  accepts s = true -> ok res = true -> body res = Parsed data ->
  Json.correct data = true ->
  let m := submitGuess v s (Responded res) rr rl in
  trace m =
    [Fetch (PostGuess (guess s) (sessionId s));
     Set_ (SetGuesses (guesses s ++ [newGuess v s data]));
     Set_ (SetGameWon true);
     Set_ (SetGuess ""); Set_ (SetSuggestions []); Set_ (SetShowSuggestions false)]
  /\ guesses (call s m) = guesses s ++ [newGuess v s data]
  /\ correct (newGuess v s data) = true
  /\ gameWon (call s m) = true
  /\ gameLost (call s m) = false
  /\ submitAll v (call s m) calls = (call s m, []).
Proof.
  intros Ha Hok Hb Hc m.
  assert (Ht : trace m =
    [Fetch (PostGuess (guess s) (sessionId s));
     Set_ (SetGuesses (guesses s ++ [newGuess v s data]));
     Set_ (SetGameWon true);
     Set_ (SetGuess ""); Set_ (SetSuggestions []); Set_ (SetShowSuggestions false)]).
  { subst m. rewrite (submitGuess_ok v s rr rl res data Ha Hok Hb), Hc. reflexivity. }
  assert (Hl : gameLost s = false).
  { unfold accepts in Ha. destruct (gameLost s); [|reflexivity].
    rewrite !andb_false_r in Ha. discriminate. }
  unfold call. rewrite Ht. cbn.
  repeat split; try assumption.
  apply submitAll_terminal. reflexivity.
Qed.

Lemma correct_guess_wins_witness :
  let s := Sample.typed Part000 in
  let m := submitGuess Part000 s Sample.right Sample.offline Sample.offline in
  accepts s = true
  /\ List.length (guesses (call s m)) = 1
  /\ gameWon (call s m) = true
  /\ submitAll Part000 (call s m) [Sample.wrongCall; Sample.wrongCall] = (call s m, []).
Proof.
  split; [reflexivity|]. split; [reflexivity|].
  pose proof (correct_guess_wins Part000 (Sample.typed Part000) Sample.offline Sample.offline
                (mkResponse 200 (Parsed (Json.guess true None (Some "JoneMa05"))))
                (Json.guess true None (Some "JoneMa05"))
                [Sample.wrongCall; Sample.wrongCall]
                eq_refl eq_refl eq_refl eq_refl) as H.
  split; [apply H | apply H].
Defined.

Lemma tryCatch_emit_first {A} (e : Effect) (k : unit -> M A) (h : string -> M A) :
  exists t, trace (tryCatch (bind (emit e) k) h) = e :: t.
Proof.
  unfold bind, emit. destruct (k tt) as [t' [x|a]]; simpl;
    [destruct (h x)|]; eexists; reflexivity.
Qed.

(** [revealAnswer] catches whatever its body throws. *)
Lemma revealAnswer_returns (v : Client) (s : State) (rr rl : FetchResult) :
  snd (revealAnswer v s rr rl) = inr tt.
Proof.
  unfold revealAnswer. destruct (negb _); [reflexivity|].
  match goal with |- snd (tryCatch ?m _) = _ => destruct m as [t [e|[]]] end; reflexivity.
Qed.

(** With a session, [revealAnswer] begins by sending /reveal. *)
Lemma revealAnswer_sends (v : Client) (s : State) (rr rl : FetchResult) :
  Js.truthyOpt (sessionId s) = true ->
  exists t, trace (revealAnswer v s rr rl) = Fetch (PostReveal (sessionId s)) :: t.
Proof.
  intros Hs. unfold revealAnswer. rewrite Hs. cbn [negb].
  destruct rr as [msg|res].
  - eexists. reflexivity.
  - rewrite bind_fetch_responded. apply tryCatch_emit_first.
Qed.

(** What [revealAnswer] does after a successful /reveal response. *)
Lemma revealAnswer_ok (v : Client) (s : State) (rl : FetchResult)
    (res : Response) (data : Json.Body) :
  Js.truthyOpt (sessionId s) = true -> ok res = true -> body res = Parsed data ->
  trace (revealAnswer v s (Responded res) rl) =
    [Fetch (PostReveal (sessionId s)); Set_ (SetAnswer (Json.name data))]
    ++ (if hasPfrId v then [Set_ (SetAnswerPfrId (Json.pfr_id data))] else [])
    ++ (if isPart000 v then [Set_ (SetAnswerPosition (Json.position data))] else [])
    ++ [Set_ (SetGameLost true)].
Proof.
  intros Hs Hok Hb. unfold revealAnswer. rewrite Hs. cbn [negb].
  rewrite bind_fetch_responded, Hok. cbn [negb].
  unfold json. rewrite Hb, bind_ret. destruct v; reflexivity.
Qed.

Lemma accepts_session (s : State) : accepts s = true -> Js.truthyOpt (sessionId s) = true.
Proof.
  unfold accepts. intros H. destruct (Js.truthyOpt (sessionId s)); [reflexivity|].
  rewrite andb_false_r in H. discriminate.
Qed.

Lemma accepts_not_terminal (s : State) :
  accepts s = true -> gameWon s = false /\ gameLost s = false.
Proof.
  unfold accepts. intros H. destruct (gameWon s), (gameLost s); auto;
    rewrite ?andb_false_r in H; discriminate.
Qed.

(** An accepted guess that is wrong and is the last one allowed: the trace
    of [revealAnswer] sits between the recording of the guess and the
    clearing of the input. *)
Lemma submitGuess_last_wrong (v : Client) (s : State) (rr rl : FetchResult)
    (res : Response) (data : Json.Body) :
  accepts s = true -> S (List.length (guesses s)) = MAX_GUESSES ->
  ok res = true -> body res = Parsed data -> Json.correct data = false ->
  trace (submitGuess v s (Responded res) rr rl) =
    [Fetch (PostGuess (guess s) (sessionId s));
     Set_ (SetGuesses (guesses s ++ [newGuess v s data]))]
    ++ trace (revealAnswer v s rr rl)
    ++ [Set_ (SetGuess ""); Set_ (SetSuggestions []); Set_ (SetShowSuggestions false)].
Proof.
  intros Ha H7 Hok Hb Hc.
  rewrite (submitGuess_ok v s rr rl res data Ha Hok Hb), Hc.
  replace (MAX_GUESSES <=? List.length (guesses s ++ [newGuess v s data])) with true
    by (symmetry; apply Nat.leb_le; rewrite length_app; simpl; lia).
  pose proof (revealAnswer_returns v s rr rl) as Hr.
  destruct (revealAnswer v s rr rl) as [t r]. simpl in Hr. subst r.
  cbn. rewrite <- ?app_assoc. reflexivity.
Qed.

(** C3.  When [submitGuess] records a wrong guess that brings the count to
    [MAX_GUESSES] = 8, it calls [revealAnswer], which sends /reveal for the
    session; and when that request succeeds, the page holds the returned
    name as the answer, [gameLost] is true and [gameWon] is false. *)
Theorem last_wrong_guess_reveals
    (v : Client) (s : State) (rr rl : FetchResult) (res : Response) (data : Json.Body) :
  accepts s = true -> S (List.length (guesses s)) = MAX_GUESSES ->
  ok res = true -> body res = Parsed data -> Json.correct data = false ->
  let m := submitGuess v s (Responded res) rr rl in
  (exists t,
      trace m =
        Fetch (PostGuess (guess s) (sessionId s))
        :: Set_ (SetGuesses (guesses s ++ [newGuess v s data]))
        :: Fetch (PostReveal (sessionId s)) :: t)
  /\ (forall res' data',
        rr = Responded res' -> ok res' = true -> body res' = Parsed data' ->
        guesses (call s m) = guesses s ++ [newGuess v s data]
        /\ List.length (guesses (call s m)) = MAX_GUESSES
        /\ answer (call s m) = Json.name data'
        /\ gameLost (call s m) = true
        /\ gameWon (call s m) = false).
Proof.
  intros Ha H7 Hok Hb Hc m.
  pose proof (submitGuess_last_wrong v s rr rl res data Ha H7 Hok Hb Hc) as Ht.
  pose proof (accepts_session s Ha) as Hs.
  split.
  - destruct (revealAnswer_sends v s rr rl Hs) as [t Hrev].
    subst m. rewrite Ht, Hrev. eexists. reflexivity.
  - intros res' data' -> Hok' Hb'.
    destruct (accepts_not_terminal s Ha) as [Hw _].
    subst m. unfold call. rewrite Ht, (revealAnswer_ok v s rl res' data' Hs Hok' Hb').
    destruct v; cbn; rewrite ?length_app; simpl; repeat split; try assumption; lia.
Qed.

Lemma last_wrong_guess_reveals_witness :
  let s := Sample.seven PageTsx in
  let m := submitGuess PageTsx s Sample.wrong Sample.okReveal Sample.offline in
  accepts s = true
  /\ List.length (guesses s) = 7
  /\ In (Fetch (PostReveal (Some "s-1"))) (trace m)
  /\ answer (call s m) = Some "Mac Jones"
  /\ gameLost (call s m) = true.
Proof.
  split; [reflexivity|]. split; [reflexivity|].
  split; [vm_compute; tauto|].
  pose proof (last_wrong_guess_reveals PageTsx (Sample.seven PageTsx) Sample.okReveal Sample.offline
                (mkResponse 200
                   (Parsed (Json.guess false (Some (Json.mkFeedback (Some "far") (Some false)))
                                       (Some "BradTo00"))))
                (Json.guess false (Some (Json.mkFeedback (Some "far") (Some false))) (Some "BradTo00"))
                eq_refl eq_refl eq_refl eq_refl eq_refl) as [_ H].
  specialize (H (mkResponse 200 (Parsed (Json.reveal "Mac Jones" (Some "JoneMa05") (Some QB))))
                (Json.reveal "Mac Jones" (Some "JoneMa05") (Some QB)) eq_refl eq_refl eq_refl).
  split; apply H.
Defined.

(** ** C5: the colour of a guess row *)

Lemma strictEq_iff (o : option string) (lit : string) :
  Js.strictEq o lit = true <-> o = Some lit.
Proof.
  destruct o as [x|]; simpl.
  - rewrite String.eqb_eq. split; [intros ->; reflexivity | intros [= ->]; reflexivity].
  - split; discriminate.
Qed.

(** The four class strings of a revision are pairwise different. *)
Lemma classes_distinct (v : Client) :
  String.eqb (greenClass v) (orangeClass v) = false
  /\ String.eqb (greenClass v) (yellowClass v) = false
  /\ String.eqb (greenClass v) (noMatchClass v) = false
  /\ String.eqb (orangeClass v) (yellowClass v) = false
  /\ String.eqb (orangeClass v) (noMatchClass v) = false
  /\ String.eqb (yellowClass v) (noMatchClass v) = false.
Proof. destruct v; vm_compute; repeat split. Qed.

(** C5.  The guesses list gives each guess exactly one of four colours, by
    priority: green exactly when [correct]; orange exactly when not correct
    and [teams_overlap] is true; yellow exactly when not correct,
    [teams_overlap] is not true and [era] is "same"; the no-match colour in
    every other case. *)
Theorem feedback_colour_priority (v : Client) (g : GuessResult) :
  (bgClass v g = greenClass v <-> correct g = true)
  /\ (bgClass v g = orangeClass v <->
      correct g = false /\ Js.isTrue (teams_overlap g) = true)
  /\ (bgClass v g = yellowClass v <->
      correct g = false /\ Js.isTrue (teams_overlap g) = false /\ era g = Some "same")
  /\ (bgClass v g = noMatchClass v <->
      correct g = false /\ Js.isTrue (teams_overlap g) = false /\ era g <> Some "same").
Proof.
  destruct (classes_distinct v) as (Hgo & Hgy & Hgn & Hoy & Hon & Hyn).
  apply String.eqb_neq in Hgo, Hgy, Hgn, Hoy, Hon, Hyn.
  pose proof (strictEq_iff (era g) "same") as He.
  unfold bgClass.
  destruct (correct g), (Js.isTrue (teams_overlap g)), (Js.strictEq (era g) "same");
    intuition congruence.
Qed.

(** ** C6: a 404 that mentions the session *)

Lemma render_app (t1 t2 : Trace) (s : State) :
  render s (t1 ++ t2) = render (render s t1) t2.
Proof. unfold render. apply fold_left_app. Qed.

(** [loadGame] catches whatever its body throws. *)
Lemma loadGame_returns (v : Client) (mode : GameMode) (rl : FetchResult) :
  snd (loadGame v mode rl) = inr tt.
Proof.
  unfold loadGame. unfold bind at 1 2. cbn [set_ emit].
  match goal with |- context [tryCatch ?m ?h] => destruct m as [t [e|[]]] end; reflexivity.
Qed.

(** [loadGame] begins by raising [loading] and sending the request. *)
Lemma loadGame_sends (v : Client) (mode : GameMode) (rl : FetchResult) :
  exists t,
    trace (loadGame v mode rl) =
      Set_ (SetLoading true) :: Set_ (SetError None) :: Fetch (endpoint v mode) :: t.
Proof.
  unfold loadGame. unfold bind at 1 2. cbn [set_ emit].
  destruct rl as [msg|res].
  - eexists. reflexivity.
  - rewrite bind_fetch_responded.
    match goal with |- context [tryCatch (bind (emit ?e) ?k) ?h] =>
      destruct (tryCatch_emit_first e k h) as [t Ht];
      destruct (tryCatch (bind (emit e) k) h) as [t0 r] end.
    simpl in Ht. subst t0. eexists. reflexivity.
Qed.

(** What [loadGame] does after a successful response. *)
Lemma loadGame_ok (v : Client) (mode : GameMode) (res : Response) (data : Json.Body) :
  ok res = true -> body res = Parsed data ->
  trace (loadGame v mode (Responded res)) =
    [Set_ (SetLoading true); Set_ (SetError None); Fetch (endpoint v mode);
     Set_ (SetSessionId (Json.session_id data)); Set_ (SetSeasons (Json.seasons data))]
    ++ (if isPart000 v
        then [Set_ (SetPosition (match Json.position data with Some p => p | None => QB end))]
        else [])
    ++ (if hasModes v then [Set_ (SetGameMode mode)] else [])
    ++ [Set_ (SetGuesses []); Set_ (SetGameWon false); Set_ (SetGameLost false);
        Set_ (SetAnswer None)]
    ++ (if hasPfrId v then [Set_ (SetAnswerPfrId None)] else [])
    ++ (if isPart000 v then [Set_ (SetAnswerPosition None)] else [])
    ++ [Set_ (SetGuess ""); Set_ (SetShowSeasons false); Set_ (SetShowTeams false);
        Set_ (SetShowAwards false); Set_ (SetLoading false)].
Proof.
  intros Hok Hb. unfold loadGame.
  rewrite bind_fetch_responded, Hok. cbn [negb].
  rewrite bind_ret. unfold json. rewrite Hb, bind_ret. destruct v; reflexivity.
Qed.

(** The trace of the session-expiry branch. *)
Lemma recoverSession_trace (v : Client) (s : State) (rl : FetchResult) :
  recoverSession v s rl =
    (Console "Session expired, reloading game..."
       :: trace (loadGame v (gameMode s) rl)
       ++ [Set_ (SetError (Some sessionExpiredNotice)); SetTimeout 3000 (SetError None)],
     inr tt).
Proof.
  unfold recoverSession.
  pose proof (loadGame_returns v (gameMode s) rl) as Hr.
  destruct (loadGame v (gameMode s) rl) as [t r]. simpl in Hr. subst r. reflexivity.
Qed.

Lemma includes_truthy (msg sub : string) :
  Js.truthy sub = true -> Js.includes msg sub = true -> Js.truthy msg = true.
Proof.
  destruct msg; [|reflexivity]. destruct sub; [discriminate|]. simpl. discriminate.
Qed.

(** A 404 with a detail that mentions the session is what the branch of
    [Part000] tests for. *)
Lemma expiry_detected (res : Response) (data : Json.Body) (msg fallback : string) :
  status res = 404 -> Json.detail data = Some msg ->
  Js.includes msg "Session not found" = true ->
  ok res = false
  /\ Js.orElse (Json.detail data) fallback = msg
  /\ isSessionExpiry res msg = true.
Proof.
  intros Hst Hd Hi. unfold ok, isSessionExpiry, Js.orElse.
  rewrite Hst, Hd, Hi, (includes_truthy msg "Session not found" eq_refl Hi).
  repeat split.
Qed.

Lemma submitGuess_expired (s : State) (rr rl : FetchResult)
    (res : Response) (data : Json.Body) (msg : string) :
  accepts s = true -> status res = 404 -> body res = Parsed data ->
  Json.detail data = Some msg -> Js.includes msg "Session not found" = true ->
  trace (submitGuess Part000 s (Responded res) rr rl) =
    Fetch (PostGuess (guess s) (sessionId s))
      :: Console "Session expired, reloading game..."
      :: trace (loadGame Part000 (gameMode s) rl)
      ++ [Set_ (SetError (Some sessionExpiredNotice)); SetTimeout 3000 (SetError None)].
Proof.
  intros Ha Hst Hb Hd Hi.
  destruct (expiry_detected res data msg "Guess failed" Hst Hd Hi) as (Hok & Hor & Hex).
  rewrite (submitGuess_accepts Part000 s _ rr rl Ha).
  rewrite bind_fetch_responded, Hok. cbn [negb].
  unfold json. rewrite Hb, bind_ret. cbv zeta. rewrite Hor, Hex. cbn [isPart000 andb].
  rewrite recoverSession_trace. reflexivity.
Qed.

Lemma revealAnswer_expired (s : State) (rl : FetchResult)
    (res : Response) (data : Json.Body) (msg : string) :
  Js.truthyOpt (sessionId s) = true -> status res = 404 -> body res = Parsed data ->
  Json.detail data = Some msg -> Js.includes msg "Session not found" = true ->
  trace (revealAnswer Part000 s (Responded res) rl) =
    Fetch (PostReveal (sessionId s))
      :: Console "Session expired, reloading game..."
      :: trace (loadGame Part000 (gameMode s) rl)
      ++ [Set_ (SetError (Some sessionExpiredNotice)); SetTimeout 3000 (SetError None)].
Proof.
  intros Hs Hst Hb Hd Hi.
  destruct (expiry_detected res data msg "Failed to reveal answer" Hst Hd Hi) as (Hok & Hor & Hex).
  unfold revealAnswer. rewrite Hs. cbn [negb].
  rewrite bind_fetch_responded, Hok. cbn [negb isPart000].
  unfold json. rewrite Hb, bind_ret. cbv zeta. rewrite Hor, Hex.
  rewrite recoverSession_trace. reflexivity.
Qed.

(** A request that fails: what each handler does then. *)

(** What [loadGame] does when the request fails. *)
Lemma loadGame_failed (v : Client) (mode : GameMode) (rl : FetchResult) :
  failed rl = true ->
  loadGame v mode rl =
    ([Set_ (SetLoading true); Set_ (SetError None); Fetch (endpoint v mode);
      Console (loadFailedLog v);
      Set_ (SetError (Some "Failed to load game. Please refresh the page."));
      Set_ (SetLoading false)],
     inr tt).
Proof.
  destruct rl as [msg|res]; [reflexivity|]. cbn [failed]. intros H.
  unfold loadGame. rewrite bind_fetch_responded.
  destruct (ok res); cbn [negb orb] in *; [|reflexivity].
  rewrite bind_ret. unfold json. destruct (body res); [reflexivity | discriminate].
Qed.

Lemma failed_or_parsed (r : FetchResult) :
  failed r = true
  \/ exists res data, r = Responded res /\ ok res = true /\ body res = Parsed data.
Proof.
  destruct r as [msg|res]; [left; reflexivity|]. cbn [failed].
  destruct (ok res) eqn:Hok; [|left; reflexivity].
  destruct (body res) as [msg|data] eqn:Hb; [left; reflexivity|].
  right. exists res, data. auto.
Qed.

(** What [revealAnswer] and [submitGuess] do when their request fails and
    the session-expiry branch is not taken. *)
Lemma revealAnswer_failed (v : Client) (s : State) (rr rl : FetchResult) :
  Js.truthyOpt (sessionId s) = true -> failed rr = true ->
  expired v rr "Failed to reveal answer" = false ->
  revealAnswer v s rr rl =
    ([Fetch (PostReveal (sessionId s)); Console "Failed to reveal answer";
      Set_ (SetError (Some (if isPart000 v
                            then failureMessage rr "Failed to reveal answer"
                            else "Failed to reveal answer")))],
     inr tt).
Proof.
  intros Hs Hf He. unfold revealAnswer. rewrite Hs. cbn [negb].
  destruct rr as [msg|res]; [reflexivity|].
  rewrite bind_fetch_responded. unfold failed, expired, failureMessage in *.
  destruct (ok res); cbn [negb orb andb] in *.
  - unfold json. destruct (body res); [reflexivity | discriminate].
  - destruct (isPart000 v); cbn [andb] in *; [|reflexivity].
    unfold json. destruct (body res) as [msg|data]; [reflexivity|].
    rewrite bind_ret. cbv zeta. rewrite He. reflexivity.
Qed.

Lemma submitGuess_failed (v : Client) (s : State) (rg rr rl : FetchResult) :
  accepts s = true -> failed rg = true -> expired v rg "Guess failed" = false ->
  submitGuess v s rg rr rl =
    ([Fetch (PostGuess (guess s) (sessionId s)); Console "Guess failed";
      Set_ (SetError (Some (failureMessage rg "Guess failed")))],
     inr tt).
Proof.
  intros Ha Hf He. rewrite (submitGuess_accepts v s rg rr rl Ha).
  destruct rg as [msg|res]; [reflexivity|].
  rewrite bind_fetch_responded. unfold failed, expired, failureMessage in *.
  destruct (ok res); cbn [negb orb andb] in *.
  - unfold json. destruct (body res); [reflexivity | discriminate].
  - unfold json. destruct (body res) as [msg|data]; [reflexivity|].
    rewrite bind_ret. cbv zeta.
    destruct (isPart000 v); cbn [andb] in *; [rewrite He|]; reflexivity.
Qed.

(** The effect of the session-expiry branch on the page. *)
Lemma recovered_after (s : State) (rl : FetchResult) (msg : string) (req : Request)
    (m : M unit) :
  Js.includes msg "Session not found" = true ->
  trace m =
    Fetch req :: Console "Session expired, reloading game..."
      :: trace (loadGame Part000 (gameMode s) rl)
      ++ [Set_ (SetError (Some sessionExpiredNotice)); SetTimeout 3000 (SetError None)] ->
  Recovered Part000 s rl msg req m.
Proof.
  intros Hi Ht. unfold Recovered, call. rewrite Ht.
  assert (Hne : Some sessionExpiredNotice <> Some msg).
  { intros [= <-]. vm_compute in Hi. discriminate. }
  destruct (failed_or_parsed rl) as [Hf|(res & data & -> & Hok & Hb)].
  - rewrite (loadGame_failed Part000 (gameMode s) rl Hf). cbn.
    repeat match goal with |- _ /\ _ => split end;
      try reflexivity; try exact Hne; try tauto.
    + intros res' data' ->. intros Hok Hb. unfold failed in Hf.
      rewrite Hok, Hb in Hf. discriminate Hf.
    + intros _. unfold sameGame. cbn. repeat split.
  - rewrite (loadGame_ok Part000 (gameMode s) res data Hok Hb). cbn.
    repeat match goal with |- _ /\ _ => split end;
      try reflexivity; try exact Hne; try tauto.
    + intros res' data' [= <-] _ Hb'. rewrite Hb in Hb'. injection Hb' as <-.
      unfold screen. cbn.
      destruct (List.length (Json.seasons data)); repeat split.
    + intros Hf. unfold failed in Hf. rewrite Hok, Hb in Hf. discriminate Hf.
Qed.

Lemma part000_recovers : RecoversSession Part000.
Proof.
  intros s rr rl res data msg Hst Hb Hd Hi. split; intros H.
  - apply (recovered_after s rl msg (PostGuess (guess s) (sessionId s))); [exact Hi|].
    apply (submitGuess_expired s rr rl res data msg); assumption.
  - apply (recovered_after s rl msg (PostReveal (sessionId s))); [exact Hi|].
    apply (revealAnswer_expired s rl res data msg); assumption.
Qed.

(** Without the branch the failure is caught like any other: nothing is
    reloaded, and the error is shown. *)
Lemma others_surface (v : Client) : isPart000 v = false -> SurfacesExpiry v.
Proof.
  intros Hv s rr rl res data msg Hst Hb Hd Hi.
  assert (Ht : Js.truthy msg = true)
    by exact (includes_truthy msg "Session not found" eq_refl Hi).
  assert (Hf : failed (Responded res) = true).
  { unfold failed, ok. rewrite Hst. reflexivity. }
  assert (He : forall fallback, expired v (Responded res) fallback = false).
  { intros fallback. unfold expired. rewrite Hv. reflexivity. }
  split; intros H; unfold Surfaced, call.
  - rewrite (submitGuess_failed v s (Responded res) rr rl H Hf (He _)).
    unfold failureMessage, Js.orElse. rewrite Hb, Hd, Ht. cbn.
    repeat match goal with |- _ /\ _ => split end; try reflexivity.
    + unfold sameGame. cbn. repeat split.
    + intros Hl. unfold screen. cbn. rewrite Hl, Hv, Ht. reflexivity.
  - rewrite (revealAnswer_failed v s (Responded res) rl H Hf (He _)).
    rewrite Hv. cbn.
    repeat match goal with |- _ /\ _ => split end; try reflexivity.
    + unfold sameGame. cbn. repeat split.
    + intros Hl. unfold screen. cbn. rewrite Hl, Hv. reflexivity.
Qed.

Lemma others_do_not_recover (v : Client) : isPart000 v = false -> ~ RecoversSession v.
Proof.
  intros Hv R.
  destruct (R (Sample.typed v) Sample.okReveal Sample.okGame
              (mkResponse 404 (Parsed (Json.error "Session not found")))
              (Json.error "Session not found") "Session not found"
              eq_refl eq_refl eq_refl eq_refl) as [Hg _].
  assert (Ha : accepts (Sample.typed v) = true) by (destruct v; reflexivity).
  destruct (Hg Ha) as [Hreq _].
  destruct v; try discriminate Hv; vm_compute in Hreq; discriminate Hreq.
Qed.

Lemma part000_does_not_surface : ~ SurfacesExpiry Part000.
Proof.
  intros S.
  destruct (S (Sample.typed Part000) Sample.okReveal Sample.okGame
              (mkResponse 404 (Parsed (Json.error "Session not found")))
              (Json.error "Session not found") "Session not found"
              eq_refl eq_refl eq_refl eq_refl) as [Hg _].
  destruct (Hg eq_refl) as [Hreq _]. vm_compute in Hreq. discriminate Hreq.
Qed.

(** C6, as stated, fails: [PageTsx] has no session-expiry branch.  On a 404
    with detail "Session not found" its [submitGuess] sends nothing after
    /guess and stores the detail as the error, which puts the error card on
    screen. *)
Lemma session_expiry_not_recovered_everywhere :
  ~ (forall v, RecoversSession v)
  /\ (let s := Sample.typed PageTsx in
      let m := submitGuess PageTsx s Sample.sessionGone Sample.okReveal Sample.okGame in
      accepts s = true
      /\ trace m = [Fetch (PostGuess "Tom Brady" (Some "s-1")); Console "Guess failed";
                    Set_ (SetError (Some "Session not found"))]
      /\ screen PageTsx (call s m) = ErrorCard).
Proof.
  split; [|repeat split].
  intros R. exact (others_do_not_recover PageTsx eq_refl (R PageTsx)).
Qed.

(** C6, amended.  Exactly one revision, [Part000], recreates the session.
    When /guess or /reveal answers 404 with a detail that contains "Session
    not found", its handler calls [loadGame] with the mode of the page
    (sending /daily_qb or /random_qb, and no other request), stores the
    notice "Your session expired. A new game has been loaded!" in the error
    cell in place of the detail, and starts the one timer that clears the
    cell after three seconds.  When the load succeeds the page holds a fresh
    game of the new session, in the same mode: the game page is on screen,
    with the notice as a toast, when the new game has statistics; when it has
    none the error card shows the notice until the timer clears it.  When the
    load fails the game is left as it was.  [PageTsx] and [Part001] have no
    such branch: they send no further request, start no timer, leave the game
    as it was and show the failure on the error card -- the detail for
    /guess, "Failed to reveal answer" for /reveal. *)
Theorem session_expiry_recovered_in_part000 (v : Client) :
  (RecoversSession v <-> v = Part000)
  /\ (SurfacesExpiry v <-> v <> Part000).
Proof.
  split; split.
  - intros R. destruct v; try reflexivity; exfalso.
    + exact (others_do_not_recover PageTsx eq_refl R).
    + exact (others_do_not_recover Part001 eq_refl R).
  - intros ->. exact part000_recovers.
  - intros S ->. exact (part000_does_not_surface S).
  - intros Hv. apply others_surface. destruct v; try reflexivity. contradiction.
Qed.

Lemma session_expiry_recovered_in_part000_witness :
  let s := Sample.typed Part000 in
  let m := submitGuess Part000 s Sample.sessionGone Sample.okReveal Sample.okGame in
  accepts s = true
  /\ requests (trace m) = [PostGuess "Tom Brady" (Some "s-1"); GetDailyQb]
  /\ timersOf (trace m) = [[Set_ (SetError None)]]
  /\ error (call s m) = Some sessionExpiredNotice
  /\ sessionId (call s m) = Some "s-1"
  /\ guesses (call s m) = []
  /\ screen Part000 (call s m) = GamePage.
Proof.
  split; [reflexivity|].
  pose proof (proj2 (proj1 (session_expiry_recovered_in_part000 Part000)) eq_refl) as R.
  destruct (R (Sample.typed Part000) Sample.okReveal Sample.okGame
              (mkResponse 404 (Parsed (Json.error "Session not found")))
              (Json.error "Session not found") "Session not found"
              eq_refl eq_refl eq_refl eq_refl) as [Hg _].
  destruct (Hg eq_refl) as (Hreq & Htm & _ & He & _ & _ & Hl & _).
  destruct (Hl _ _ eq_refl eq_refl eq_refl)
    as (Hsid & _ & _ & Hgs & _ & _ & _ & _ & Hscr & _).
  repeat split; assumption.
Defined.

(** ** C7: the debounce of the autocomplete request *)

Module AutocompleteFacts.

Import Autocomplete.

Lemma cleared_nil (v : Client) (b : Browser) :
  timersCurrent v b ->
  match cleanup b with
  | Some id => clearTimeout id (timers b)
  | None => timers b
  end = [].
Proof.
  intros H. destruct (cleanup b) as [id|] eqn:Hc.
  - unfold clearTimeout.
    assert (Hall : forall tm, In tm (timers b) -> negb (timerId tm =? id) = false).
    { intros tm Hin. destruct (H tm Hin) as (Hx & _). rewrite Hc in Hx.
      injection Hx as ->. rewrite Nat.eqb_refl. reflexivity. }
    induction (timers b) as [|tm l IH]; [reflexivity|].
    simpl. rewrite (Hall tm (or_introl eq_refl)). apply IH.
    intros tm' Hin. apply Hall. right. exact Hin.
  - destruct (timers b) as [|tm l] eqn:Ht; [reflexivity|].
    assert (Hin : In tm (timers b)) by (rewrite Ht; left; reflexivity).
    destruct (H tm Hin) as (Hx & _). rewrite Hc in Hx. discriminate.
Qed.

Lemma onGuessChange_timers (v : Client) (g : string) (b : Browser) :
  timersCurrent v b ->
  timers (onGuessChange v g b) =
    if Js.truthy (Js.trim g) then [mkTimer (nextTimerId b) (now b + debounceMs v) g] else [].
Proof.
  intros H. unfold onGuessChange. rewrite (cleared_nil v b H).
  destruct (Js.truthy (Js.trim g)); reflexivity.
Qed.

Lemma onGuessChange_current (v : Client) (g : string) (b : Browser) :
  timersCurrent v b -> timersCurrent v (onGuessChange v g b).
Proof.
  intros H tm Hin. rewrite (onGuessChange_timers v g b H) in Hin.
  unfold onGuessChange.
  destruct (Js.truthy (Js.trim g)); simpl in *; [|contradiction].
  destruct Hin as [<-|[]]. repeat split.
Qed.

Lemma elapse_current (v : Client) (dt : nat) (r : FetchResult) (b : Browser) :
  timersCurrent v b -> timersCurrent v (elapse v dt r b).
Proof.
  intros H tm Hin. unfold elapse in *. simpl in *.
  apply filter_In in Hin as [Hin _]. exact (H tm Hin).
Qed.

(** The callback sends its one request whatever the server answers. *)
Lemma callback_requests (v : Client) (q : string) (r : FetchResult) :
  requests (trace (callback v q r)) = [GetAutocomplete q].
Proof.
  unfold callback. destruct r as [msg|res]; [reflexivity|].
  rewrite bind_fetch_responded. destruct (ok res); cbn [negb]; [|reflexivity].
  rewrite bind_ret. unfold json. destruct (body res); [reflexivity|].
  rewrite bind_ret. destruct v; reflexivity.
Qed.

Lemma fire_sends (v : Client) (r : FetchResult) (b : Browser) (tm : Timer) :
  fire v r b tm = [mkSent (due tm) (GetAutocomplete (query tm)) (input b) (changedAt b)].
Proof. unfold fire. rewrite callback_requests. reflexivity. Qed.

Lemma elapse_sent (v : Client) (dt : nat) (r : FetchResult) (b : Browser) :
  sent (elapse v dt r b) =
    sent b ++ map (fun tm => mkSent (due tm) (GetAutocomplete (query tm))
                                    (input b) (changedAt b))
                  (filter (fun tm => due tm <=? now b + dt) (timers b)).
Proof.
  unfold elapse. cbn [sent]. f_equal.
  induction (filter (fun tm => due tm <=? now b + dt) (timers b)) as [|tm l IH];
    [reflexivity|].
  cbn [flat_map map]. rewrite fire_sends, IH. reflexivity.
Qed.

Lemma elapse_debounced (v : Client) (dt : nat) (r : FetchResult) (b : Browser) :
  timersCurrent v b -> sentDebounced v b -> sentDebounced v (elapse v dt r b).
Proof.
  intros Hc Hs e Hin. rewrite elapse_sent in Hin.
  apply in_app_or in Hin as [Hin|Hin]; [exact (Hs e Hin)|].
  apply in_map_iff in Hin as (tm & <- & Htm).
  apply filter_In in Htm as [Htm _].
  destruct (Hc tm Htm) as (_ & Hq & Hd). simpl. rewrite Hq, Hd. split; reflexivity.
Qed.

Lemma onGuessChange_sent (v : Client) (g : string) (b : Browser) :
  sent (onGuessChange v g b) = sent b.
Proof. unfold onGuessChange. destruct (negb _); reflexivity. Qed.

Lemma onGuessChange_clock (v : Client) (g : string) (b : Browser) :
  now (onGuessChange v g b) = now b
  /\ input (onGuessChange v g b) = g
  /\ changedAt (onGuessChange v g b) = now b.
Proof. unfold onGuessChange. destruct (negb _); repeat split. Qed.

(** After a change of the guess, the request goes out when the delay has
    passed, and not before. *)
Lemma change_then_wait (v : Client) (g : string) (dt : nat) (r : FetchResult)
    (b : Browser) :
  timersCurrent v b ->
  sent (elapse v dt r (onGuessChange v g b)) =
    sent b ++
    (if Js.truthy (Js.trim g) && (debounceMs v <=? dt)
     then [mkSent (now b + debounceMs v) (GetAutocomplete g) g (now b)]
     else []).
Proof.
  intros Hc. destruct (onGuessChange_clock v g b) as (Hn & Hi & Hch).
  rewrite elapse_sent, onGuessChange_sent, (onGuessChange_timers v g b Hc), Hn, Hi, Hch.
  f_equal. destruct (Js.truthy (Js.trim g)); [|reflexivity].
  cbn [filter map due query andb].
  destruct (Nat.leb_spec (debounceMs v) dt) as [Hle|Hlt].
  - replace (now b + debounceMs v <=? now b + dt) with true
      by (symmetry; apply Nat.leb_le; lia).
    reflexivity.
  - replace (now b + debounceMs v <=? now b + dt) with false
      by (symmetry; apply Nat.leb_gt; lia).
    reflexivity.
Qed.

Lemma callback_sends (v : Client) (q : string) (r : FetchResult) :
  exists t, trace (callback v q r) = Fetch (GetAutocomplete q) :: t.
Proof.
  unfold callback. destruct r as [msg|res].
  - eexists. reflexivity.
  - rewrite bind_fetch_responded. apply tryCatch_emit_first.
Qed.

Lemma effectTrace_sends_nothing (v : Client) (g : string) (req : Request) :
  ~ In (Fetch req) (effectTrace v g).
Proof.
  unfold effectTrace. destruct (negb _), (isPart000 v); simpl; intuition discriminate.
Qed.

Lemma run_invariant (v : Client) (evs : list Event) :
  timersCurrent v (run v evs) /\ sentDebounced v (run v evs).
Proof.
  unfold run.
  assert (H : timersCurrent v start /\ sentDebounced v start).
  { split; intros x []. }
  revert H. generalize start.
  induction evs as [|ev evs IH]; simpl; intros b H; [exact H|].
  apply IH. destruct H as [Hc Hs]. destruct ev as [g|dt r]; simpl.
  - destruct (String.eqb g (input b)); [split; assumption|].
    split; [apply onGuessChange_current, Hc|].
    intros e Hin. rewrite onGuessChange_sent in Hin. exact (Hs e Hin).
  - split; [apply elapse_current, Hc | apply elapse_debounced; assumption].
Qed.

End AutocompleteFacts.

(** C7, as stated, fails in [PageTsx] (and [Part001]): the delay given to
    [setTimeout] is 250 ms.  249 ms after a change of the guess no request
    has been sent; and a further change 240 ms after the first still clears
    the pending timer, so that the first guess is never asked for. *)
Lemma autocomplete_waits_250_ms_in_page_tsx :
  Autocomplete.debounceMs PageTsx = 250
  /\ Autocomplete.debounceMs Part001 = 250
  /\ Autocomplete.sent
       (Autocomplete.run PageTsx
          [Autocomplete.Type_ "mac"; Autocomplete.Wait 249 Sample.offline]) = []
  /\ Autocomplete.sent
       (Autocomplete.run PageTsx
          [Autocomplete.Type_ "mac"; Autocomplete.Wait 250 Sample.offline]) =
     [Autocomplete.mkSent 250 (GetAutocomplete "mac") "mac" 0]
  /\ Autocomplete.sent
       (Autocomplete.run PageTsx
          [Autocomplete.Type_ "mac"; Autocomplete.Wait 240 Sample.offline;
           Autocomplete.Type_ "mac j"; Autocomplete.Wait 1000 Sample.offline]) =
     [Autocomplete.mkSent 490 (GetAutocomplete "mac j") "mac j" 240].
Proof. repeat split. Qed.

(** C7, amended.  The autocomplete request is debounced by the delay given
    to [setTimeout]: 200 ms in [Part000], 250 ms in [PageTsx] and [Part001].
    On every run of guess changes and waits, each request sent so far is the
    one the timer callback sends for the guess then in the input, exactly one
    delay after the last change of that guess.  A change of the guess sends
    nothing and replaces whatever timer was pending by a new one (none when
    the trimmed guess is empty).  After a change to a guess that is not
    blank, the callback sends the request once the delay has passed and not
    before.  A further change of the guess within the delay cancels the
    pending request: the first guess is never asked for, and the delay starts
    again for the second. *)
Theorem autocomplete_debounced
    (v : Client) (evs : list Autocomplete.Event) (g g' : string) (dt dt' : nat)
    (r r' : FetchResult) :
  let b := Autocomplete.run v evs in
  let b' := Autocomplete.onGuessChange v g b in
  let b'' := Autocomplete.step v (Autocomplete.elapse v dt r b') (Autocomplete.Type_ g') in
  (Autocomplete.debounceMs Part000 = 200
   /\ Autocomplete.debounceMs PageTsx = 250
   /\ Autocomplete.debounceMs Part001 = 250)
  /\ (forall e, In e (Autocomplete.sent b) ->
        Autocomplete.request e = GetAutocomplete (Autocomplete.inputThen e)
        /\ Autocomplete.sentAt e = Autocomplete.lastChangeThen e + Autocomplete.debounceMs v)
  /\ Autocomplete.sent b' = Autocomplete.sent b
  /\ Autocomplete.timers b' =
       (if Js.truthy (Js.trim g)
        then [Autocomplete.mkTimer (Autocomplete.nextTimerId b)
                (Autocomplete.now b + Autocomplete.debounceMs v) g]
        else [])
  /\ Autocomplete.sent (Autocomplete.elapse v dt r b') =
       Autocomplete.sent b ++
       List.map (fun req => Autocomplete.mkSent (Autocomplete.now b + Autocomplete.debounceMs v)
                              req g (Autocomplete.now b))
         (if Js.truthy (Js.trim g) && (Autocomplete.debounceMs v <=? dt)
          then requests (trace (Autocomplete.callback v g r))
          else [])
  /\ requests (trace (Autocomplete.callback v g r)) = [GetAutocomplete g]
  /\ (dt < Autocomplete.debounceMs v -> g' <> g ->
      Autocomplete.timers b'' =
        (if Js.truthy (Js.trim g')
         then [Autocomplete.mkTimer (Autocomplete.nextTimerId b')
                 (Autocomplete.now b + dt + Autocomplete.debounceMs v) g']
         else [])
      /\ Autocomplete.sent (Autocomplete.elapse v dt' r' b'') =
           Autocomplete.sent b ++
           (if Js.truthy (Js.trim g') && (Autocomplete.debounceMs v <=? dt')
            then [Autocomplete.mkSent (Autocomplete.now b + dt + Autocomplete.debounceMs v)
                    (GetAutocomplete g') g' (Autocomplete.now b + dt)]
            else [])).
Proof.
  intros b b' b''.
  destruct (AutocompleteFacts.run_invariant v evs) as [Hc Hs]. fold b in Hc, Hs.
  pose proof (AutocompleteFacts.onGuessChange_current v g b Hc) as Hc'. fold b' in Hc'.
  pose proof (AutocompleteFacts.change_then_wait v g dt r b Hc) as Hw. fold b' in Hw.
  destruct (AutocompleteFacts.onGuessChange_clock v g b) as (Hn & Hi & _).
  fold b' in Hn, Hi.
  split; [repeat split|]. split; [exact Hs|].
  split; [apply AutocompleteFacts.onGuessChange_sent|].
  split; [apply AutocompleteFacts.onGuessChange_timers, Hc|].
  split.
  { rewrite Hw, AutocompleteFacts.callback_requests.
    destruct (_ && _); reflexivity. }
  split; [apply AutocompleteFacts.callback_requests|].
  intros Hlt Hne.
  set (b1 := Autocomplete.elapse v dt r b') in *.
  assert (Hc1 : Autocomplete.timersCurrent v b1)
    by apply AutocompleteFacts.elapse_current, Hc'.
  assert (Hs1 : Autocomplete.sent b1 = Autocomplete.sent b).
  { subst b1. rewrite Hw.
    replace (Autocomplete.debounceMs v <=? dt) with false
      by (symmetry; apply Nat.leb_gt; exact Hlt).
    rewrite andb_false_r. apply app_nil_r. }
  assert (Hb'' : b'' = Autocomplete.onGuessChange v g' b1).
  { subst b''. cbn [Autocomplete.step]. fold b1.
    replace (Autocomplete.input b1) with g by (symmetry; exact Hi).
    destruct (String.eqb_spec g' g) as [E|_]; [contradiction | reflexivity]. }
  rewrite Hb''. split.
  - rewrite (AutocompleteFacts.onGuessChange_timers v g' b1 Hc1).
    replace (Autocomplete.now b1) with (Autocomplete.now b + dt)
      by (subst b1; cbn [Autocomplete.elapse Autocomplete.now]; rewrite Hn; reflexivity).
    replace (Autocomplete.nextTimerId b1) with (Autocomplete.nextTimerId b')
      by reflexivity.
    reflexivity.
  - rewrite (AutocompleteFacts.change_then_wait v g' dt' r' b1 Hc1), Hs1.
    replace (Autocomplete.now b1) with (Autocomplete.now b + dt)
      by (subst b1; cbn [Autocomplete.elapse Autocomplete.now]; rewrite Hn; reflexivity).
    reflexivity.
Qed.

Lemma autocomplete_debounced_witness :
  100 < Autocomplete.debounceMs Part000
  /\ Autocomplete.sent
       (Autocomplete.elapse Part000 200 Sample.offline
          (Autocomplete.step Part000
             (Autocomplete.elapse Part000 100 Sample.offline
                (Autocomplete.onGuessChange Part000 "mac" (Autocomplete.run Part000 [])))
             (Autocomplete.Type_ "mac j"))) =
     [Autocomplete.mkSent 300 (GetAutocomplete "mac j") "mac j" 100].
Proof.
  assert (Hlt : 100 < Autocomplete.debounceMs Part000) by (vm_compute; lia).
  assert (Hne : "mac j" <> "mac") by discriminate.
  split; [exact Hlt|].
  destruct (autocomplete_debounced Part000 [] "mac" "mac j" 100 200
              Sample.offline Sample.offline) as (_ & _ & _ & _ & _ & _ & H).
  exact (proj2 (H Hlt Hne)).
Defined.

(** ** C9: the two terminal flags *)



(** [bind], remembering what the first computation returned. *)
Lemma allEffects_bind_returned (P : Effect -> bool) {A B} (m : M A) (k : A -> M B) :
  allEffects P m -> (forall a, snd m = inr a -> allEffects P (k a)) ->
  allEffects P (bind m k).
Proof.
  unfold allEffects, bind. destruct m as [t [e|a]]; simpl; intros Hm Hk; [exact Hm|].
  specialize (Hk a eq_refl). destruct (k a) as [t' r]. simpl in *.
  rewrite forallb_app, Hm, Hk. reflexivity.
Qed.

Lemma fetch_returned (req : Request) (r : FetchResult) (res : Response) :
  snd (fetch req r) = inr res -> r = Responded res.
Proof. destruct r; simpl; congruence. Qed.

Lemma json_returned (res : Response) (data : Json.Body) :
  snd (json res) = inr data -> body res = Parsed data.
Proof. unfold json. destruct (body res); simpl; congruence. Qed.










(** The same happens without the Give Up button. *)
Lemma won_and_lost_in_page_tsx :
  let page := cur (run PageTsx Sample.okGame Race.twoGuesses) in
  gameWon page = true /\ gameLost page = true.
Proof. split; reflexivity. Qed.


(** ** One handler at a time is one way to run the system *)

Lemma untilFetch_later (t : Trace) :
  snd (untilFetch t) <> [] -> List.length (snd (untilFetch t)) < List.length t.
Proof.
  induction t as [|e t IH]; simpl; [congruence|].
  destruct e; simpl; try lia;
    destruct (untilFetch t) as [now later]; simpl in *; intros H;
    specialize (IH H); lia.
Qed.

Lemma nth_error_middle {A} (l1 l2 : list A) (x : A) :
  nth_error (l1 ++ x :: l2) (List.length l1) = Some x.
Proof. induction l1 as [|y l1 IH]; simpl; [reflexivity | exact IH]. Qed.

Lemma removeNth_middle {A} (l1 l2 : list A) (x : A) :
  removeNth (List.length l1) (l1 ++ x :: l2) = l1 ++ l2.
Proof. induction l1 as [|y l1 IH]; simpl; [reflexivity | rewrite IH; reflexivity]. Qed.

(** Resuming a trace until it ends leaves the page that applying all of it
    at once gives. *)
Lemma exec_settles (v : Client) (n : nat) : forall (t : Trace) (s : State) (others : list Trace),
  List.length t <= n ->
  exists steps others',
    fold_left (step v) steps (exec s t others) = mkSystem (render s t) others'.
Proof.
  induction n as [|n IH]; intros t s others Hn.
  - destruct t; [|simpl in Hn; lia]. exists [], (others ++ []). reflexivity.
  - pose proof (untilFetch_app t) as Happ. pose proof (untilFetch_later t) as Hlt.
    unfold exec. destruct (untilFetch t) as [now later]. simpl in Happ, Hlt.
    assert (Hr : render s t = render (render s now) later).
    { rewrite Happ, render_app. reflexivity. }
    rewrite Hr. clear Hr.
    destruct later as [|e later].
    + exists [], (others ++ [] ++ timersOf now). reflexivity.
    + assert (Hl : List.length (e :: later) <= n) by (specialize (Hlt ltac:(discriminate)); lia).
      destruct (IH (e :: later) (render s now) (others ++ timersOf now) Hl)
        as (steps & others' & Hsteps).
      exists (Resume (List.length others) :: steps), others'.
      cbn [fold_left step cur inflight app].
      rewrite nth_error_middle, removeNth_middle, Hsteps. reflexivity.
Qed.

Lemma runSeq_from (v : Client) (evs : list Event) : forall sys,
  exists steps, cur (fold_left (step v) steps sys) = fold_left (stepSeq v) evs (cur sys).
Proof.
  induction evs as [|ev evs IH]; intros sys; [exists []; reflexivity|].
  cbn [fold_left]. unfold stepSeq at 2, call.
  destruct (enabled v (cur sys) ev) eqn:He.
  - destruct (exec_settles v _ (trace (handler v (cur sys) ev)) (cur sys) (inflight sys) (le_n _))
      as (steps1 & others' & H1).
    destruct (IH (mkSystem (render (cur sys) (trace (handler v (cur sys) ev))) others'))
      as (steps2 & H2).
    exists (Dispatch ev :: steps1 ++ steps2).
    cbn [fold_left step]. rewrite He, fold_left_app, H1. exact H2.
  - destruct (IH sys) as (steps & H).
    exists (Dispatch ev :: steps). cbn [fold_left step]. rewrite He. exact H.
Qed.

(** Every page reached one handler at a time is a page of the system. *)
Lemma runSeq_is_run (v : Client) (rl : FetchResult) (evs : list Event) :
  exists steps, cur (run v rl steps) = runSeq v rl evs.
Proof.
  unfold run, runSeq, boot, call.
  destruct (exec_settles v _ (trace (loadGame v daily rl)) initialState [] (le_n _))
    as (steps0 & others' & H0).
  destruct (runSeq_from v evs (mkSystem (render initialState (trace (loadGame v daily rl))) others'))
    as (steps & H).
  exists (steps0 ++ steps). rewrite fold_left_app, H0. exact H.
Qed.

(** * Properties of the rest of the page *)

(** ** Loading a game *)

(** X1.  A successful load starts a clean game. *)
Theorem load_starts_clean_game
    (v : Client) (s : State) (mode : GameMode) (res : Response) (data : Json.Body) :
  ok res = true -> body res = Parsed data ->
  let m := loadGame v mode (Responded res) in
  let s' := call s m in
  requests (trace m) = [endpoint v mode]
  /\ sessionId s' = Json.session_id data
  /\ seasons s' = Json.seasons data
  /\ gameMode s' = (if hasModes v then mode else gameMode s)
  /\ guesses s' = [] /\ gameWon s' = false /\ gameLost s' = false
  /\ answer s' = None /\ guess s' = "" /\ hintsUsed s' = 0
  /\ loading s' = false /\ error s' = None
  /\ suggestions s' = suggestions s /\ showSuggestions s' = showSuggestions s
  /\ showHelp s' = showHelp s /\ copied s' = copied s.
Proof.
  intros Hok Hb m s'. subst s' m. unfold call.
  rewrite (loadGame_ok v mode res data Hok Hb).
  destruct v; cbn; repeat split.
Qed.

Lemma load_starts_clean_game_witness :
  ok (mkResponse 200 (Parsed (Json.game "s-2" [] (Some QB)))) = true
  /\ guesses (call (Sample.seven Part000)
               (loadGame Part000 unlimited
                  (Responded (mkResponse 200 (Parsed (Json.game "s-2" [] (Some QB))))))) = []
  /\ gameMode (call (Sample.seven Part000)
                 (loadGame Part000 unlimited
                    (Responded (mkResponse 200 (Parsed (Json.game "s-2" [] (Some QB))))))) = unlimited.
Proof.
  pose proof (load_starts_clean_game Part000 (Sample.seven Part000) unlimited
                (mkResponse 200 (Parsed (Json.game "s-2" [] (Some QB))))
                (Json.game "s-2" [] (Some QB)) eq_refl eq_refl) as H.
  split; [reflexivity|]. split; [apply H | apply H].
Defined.

(** X2.  A failed load keeps the game and reports one fixed message. *)
Theorem failed_load_keeps_game
    (v : Client) (s : State) (mode : GameMode) (rl : FetchResult) :
  failed rl = true ->
  let m := loadGame v mode rl in
  let s' := call s m in
  requests (trace m) = [endpoint v mode]
  /\ sameGame s s' /\ guess s' = guess s
  /\ error s' = Some "Failed to load game. Please refresh the page."
  /\ loading s' = false
  /\ screen v s' =
       (if isPart000 v && negb (List.length (seasons s) =? 0) then GamePage else ErrorCard).
Proof.
  intros H m s'. subst s' m. unfold call, sameGame.
  rewrite (loadGame_failed v mode rl H).
  destruct v; cbn; repeat split; unfold screen; cbn;
    destruct (List.length (seasons s)); reflexivity.
Qed.

Lemma failed_load_keeps_game_witness :
  failed Sample.offline = true
  /\ sameGame (Sample.seven Part000)
       (call (Sample.seven Part000) (loadGame Part000 unlimited Sample.offline))
  /\ screen Part000 (call (Sample.seven Part000) (loadGame Part000 unlimited Sample.offline))
     = GamePage
  /\ screen PageTsx (call (Sample.seven PageTsx) (loadGame PageTsx unlimited Sample.offline))
     = ErrorCard.
Proof.
  split; [reflexivity|]. split; [|split].
  - apply (failed_load_keeps_game Part000 (Sample.seven Part000) unlimited Sample.offline
             eq_refl).
  - apply (failed_load_keeps_game Part000 (Sample.seven Part000) unlimited Sample.offline
             eq_refl).
  - apply (failed_load_keeps_game PageTsx (Sample.seven PageTsx) unlimited Sample.offline
             eq_refl).
Defined.

(** X3.  Whatever the server answers, [loadGame] returns normally, has sent
    exactly one request, the one of the mode, and leaves the spinner off. *)
Theorem load_always_settles
    (v : Client) (s : State) (mode : GameMode) (rl : FetchResult) :
  let m := loadGame v mode rl in
  snd m = inr tt
  /\ requests (trace m) = [endpoint v mode]
  /\ loading (call s m) = false.
Proof.
  intros m. subst m. destruct (failed_or_parsed rl) as [H|(res & data & -> & Hok & Hb)].
  - rewrite (loadGame_failed v mode rl H). repeat split.
  - split; [apply loadGame_returns|]. unfold call.
    rewrite (loadGame_ok v mode res data Hok Hb). destruct v; repeat split.
Qed.

(** ** Failed guesses and reveals *)

(** X4.  [revealAnswer] without a session does nothing; a failed /reveal
    (other than an expired session in [Part000]) sends that one request, keeps
    the game as it is (not lost, no answer stored) and stores an error:
    always "Failed to reveal answer" in [PageTsx] and [Part001], the message
    of the failure in [Part000]. *)
Theorem failed_reveal_keeps_game
    (v : Client) (s : State) (rr rl : FetchResult) :
  (Js.truthyOpt (sessionId s) = false -> revealAnswer v s rr rl = ret tt)
  /\ (Js.truthyOpt (sessionId s) = true -> failed rr = true ->
      expired v rr "Failed to reveal answer" = false ->
      let m := revealAnswer v s rr rl in
      requests (trace m) = [PostReveal (sessionId s)]
      /\ sameGame s (call s m) /\ guess (call s m) = guess s
      /\ error (call s m) =
           Some (if isPart000 v then failureMessage rr "Failed to reveal answer"
                 else "Failed to reveal answer")).
Proof.
  split.
  - intros H. unfold revealAnswer. rewrite H. reflexivity.
  - intros Hs Hf He m. subst m. unfold call, sameGame.
    rewrite (revealAnswer_failed v s rr rl Hs Hf He). cbn. repeat split.
Qed.

Lemma failed_reveal_keeps_game_witness :
  Js.truthyOpt (sessionId (Sample.typed PageTsx)) = true
  /\ error (call (Sample.typed PageTsx)
              (revealAnswer PageTsx (Sample.typed PageTsx) Sample.sessionGone Sample.okGame))
     = Some "Failed to reveal answer".
Proof.
  split; [reflexivity|].
  apply (proj2 (failed_reveal_keeps_game PageTsx (Sample.typed PageTsx)
                  Sample.sessionGone Sample.okGame) eq_refl eq_refl eq_refl).
Defined.

(** X5.  A failed /guess (other than an expired session in [Part000])
    consumes no attempt: [submitGuess] sends that one request, keeps the
    guesses, the flags and the typed name, and stores the message of the
    failure as the error; the page still accepts the same guess.  On screen
    that error is the error card in [PageTsx] and [Part001] whenever the
    message is not empty, and a toast over the game in [Part000] once
    statistics are loaded. *)
Theorem failed_guess_consumes_no_attempt
    (v : Client) (s : State) (rg rr rl : FetchResult) :
  accepts s = true -> failed rg = true -> expired v rg "Guess failed" = false ->
  let m := submitGuess v s rg rr rl in
  let s' := call s m in
  requests (trace m) = [PostGuess (guess s) (sessionId s)]
  /\ sameGame s s' /\ guess s' = guess s
  /\ error s' = Some (failureMessage rg "Guess failed")
  /\ accepts s' = true
  /\ (loading s = false ->
      screen v s' =
        (if Js.truthy (failureMessage rg "Guess failed")
            && (if isPart000 v then List.length (seasons s) =? 0 else true)
         then ErrorCard else GamePage)).
Proof.
  intros Ha Hf He m s'. subst s' m. unfold call, sameGame.
  rewrite (submitGuess_failed v s rg rr rl Ha Hf He). cbn.
  repeat split; try exact Ha.
  intros Hl. unfold screen. cbn. rewrite Hl. reflexivity.
Qed.

Lemma failed_guess_consumes_no_attempt_witness :
  accepts (Sample.seven Part000) = true
  /\ failed Sample.offline = true
  /\ guesses (call (Sample.seven Part000)
                (submitGuess Part000 (Sample.seven Part000)
                   Sample.offline Sample.okReveal Sample.okGame))
     = guesses (Sample.seven Part000)
  /\ error (call (Sample.seven Part000)
              (submitGuess Part000 (Sample.seven Part000)
                 Sample.offline Sample.okReveal Sample.okGame))
     = Some "Failed to fetch".
Proof.
  pose proof (failed_guess_consumes_no_attempt Part000 (Sample.seven Part000)
                Sample.offline Sample.okReveal Sample.okGame eq_refl eq_refl eq_refl) as H.
  split; [reflexivity|]. split; [reflexivity|]. split; apply H.
Defined.

(** ** Accepted guesses *)

(** X6.  A wrong guess below the limit costs exactly one attempt and nothing
    else: one request (no /reveal), the guess appended, the input and the
    suggestions cleared; the game goes on, and the error cell is left as it
    was. *)
Theorem wrong_guess_costs_one_attempt
    (v : Client) (s : State) (rr rl : FetchResult) (res : Response) (data : Json.Body) :
  accepts s = true -> S (List.length (guesses s)) < MAX_GUESSES ->
  ok res = true -> body res = Parsed data -> Json.correct data = false ->
  let m := submitGuess v s (Responded res) rr rl in
  let s' := call s m in
  requests (trace m) = [PostGuess (guess s) (sessionId s)]
  /\ guesses s' = guesses s ++ [newGuess v s data]
  /\ List.length (guesses s') = S (List.length (guesses s))
  /\ terminal s' = false
  /\ guess s' = "" /\ suggestions s' = [] /\ showSuggestions s' = false
  /\ error s' = error s /\ sessionId s' = sessionId s /\ answer s' = answer s.
Proof.
  intros Ha Hlt Hok Hb Hc m s'. subst s' m.
  destruct (accepts_not_terminal s Ha) as [Hw Hl].
  unfold call, terminal.
  rewrite (submitGuess_ok v s rr rl res data Ha Hok Hb), Hc.
  replace (MAX_GUESSES <=? List.length (guesses s ++ [newGuess v s data])) with false
    by (symmetry; apply Nat.leb_gt; rewrite length_app; simpl; lia).
  cbn. rewrite Hw, Hl, length_app. simpl. repeat split. lia.
Qed.

Lemma wrong_guess_costs_one_attempt_witness :
  accepts (Sample.typed Part000) = true
  /\ List.length (guesses (call (Sample.typed Part000)
                            (submitGuess Part000 (Sample.typed Part000)
                               Sample.wrong Sample.offline Sample.offline))) = 1.
Proof.
  split; [reflexivity|].
  refine (proj1 (proj2 (proj2
    (wrong_guess_costs_one_attempt Part000 (Sample.typed Part000) Sample.offline Sample.offline
       (mkResponse 200
          (Parsed (Json.guess false (Some (Json.mkFeedback (Some "far") (Some false)))
                     (Some "BradTo00"))))
       (Json.guess false (Some (Json.mkFeedback (Some "far") (Some false))) (Some "BradTo00"))
       eq_refl _ eq_refl eq_refl eq_refl)))).
  vm_compute. lia.
Defined.

(** X7.  In [Part000], when the session has expired by the time of the
    /reveal that follows the eighth wrong guess and the reload succeeds, the
    page ends on a clean game of the new session and not on a lost one: the
    three requests go out in order, the eight guesses are dropped, and the
    expiry notice is shown. *)
Theorem expired_reveal_after_last_guess
    (s : State) (rl : FetchResult) (res res' res'' : Response)
    (data data' data'' : Json.Body) (msg : string) :
  accepts s = true -> S (List.length (guesses s)) = MAX_GUESSES ->
  ok res = true -> body res = Parsed data -> Json.correct data = false ->
  status res' = 404 -> body res' = Parsed data' ->
  Json.detail data' = Some msg -> Js.includes msg "Session not found" = true ->
  ok res'' = true -> body res'' = Parsed data'' ->
  let m := submitGuess Part000 s (Responded res) (Responded res') (Responded res'') in
  let s' := call s m in
  requests (trace m) =
    [PostGuess (guess s) (sessionId s); PostReveal (sessionId s);
     endpoint Part000 (gameMode s)]
  /\ sessionId s' = Json.session_id data''
  /\ guesses s' = [] /\ terminal s' = false /\ answer s' = None
  /\ guess s' = "" /\ loading s' = false
  /\ error s' = Some sessionExpiredNotice.
Proof.
  intros Ha H7 Hok Hb Hc Hst Hb' Hd Hi Hok'' Hb'' m s'. subst s' m.
  unfold call, terminal.
  rewrite (submitGuess_last_wrong Part000 s _ _ res data Ha H7 Hok Hb Hc).
  rewrite (revealAnswer_expired s _ res' data' msg (accepts_session s Ha) Hst Hb' Hd Hi).
  rewrite (loadGame_ok Part000 (gameMode s) res'' data'' Hok'' Hb'').
  cbn. repeat split.
Qed.

Lemma expired_reveal_after_last_guess_witness :
  accepts (Sample.seven Part000) = true
  /\ S (List.length (guesses (Sample.seven Part000))) = MAX_GUESSES
  /\ guesses (call (Sample.seven Part000)
                (submitGuess Part000 (Sample.seven Part000)
                   Sample.wrong Sample.sessionGone Sample.okGame)) = []
  /\ terminal (call (Sample.seven Part000)
                 (submitGuess Part000 (Sample.seven Part000)
                    Sample.wrong Sample.sessionGone Sample.okGame)) = false.
Proof.
  pose proof (expired_reveal_after_last_guess (Sample.seven Part000) Sample.offline
                (mkResponse 200
                   (Parsed (Json.guess false (Some (Json.mkFeedback (Some "far") (Some false)))
                              (Some "BradTo00"))))
                (mkResponse 404 (Parsed (Json.error "Session not found")))
                (mkResponse 200
                   (Parsed (Json.game "s-1" [mkSeasonStats 2021 (Some "NWE") (Some 17) None]
                              (Some QB))))
                _ _ _ "Session not found"
                eq_refl eq_refl eq_refl eq_refl eq_refl eq_refl eq_refl eq_refl eq_refl
                eq_refl eq_refl) as H.
  split; [reflexivity|]. split; [reflexivity|]. split; apply H.
Defined.

(** X8.  In [Part000], when the reload of the session-expiry branch fails,
    the page keeps the expired session and its guesses, and still shows the
    notice that a new game has been loaded, in place of the load failure. *)
Theorem failed_recovery_keeps_expired_session
    (s : State) (rr rl : FetchResult) (res : Response) (data : Json.Body) (msg : string) :
  accepts s = true ->
  status res = 404 -> body res = Parsed data ->
  Json.detail data = Some msg -> Js.includes msg "Session not found" = true ->
  failed rl = true ->
  let m := submitGuess Part000 s (Responded res) rr rl in
  let s' := call s m in
  requests (trace m) = [PostGuess (guess s) (sessionId s); endpoint Part000 (gameMode s)]
  /\ sameGame s s' /\ guess s' = guess s
  /\ error s' = Some sessionExpiredNotice
  /\ loading s' = false
  /\ accepts s' = true.
Proof.
  intros Ha Hst Hb Hd Hi Hf m s'. subst s' m. unfold call, sameGame.
  rewrite (submitGuess_expired s rr rl res data msg Ha Hst Hb Hd Hi).
  rewrite (loadGame_failed Part000 (gameMode s) rl Hf).
  cbn. repeat split; exact Ha.
Qed.

Lemma failed_recovery_keeps_expired_session_witness :
  accepts (Sample.typed Part000) = true
  /\ failed Sample.offline = true
  /\ sessionId (call (Sample.typed Part000)
                  (submitGuess Part000 (Sample.typed Part000)
                     Sample.sessionGone Sample.okReveal Sample.offline))
     = sessionId (Sample.typed Part000)
  /\ error (call (Sample.typed Part000)
              (submitGuess Part000 (Sample.typed Part000)
                 Sample.sessionGone Sample.okReveal Sample.offline))
     = Some sessionExpiredNotice.
Proof.
  pose proof (failed_recovery_keeps_expired_session (Sample.typed Part000)
                Sample.okReveal Sample.offline
                (mkResponse 404 (Parsed (Json.error "Session not found"))) _
                "Session not found" eq_refl eq_refl eq_refl eq_refl eq_refl eq_refl) as H.
  split; [reflexivity|]. split; [reflexivity|]. split; apply H.
Defined.

(** ** The winning guess *)

Lemma render_keepsWrong (t : Trace) : forall s,
  gameWon s = false -> allWrong (guesses s) = true -> forallb keepsWrong t = true ->
  gameWon (render s t) = false /\ allWrong (guesses (render s t)) = true.
Proof.
  unfold render. induction t as [|e t IH]; simpl; intros s Hw Hg Ht; [auto|].
  apply andb_prop in Ht as [He Ht].
  destruct e as [r|a|msg|ms a]; simpl; try (apply IH; assumption).
  destruct a as [| | | | | | | |[]| | | | | | | | | | | |]; simpl in *;
    try discriminate He; apply IH; auto.
Qed.

Lemma loadGame_keepsWrong (v : Client) (mode : GameMode) (rl : FetchResult) :
  allEffects keepsWrong (loadGame v mode rl).
Proof. unfold loadGame. effects. Qed.

Lemma revealAnswer_keepsWrong (v : Client) (s : State) (rr rl : FetchResult) :
  allEffects keepsWrong (revealAnswer v s rr rl).
Proof. unfold revealAnswer. effects. Qed.

Lemma allWrong_app (l : list GuessResult) (g : GuessResult) :
  allWrong (l ++ [g]) = allWrong l && negb (correct g).
Proof. unfold allWrong. rewrite forallb_app. simpl. rewrite andb_true_r. reflexivity. Qed.

(** Unless /guess answers that the guess is correct, [submitGuess] on a page
    of wrong guesses stores wrong guesses only. *)
Lemma submitGuess_keepsWrong (v : Client) (s : State) (rg rr rl : FetchResult) :
  allWrong (guesses s) = true ->
  (forall res data,
      rg = Responded res -> ok res = true -> body res = Parsed data ->
      Json.correct data = false) ->
  allEffects keepsWrong (submitGuess v s rg rr rl).
Proof.
  intros Hg Hwrong. unfold submitGuess.
  destruct (_ || _); [apply allEffects_ret|].
  destruct (_ <=? _); [apply allEffects_ret|].
  apply allEffects_tryCatch; [|intros ?; effects].
  apply allEffects_bind_returned; [effects|]. intros res Hres.
  apply fetch_returned in Hres.
  destruct (ok res) eqn:Hok; cbn [negb].
  - apply allEffects_bind_returned; [effects|]. intros data Hdata.
    apply json_returned in Hdata.
    pose proof (Hwrong res data Hres Hok Hdata) as Hc. rewrite Hc.
    cbv zeta. apply allEffects_bind.
    + apply allEffects_emit. cbn [keepsWrong]. rewrite allWrong_app.
      unfold newGuess. cbn [correct]. rewrite Hg, Hc. reflexivity.
    + intros ?. effects; try apply revealAnswer_keepsWrong.
  - effects; try apply loadGame_keepsWrong.
Qed.

Lemma stepSeq_wonByLast (v : Client) (s : State) (ev : Event) :
  wonByLast s -> wonByLast (stepSeq v s ev).
Proof.
  intros Inv. unfold stepSeq. destruct (enabled v s ev) eqn:He; [|exact Inv].
  assert (Load : forall mode rl, wonByLast (call s (loadGame v mode rl))).
  { intros mode rl. unfold call, wonByLast.
    destruct (failed_or_parsed rl) as [H|(res & data & -> & Hok & Hb)].
    - rewrite (loadGame_failed v mode rl H). exact Inv.
    - rewrite (loadGame_ok v mode res data Hok Hb).
      destruct v; cbn; split; (discriminate || reflexivity). }
  assert (Fresh : terminal s = false -> forall m : M unit,
            allEffects keepsWrong m -> wonByLast (call s m)).
  { unfold terminal. intros Ht m Hm. apply orb_false_elim in Ht as [Hw _].
    destruct (render_keepsWrong _ s Hw (proj2 Inv Hw) Hm) as [Hw' Hg'].
    unfold call. split; intros H; [congruence | exact Hg']. }
  assert (Live : forall b, b && negb (terminal s) = true -> terminal s = false).
  { intros b H. destruct (terminal s); [rewrite andb_false_r in H; discriminate | reflexivity]. }
  destruct ev as [rl|mode rl|rl|text|rg rr rl|rr rl|h|a]; cbn [handler enabled] in *.
  - apply Load.
  - unfold switchMode. destruct (negb (modeEqb mode (gameMode s))); [apply Load | exact Inv].
  - apply Load.
  - exact Inv.
  - pose proof (Live _ He) as Ht.
    assert (Hw : gameWon s = false) by (unfold terminal in Ht; apply orb_false_elim in Ht; tauto).
    destruct (accepts s) eqn:Ha;
      [|rewrite (submitGuess_rejects v s rg rr rl Ha); exact Inv].
    assert (Wrong : (forall res data, rg = Responded res -> ok res = true ->
                       body res = Parsed data -> Json.correct data = false) ->
                    wonByLast (call s (submitGuess v s rg rr rl))).
    { intros H. apply (Fresh Ht), submitGuess_keepsWrong; [exact (proj2 Inv Hw) | exact H]. }
    destruct rg as [msg|res]; [apply Wrong; intros ? ? [=]|].
    destruct (ok res) eqn:Hok; [|apply Wrong; intros ? ? [= <-]; congruence].
    destruct (body res) as [msg|data] eqn:Hb; [apply Wrong; intros ? ? [= <-]; congruence|].
    destruct (Json.correct data) eqn:Hc; [|apply Wrong; intros ? ? [= <-]; congruence].
    unfold call, wonByLast.
    rewrite (submitGuess_ok v s rr rl res data Ha Hok Hb), Hc. cbn.
    split; [|discriminate]. intros _.
    exists (guesses s), (newGuess v s data). repeat split; [exact Hc | exact (proj2 Inv Hw)].
  - assert (Ht : terminal s = false).
    { destruct (terminal s); [rewrite andb_false_r in He; discriminate | reflexivity]. }
    apply (Fresh Ht), revealAnswer_keepsWrong.
  - destruct h; exact Inv.
  - destruct a; try discriminate He; exact Inv.
Qed.

(** X9.  When handlers run one at a time, on every page reached from
    mounting the game is won exactly when the last guess of the list is
    correct, and every other guess of the list is wrong. *)
Theorem won_by_the_last_guess (v : Client) (rl : FetchResult) (evs : list Event) :
  let s := runSeq v rl evs in
  (gameWon s = true <->
   exists l g, guesses s = l ++ [g] /\ correct g = true /\ allWrong l = true)
  /\ (gameWon s = false <-> allWrong (guesses s) = true).
Proof.
  intros s.
  assert (Inv : wonByLast s).
  { subst s. unfold runSeq.
    assert (H : wonByLast (call initialState (loadGame v daily rl))).
    { destruct (render_keepsWrong _ initialState eq_refl eq_refl (loadGame_keepsWrong v daily rl))
        as [Hw Hg]. unfold call. split; intros H; [congruence | exact Hg]. }
    revert H. generalize (call initialState (loadGame v daily rl)).
    induction evs as [|ev evs IH]; simpl; intros s H; [exact H|].
    apply IH, stepSeq_wonByLast, H. }
  destruct Inv as [Hwon Hnot]. split; split; auto.
  - intros (l & g & Hl & Hc & _). destruct (gameWon s) eqn:Hw; [reflexivity|].
    specialize (Hnot eq_refl). rewrite Hl, allWrong_app, Hc, andb_false_r in Hnot. discriminate.
  - intros Hall. destruct (gameWon s) eqn:Hw; [|reflexivity].
    destruct (Hwon eq_refl) as (l & g & Hl & Hc & _).
    rewrite Hl, allWrong_app, Hc, andb_false_r in Hall. discriminate.
Qed.

(** ** The requests of the handlers *)

Lemma optEqb_eq (a b : option string) : optEqb a b = true <-> a = b.
Proof.
  destruct a as [x|], b as [y|]; simpl; try (split; [discriminate | intros [=]]).
  - rewrite String.eqb_eq. split; [intros ->; reflexivity | intros [= ->]; reflexivity].
  - split; reflexivity.
Qed.

Lemma endpoint_sentFrom (v : Client) (s : State) (mode : GameMode) :
  sentFrom v s (Fetch (endpoint v mode)) = true.
Proof. destruct v, mode; reflexivity. Qed.

Lemma loadGame_sentFrom (v : Client) (s : State) (mode : GameMode) (rl : FetchResult) :
  allEffects (sentFrom v s) (loadGame v mode rl).
Proof.
  unfold loadGame. effects.
  apply allEffects_fetch, endpoint_sentFrom.
Qed.

Lemma recoverSession_sentFrom (v : Client) (s : State) (rl : FetchResult) :
  allEffects (sentFrom v s) (recoverSession v s rl).
Proof.
  unfold recoverSession. effects; try apply loadGame_sentFrom.
  all: apply allEffects_fetch, endpoint_sentFrom.
Qed.

Lemma revealAnswer_sentFrom (v : Client) (s : State) (rr rl : FetchResult) :
  allEffects (sentFrom v s) (revealAnswer v s rr rl).
Proof.
  unfold revealAnswer. destruct (Js.truthyOpt (sessionId s)) eqn:Hs; cbn [negb];
    [|apply allEffects_ret].
  effects; try (apply allEffects_fetch, endpoint_sentFrom).
  apply allEffects_fetch. cbn [sentFrom]. rewrite Hs.
  apply andb_true_intro. split; [reflexivity | apply optEqb_eq; reflexivity].
Qed.

Lemma submitGuess_sentFrom (v : Client) (s : State) (rg rr rl : FetchResult) :
  allEffects (sentFrom v s) (submitGuess v s rg rr rl).
Proof.
  destruct (accepts s) eqn:Ha;
    [|rewrite (submitGuess_rejects v s rg rr rl Ha); apply allEffects_ret].
  rewrite (submitGuess_accepts v s rg rr rl Ha).
  effects; try (apply allEffects_fetch, endpoint_sentFrom);
    try apply revealAnswer_sentFrom.
  apply allEffects_fetch. cbn [sentFrom].
  rewrite (accepts_session s Ha), String.eqb_refl.
  unfold accepts in Ha. repeat (apply andb_prop in Ha as [Ha ?]). rewrite Ha.
  apply optEqb_eq. reflexivity.
Qed.

Lemma handler_sentFrom (v : Client) (s : State) (ev : Event) :
  allEffects (sentFrom v s) (handler v s ev).
Proof.
  destruct ev as [rl|mode rl|rl|text|rg rr rl|rr rl|[| |]|a]; simpl;
    try reflexivity.
  - apply loadGame_sentFrom.
  - unfold switchMode. destruct (negb (modeEqb mode (gameMode s)));
      [apply loadGame_sentFrom | reflexivity].
  - apply loadGame_sentFrom.
  - apply submitGuess_sentFrom.
  - apply revealAnswer_sentFrom.
Qed.

Lemma requests_In (t : Trace) (req : Request) :
  In req (requests t) <-> In (Fetch req) t.
Proof.
  unfold requests. rewrite in_flat_map. split.
  - intros (e & He & Hin). destruct e; simpl in Hin; try contradiction.
    destruct Hin as [<-|[]]. exact He.
  - intros H. exists (Fetch req). split; [exact H | left; reflexivity].
Qed.

(** X10.  Whatever the page and the answers of the server, a handler of the
    game sends /guess only with the guess and the session of the page it is
    bound on, the guess not blank and the session present; /reveal only with
    that session; never /autocomplete; and /daily_qb only in the revisions
    that have modes. *)
Theorem requests_come_from_the_page
    (v : Client) (s : State) (ev : Event) (req : Request) :
  In req (requests (trace (handler v s ev))) ->
  match req with
  | PostGuess g sid =>
      g = guess s /\ sid = sessionId s
      /\ Js.allWhiteSpace g = false /\ Js.truthyOpt sid = true
  | PostReveal sid => sid = sessionId s /\ Js.truthyOpt sid = true
  | GetAutocomplete _ => False
  | GetDailyQb => v <> Part001
  | GetRandomQb => True
  end.
Proof.
  intros Hin. apply requests_In in Hin.
  pose proof (handler_sentFrom v s ev) as H. unfold allEffects in H.
  rewrite forallb_forall in H. specialize (H _ Hin). cbn [sentFrom] in H.
  destruct req as [| |g sid|sid|q].
  - destruct v; [discriminate | discriminate | discriminate H].
  - exact I.
  - repeat (apply andb_prop in H as [H ?]).
    repeat split.
    + apply String.eqb_eq. assumption.
    + apply optEqb_eq. assumption.
    + destruct (Js.allWhiteSpace g) eqn:Hw; [|reflexivity].
      apply trim_falsy_iff in Hw. congruence.
    + assumption.
  - apply andb_prop in H as [H1 H2]. split; [apply optEqb_eq, H2 | exact H1].
  - discriminate H.
Qed.

Lemma requests_come_from_the_page_witness :
  let s := Sample.seven Part000 in
  In (PostReveal (Some "s-1"))
     (requests (trace (handler Part000 s (Submit Sample.wrong Sample.okReveal Sample.offline))))
  /\ sessionId s = Some "s-1".
Proof.
  assert (Hin : In (PostReveal (Some "s-1"))
                  (requests (trace (handler Part000 (Sample.seven Part000)
                                      (Submit Sample.wrong Sample.okReveal Sample.offline))))).
  { vm_compute. tauto. }
  split; [exact Hin|].
  symmetry.
  exact (proj1 (requests_come_from_the_page Part000 (Sample.seven Part000) _ _ Hin)).
Defined.

(** ** The mode of the game *)

Lemma modeEqb_eq (a b : GameMode) : modeEqb a b = true <-> a = b.
Proof. destruct a, b; simpl; split; congruence. Qed.

Lemma render_modeOnly (m : GameMode) (t : Trace) : forall s,
  gameMode s = m -> forallb (modeOnly m) t = true -> gameMode (render s t) = m.
Proof.
  unfold render. induction t as [|e t IH]; simpl; intros s Hs Ht; [exact Hs|].
  apply andb_prop in Ht as [He Ht]. apply IH; [|exact Ht].
  destruct e as [r|a|msg|ms a]; simpl; try exact Hs.
  destruct a; simpl in *; try exact Hs. apply modeEqb_eq, He.
Qed.

Lemma loadGame_modeOnly (v : Client) (mode : GameMode) (rl : FetchResult) :
  allEffects (modeOnly mode) (loadGame v mode rl).
Proof.
  unfold loadGame. effects.
  apply allEffects_emit. apply modeEqb_eq. reflexivity.
Qed.

Lemma recoverSession_modeOnly (v : Client) (s : State) (rl : FetchResult) :
  allEffects (modeOnly (gameMode s)) (recoverSession v s rl).
Proof.
  unfold recoverSession.
  apply allEffects_bind; [effects|]. intros _.
  apply allEffects_bind; [apply loadGame_modeOnly|]. intros _. effects.
Qed.

Lemma revealAnswer_modeOnly (v : Client) (s : State) (rr rl : FetchResult) :
  allEffects (modeOnly (gameMode s)) (revealAnswer v s rr rl).
Proof.
  unfold revealAnswer. destruct (negb _); [apply allEffects_ret|].
  apply allEffects_tryCatch; [|intros ?; effects].
  apply allEffects_bind; [effects|]. intros res.
  destruct (negb (ok res)); [|effects].
  destruct (isPart000 v); [|effects].
  apply allEffects_bind; [effects|]. intros errorData. cbv zeta.
  destruct (isSessionExpiry _ _); [apply recoverSession_modeOnly | effects].
Qed.

Lemma submitGuess_modeOnly (v : Client) (s : State) (rg rr rl : FetchResult) :
  allEffects (modeOnly (gameMode s)) (submitGuess v s rg rr rl).
Proof.
  unfold submitGuess.
  destruct (_ || _); [apply allEffects_ret|].
  destruct (_ <=? _); [apply allEffects_ret|].
  apply allEffects_tryCatch; [|intros ?; effects].
  apply allEffects_bind; [effects|]. intros res.
  destruct (negb (ok res)).
  - apply allEffects_bind; [effects|]. intros errorData. cbv zeta.
    destruct (_ && _); [apply recoverSession_modeOnly | effects].
  - apply allEffects_bind; [effects|]. intros data. cbv zeta.
    apply allEffects_bind; [effects|]. intros _.
    apply allEffects_bind; [|intros _; effects].
    destruct (Json.correct data); [effects|].
    destruct (_ <=? _); [apply revealAnswer_modeOnly | effects].
Qed.

(** X11.  On a run of events handled one at a time, the mode of the page
    changes only by a load that succeeds from one of two buttons: a mode
    button, to the mode of the button, or -- in [Part000] alone -- the button
    of a finished game, which always loads an unlimited game, also after the
    daily one.  No other event, no failed request and no recovery of a session
    changes the mode, and [Part001] has no mode to change. *)
Theorem mode_changes_only_by_its_buttons
    (v : Client) (s : State) (ev : Event) :
  gameMode (stepSeq v s ev) <> gameMode s ->
  v <> Part001
  /\ ((exists rl, ev = SwitchMode (gameMode (stepSeq v s ev)) rl
                  /\ failed rl = false)
      \/ (exists rl, ev = NewGame rl /\ failed rl = false /\ v = Part000
                     /\ gameMode s = daily
                     /\ gameMode (stepSeq v s ev) = unlimited)).
Proof.
  assert (Keep : forall m : M unit,
             allEffects (modeOnly (gameMode s)) m -> gameMode (call s m) = gameMode s).
  { intros m Hm. apply render_modeOnly; [reflexivity | exact Hm]. }
  assert (Load : forall mode rl,
             gameMode (call s (loadGame v mode rl)) <> gameMode s ->
             v <> Part001 /\ failed rl = false
             /\ gameMode (call s (loadGame v mode rl)) = mode).
  { intros mode rl Hne.
    assert (Hm : gameMode (call s (loadGame v mode rl)) = mode
                 \/ gameMode (call s (loadGame v mode rl)) = gameMode s).
    { destruct (failed_or_parsed rl) as [H|(res & data & -> & Hok & Hb)].
      - right. unfold call. rewrite (loadGame_failed v mode rl H). reflexivity.
      - unfold call. rewrite (loadGame_ok v mode res data Hok Hb).
        destruct v; cbn; auto. }
    destruct Hm as [Hm|Hm]; [|contradiction].
    split; [|split; [|exact Hm]].
    - intros ->. apply Hne. unfold call.
      destruct (failed_or_parsed rl) as [H|(res & data & -> & Hok & Hb)].
      + rewrite (loadGame_failed Part001 mode rl H). reflexivity.
      + rewrite (loadGame_ok Part001 mode res data Hok Hb). reflexivity.
    - destruct (failed rl) eqn:H; [|reflexivity].
      exfalso. apply Hne. unfold call. rewrite (loadGame_failed v mode rl H).
      reflexivity. }
  unfold stepSeq. destruct (enabled v s ev) eqn:He; [|intros Hne; exfalso; apply Hne; reflexivity].
  destruct ev as [rl|mode rl|rl|text|rg rr rl|rr rl|[| |]|a]; cbn [handler]; intros Hne;
    try (exfalso; apply Hne; apply Keep;
         first [ apply loadGame_modeOnly | apply submitGuess_modeOnly
               | apply revealAnswer_modeOnly | reflexivity ]).
  - unfold switchMode in *.
    destruct (negb (modeEqb mode (gameMode s))); [|exfalso; apply Hne; reflexivity].
    destruct (Load mode rl Hne) as (Hv & Hf & Hm).
    split; [exact Hv|]. left. exists rl. rewrite Hm. auto.
  - destruct (Load _ rl Hne) as (Hv & Hf & Hm).
    split; [exact Hv|]. right. exists rl.
    destruct v; cbn [isPart000] in *; try (exfalso; apply Hne; exact Hm).
    repeat split; try assumption.
    destruct (gameMode s); [reflexivity | exfalso; apply Hne; exact Hm].
  - exfalso. apply Hne. apply Keep. apply allEffects_emit.
    cbn [enabled] in He. destruct a; try reflexivity; discriminate He.
Qed.

Lemma mode_changes_only_by_its_buttons_witness :
  let s := call (Sample.fresh Part000)
             (revealAnswer Part000 (Sample.fresh Part000) Sample.okReveal Sample.offline) in
  gameMode (stepSeq Part000 s (NewGame Sample.okGame)) <> gameMode s
  /\ Part000 <> Part001.
Proof.
  intros s.
  assert (H : gameMode (stepSeq Part000 s (NewGame Sample.okGame)) <> gameMode s).
  { vm_compute. discriminate. }
  split; [exact H|].
  exact (proj1 (mode_changes_only_by_its_buttons Part000 s _ H)).
Defined.

(** ** Two submits in flight *)

Lemma submitGuess_wrong_trace (v : Client) (s : State) (rr rl : FetchResult)
    (res : Response) (data : Json.Body) :
  accepts s = true -> S (List.length (guesses s)) < MAX_GUESSES ->
  ok res = true -> body res = Parsed data -> Json.correct data = false ->
  trace (submitGuess v s (Responded res) rr rl) =
    [Fetch (PostGuess (guess s) (sessionId s));
     Set_ (SetGuesses (guesses s ++ [newGuess v s data]));
     Set_ (SetGuess ""); Set_ (SetSuggestions []); Set_ (SetShowSuggestions false)].
Proof.
  intros Ha Hlt Hok Hb Hc.
  rewrite (submitGuess_ok v s rr rl res data Ha Hok Hb), Hc.
  replace (MAX_GUESSES <=? List.length (guesses s ++ [newGuess v s data])) with false
    by (symmetry; apply Nat.leb_gt; rewrite length_app; simpl; lia).
  reflexivity.
Qed.

(** X12.  Nothing holds back a second submit while the first is waiting for
    its answer.  Both handlers are bound on the same page: each sends /guess
    for the same guess and session, and each, when its answer arrives, stores
    the list of that page with its own guess appended.  After two wrong
    answers the page therefore lists one guess more, not two -- the guess of
    the answer that arrived last. *)
Theorem double_submit_lists_one_guess
    (v : Client) (s : State) (rr rl rr' rl' : FetchResult)
    (res1 res2 : Response) (d1 d2 : Json.Body) :
  onGamePage v s = true -> accepts s = true ->
  S (List.length (guesses s)) < MAX_GUESSES ->
  ok res1 = true -> body res1 = Parsed d1 -> Json.correct d1 = false ->
  ok res2 = true -> body res2 = Parsed d2 -> Json.correct d2 = false ->
  let first := Submit (Responded res1) rr rl in
  let second := Submit (Responded res2) rr' rl' in
  let waiting := fold_left (step v) [Dispatch first; Dispatch second] (mkSystem s []) in
  cur waiting = s
  /\ List.length (inflight waiting) = 2
  /\ requests (trace (handler v s first) ++ trace (handler v s second)) =
       [PostGuess (guess s) (sessionId s); PostGuess (guess s) (sessionId s)]
  /\ guesses (cur (fold_left (step v) [Resume 0; Resume 0] waiting)) =
       guesses s ++ [newGuess v s d2]
  /\ guesses (cur (fold_left (step v) [Resume 1; Resume 0] waiting)) =
       guesses s ++ [newGuess v s d1]
  /\ inflight (fold_left (step v) [Resume 0; Resume 0] waiting) = []
  /\ inflight (fold_left (step v) [Resume 1; Resume 0] waiting) = [].
Proof.
  intros Hp Ha Hlt Hok1 Hb1 Hc1 Hok2 Hb2 Hc2 first second waiting.
  destruct (accepts_not_terminal s Ha) as [Hw Hl].
  assert (He : forall rg a b, enabled v s (Submit rg a b) = true).
  { intros. cbn [enabled]. unfold terminal. rewrite Hp, Hw, Hl. reflexivity. }
  subst waiting first second. cbn [fold_left step cur inflight handler].
  rewrite He. cbn [handler].
  rewrite (submitGuess_wrong_trace v s rr rl res1 d1 Ha Hlt Hok1 Hb1 Hc1).
  cbn [exec untilFetch render fold_left applyEffect cur inflight timersOf flat_map app].
  rewrite He. cbn [handler].
  rewrite (submitGuess_wrong_trace v s rr' rl' res2 d2 Ha Hlt Hok2 Hb2 Hc2).
  cbn. repeat split.
Qed.

Lemma double_submit_lists_one_guess_witness :
  let s := Sample.typed Part000 in
  guesses (cur (fold_left (step Part000) [Resume 0; Resume 0]
                  (fold_left (step Part000)
                     [Dispatch (Submit Sample.wrong Sample.offline Sample.offline);
                      Dispatch (Submit Sample.wrong Sample.offline Sample.offline)]
                     (mkSystem s [])))) =
  guesses s ++ [newGuess Part000 s
                  (Json.guess false (Some (Json.mkFeedback (Some "far") (Some false)))
                     (Some "BradTo00"))].
Proof.
  intros s.
  refine (proj1 (proj2 (proj2 (proj2
    (double_submit_lists_one_guess Part000 s Sample.offline Sample.offline
       Sample.offline Sample.offline _ _ _ _ _ _ _ _ _ _ _ _ _)))));
    try reflexivity; vm_compute; lia.
Defined.

(** ** Links to Pro Football Reference *)

Lemma append_cancel_l (p x y : string) :
  String.append p x = String.append p y -> x = y.
Proof. induction p as [|c p IH]; simpl; intros H; [exact H|]. injection H as H. exact (IH H). Qed.

Lemma append_length (x y : string) :
  String.length (String.append x y) = String.length x + String.length y.
Proof. induction x as [|c x IH]; simpl; [reflexivity | rewrite IH; reflexivity]. Qed.

Lemma append_cancel_r (t : string) : forall x y,
  String.append x t = String.append y t -> x = y.
Proof.
  induction x as [|c x IH]; intros [|d y] H; simpl in H.
  - reflexivity.
  - exfalso. apply (f_equal String.length) in H. simpl in H.
    rewrite append_length in H. lia.
  - exfalso. apply (f_equal String.length) in H. simpl in H.
    rewrite append_length in H. lia.
  - injection H as -> H. rewrite (IH y H). reflexivity.
Qed.

Lemma prefix_append (p t : string) : String.prefix p (String.append p t) = true.
Proof.
  induction p as [|c p IH]; simpl; [destruct t; reflexivity|].
  destruct (ascii_dec c c); [exact IH | congruence].
Qed.

(** X13.  [getPfrUrl] builds the address of a player page under
    https://www.pro-football-reference.com/players/, in the directory named
    by the first character of the identifier, and different identifiers get
    different addresses. *)
Theorem getPfrUrl_injective (a b : string) :
  (getPfrUrl a = getPfrUrl b <-> a = b)
  /\ String.prefix pfrPlayers (getPfrUrl a) = true
  /\ String.length (getPfrUrl a)
       = String.length pfrPlayers + String.length (charAt0 a) + 1 + String.length a + 4
  /\ String.length (charAt0 a) <= 1.
Proof.
  split; [|split; [|split]].
  - split; [|intros ->; reflexivity].
    unfold getPfrUrl. intros H. apply append_cancel_l in H.
    destruct a as [|c a], b as [|d b]; simpl in H.
    + reflexivity.
    + injection H as <- H. discriminate H.
    + injection H as -> H. discriminate H.
    + injection H. intros H' _ E. subst d.
      apply (append_cancel_r ".htm") in H'. rewrite H'. reflexivity.
  - unfold getPfrUrl. apply prefix_append.
  - unfold getPfrUrl. rewrite !append_length. simpl. lia.
  - destruct a; simpl; lia.
Qed.

(** ** The progress dots of [Part000] *)

Lemma map_nth_error_seq {A B} (f : option A -> B) (n : nat) : forall l : list A,
  map (fun i => f (nth_error l i)) (seq 0 n) =
  map (fun x => f (Some x)) (firstn n l) ++ repeat (f None) (n - List.length l).
Proof.
  induction n as [|n IH]; intros l; [reflexivity|].
  rewrite <- cons_seq, <- seq_shift, map_cons, map_map.
  destruct l as [|x l].
  - simpl. f_equal. clear IH. generalize 0.
    induction n as [|n IHn]; simpl; intros k; [reflexivity|]. f_equal. apply IHn.
  - cbn [nth_error firstn map app List.length Nat.sub]. f_equal. apply IH.
Qed.

(** X14.  The progress bar of [Part000] always shows [MAX_GUESSES] dots: one
    filled dot per guess, in order, then empty slots; a filled dot has the
    colour of the row of its guess in the guesses list and is never the
    colour of an empty slot. *)
Theorem progress_dots_match_rows (s : State) (g : GuessResult) :
  progressDots s =
    map (fun g => (dotClass (Some g), "scale-100")) (firstn MAX_GUESSES (guesses s))
    ++ repeat (emptyDot, "scale-75 opacity-50") (MAX_GUESSES - List.length (guesses s))
  /\ List.length (progressDots s) = MAX_GUESSES
  /\ (dotClass (Some g) = greenDot <-> bgClass Part000 g = greenClass Part000)
  /\ (dotClass (Some g) = orangeDot <-> bgClass Part000 g = orangeClass Part000)
  /\ (dotClass (Some g) = yellowDot <-> bgClass Part000 g = yellowClass Part000)
  /\ (dotClass (Some g) = noMatchDot <-> bgClass Part000 g = noMatchClass Part000)
  /\ dotClass (Some g) <> emptyDot.
Proof.
  split; [|split].
  - unfold progressDots.
    exact (map_nth_error_seq (fun o => (dotClass o, dotScale o)) MAX_GUESSES (guesses s)).
  - unfold progressDots. rewrite length_map, length_seq. reflexivity.
  - unfold dotClass, bgClass.
    destruct (correct g), (Js.isTrue (teams_overlap g)), (Js.strictEq (era g) "same");
      repeat split; intros H; try reflexivity; try discriminate H.
Qed.

(** ** The keyboard and the suggestions list *)

(** X15.  The arrow keys of [Part000] keep the selection inside a list that
    is not empty: from any index between -1 (nothing selected) and the last
    one they give an index of the list, they wrap around at both ends, and
    each undoes the other. *)
Theorem arrows_stay_in_list (len : nat) (prev : Z) :
  0 < len -> (-1 <= prev < Z.of_nat len)%Z ->
  (0 <= arrowDown len prev < Z.of_nat len)%Z
  /\ (0 <= arrowUp len prev < Z.of_nat len)%Z
  /\ arrowDown len (Z.of_nat len - 1) = 0%Z
  /\ arrowUp len 0 = (Z.of_nat len - 1)%Z
  /\ arrowDown len (-1) = 0%Z
  /\ arrowUp len (-1) = (Z.of_nat len - 1)%Z
  /\ ((0 <= prev)%Z ->
      arrowUp len (arrowDown len prev) = prev
      /\ arrowDown len (arrowUp len prev) = prev).
Proof.
  intros Hlen Hprev. unfold arrowDown, arrowUp. rewrite !Z.gtb_ltb.
  repeat split; intros;
    repeat match goal with
           | |- context [(?a <? ?b)%Z] => destruct (Z.ltb_spec a b)
           | H : context [(?a <? ?b)%Z] |- _ => destruct (Z.ltb_spec a b)
           end; lia.
Qed.

Lemma arrows_stay_in_list_witness :
  arrowDown 3 2 = 0%Z /\ arrowUp 3 (arrowDown 3 1) = 1%Z.
Proof.
  pose proof (arrows_stay_in_list 3 1 ltac:(lia) ltac:(lia)) as H.
  split; [reflexivity|]. apply H. lia.
Defined.

Lemma arrows_in_list (len : nat) (prev : Z) :
  0 < len -> (-1 <= prev < Z.of_nat len)%Z ->
  (0 <= arrowDown len prev < Z.of_nat len)%Z
  /\ (0 <= arrowUp len prev < Z.of_nat len)%Z.
Proof.
  intros Hlen Hprev. unfold arrowDown, arrowUp. rewrite Z.gtb_ltb.
  destruct (Z.ltb_spec prev (Z.of_nat len - 1)), (Z.ltb_spec 0 prev); lia.
Qed.

Lemma toIndex_indexOf (o : option nat) : toIndex (indexOf o) = o.
Proof.
  destruct o as [i|]; [|reflexivity]. unfold toIndex, indexOf.
  destruct (Z.ltb_spec (Z.of_nat i) 0); [lia|]. rewrite Nat2Z.id. reflexivity.
Qed.

Lemma applyEffect_inRange (v : Client) (s : State) (e : Effect) :
  indexInRange v s = true -> keepsList e = true ->
  indexInRange v (applyEffect s e) = true.
Proof.
  unfold indexInRange. intros Hs He.
  destruct e as [r|a|msg|ms a]; simpl; try exact Hs.
  destruct a; simpl in *; try exact Hs.
  - destruct l; [|discriminate].
    destruct (selectedSuggestionIndex s); [|reflexivity].
    apply andb_prop in Hs as [Hv _]. rewrite Hv. simpl. rewrite ?orb_true_r. reflexivity.
  - destruct i; [discriminate | reflexivity].
Qed.

Lemma render_inRange (v : Client) (t : Trace) : forall s,
  indexInRange v s = true -> forallb keepsList t = true ->
  indexInRange v (render s t) = true.
Proof.
  unfold render. induction t as [|e t IH]; simpl; intros s Hs Ht; [exact Hs|].
  apply andb_prop in Ht as [He Ht].
  apply IH; [apply applyEffect_inRange; assumption | exact Ht].
Qed.

Lemma loadGame_keepsList (v : Client) (mode : GameMode) (rl : FetchResult) :
  allEffects keepsList (loadGame v mode rl).
Proof. unfold loadGame. effects. Qed.

Lemma revealAnswer_keepsList (v : Client) (s : State) (rr rl : FetchResult) :
  allEffects keepsList (revealAnswer v s rr rl).
Proof. unfold revealAnswer. effects. Qed.

Lemma submitGuess_keepsList (v : Client) (s : State) (rg rr rl : FetchResult) :
  allEffects keepsList (submitGuess v s rg rr rl).
Proof. unfold submitGuess. effects; try apply revealAnswer_keepsList. Qed.

Lemma handler_keepsList (v : Client) (s : State) (ev : Event) :
  isMinor ev = false -> allEffects keepsList (handler v s ev).
Proof.
  intros Hm.
  destruct ev as [rl|mode rl|rl|text|rg rr rl|rr rl|[| |]|a]; simpl;
    try discriminate Hm.
  - apply loadGame_keepsList.
  - unfold switchMode. destruct (negb _); [apply loadGame_keepsList | reflexivity].
  - apply loadGame_keepsList.
  - reflexivity.
  - apply submitGuess_keepsList.
  - apply revealAnswer_keepsList.
  - reflexivity.
  - reflexivity.
  - reflexivity.
Qed.

(** What the callback of the autocomplete timer does. *)
Lemma callback_ok (v : Client) (q : string) (res : Response) (data : Json.Body) :
  ok res = true -> body res = Parsed data ->
  Autocomplete.callback v q (Responded res) =
    ([Fetch (GetAutocomplete q);
      Set_ (SetSuggestions (match Json.players data with Some l => l | None => [] end));
      Set_ (SetShowSuggestions true)]
     ++ (if isPart000 v then [Set_ (SetSelectedSuggestionIndex None)] else []),
     inr tt).
Proof.
  intros Hok Hb. unfold Autocomplete.callback.
  rewrite bind_fetch_responded, Hok. cbn [negb].
  rewrite bind_ret. unfold json. rewrite Hb, bind_ret. destruct v; reflexivity.
Qed.

Lemma callback_failed (v : Client) (q : string) (r : FetchResult) :
  failed r = true ->
  Autocomplete.callback v q r =
    ([Fetch (GetAutocomplete q); Set_ (SetSuggestions [])], inr tt).
Proof.
  destruct r as [msg|res]; [reflexivity|]. unfold failed. intros H.
  unfold Autocomplete.callback. rewrite bind_fetch_responded.
  destruct (ok res); cbn [negb orb] in *; [|reflexivity].
  rewrite bind_ret. unfold json. destruct (body res); [reflexivity | discriminate].
Qed.

Lemma callback_inRange (v : Client) (s : State) (q : string) (r : FetchResult) :
  indexInRange v s = true ->
  indexInRange v (call s (Autocomplete.callback v q r)) = true.
Proof.
  intros Hs. unfold call.
  destruct (failed_or_parsed r) as [H|(res & data & -> & Hok & Hb)].
  - rewrite (callback_failed v q r H). apply render_inRange; [exact Hs | reflexivity].
  - rewrite (callback_ok v q res data Hok Hb).
    unfold indexInRange in *. destruct (isPart000 v) eqn:Hv; cbn.
    + reflexivity.
    + destruct (selectedSuggestionIndex s); [discriminate Hs | reflexivity].
Qed.

(** On a page whose index is in range, [handleKeyDown] finds the suggestion
    it selects, and leaves the index in range. *)
Lemma handleKeyDown_inRange (s : State) (key : string) (rg rr rl : FetchResult) :
  indexInRange Part000 s = true ->
  exists m, handleKeyDown s key rg rr rl = Some m
            /\ indexInRange Part000 (call s m) = true.
Proof.
  intros Hs. unfold handleKeyDown.
  assert (Sub : indexInRange Part000 (call s (submitGuess Part000 s rg rr rl)) = true).
  { apply render_inRange; [exact Hs | apply submitGuess_keepsList]. }
  destruct (showSuggestions s && (0 <? List.length (suggestions s))) eqn:Hopen.
  - apply andb_prop in Hopen as [_ Hlen]. apply Nat.ltb_lt in Hlen.
    assert (Hprev : (-1 <= indexOf (selectedSuggestionIndex s)
                     < Z.of_nat (List.length (suggestions s)))%Z).
    { unfold indexInRange in Hs. destruct (selectedSuggestionIndex s) as [i|]; simpl; [|lia].
      cbn [isPart000 andb] in Hs. apply orb_prop in Hs as [H|H].
      - apply Nat.ltb_lt in H. lia.
      - apply Nat.eqb_eq in H. lia. }
    assert (Arrow : forall z, (0 <= z < Z.of_nat (List.length (suggestions s)))%Z ->
              indexInRange Part000
                (call s (set_ (SetSelectedSuggestionIndex (toIndex z)))) = true).
    { intros z Hz. unfold indexInRange, toIndex.
      destruct (Z.ltb_spec z 0); [lia|]. cbn -[Nat.ltb Nat.eqb].
      apply orb_true_intro. left. apply Nat.ltb_lt. lia. }
    pose proof (arrows_in_list (List.length (suggestions s))
                  (indexOf (selectedSuggestionIndex s)) Hlen Hprev) as [Hd Hu].
    destruct (String.eqb key "ArrowDown"); [eexists; split; [reflexivity | apply Arrow, Hd]|].
    destruct (String.eqb key "ArrowUp"); [eexists; split; [reflexivity | apply Arrow, Hu]|].
    destruct (String.eqb key "Enter"); cbn [andb].
    + destruct (Z.leb_spec 0 (indexOf (selectedSuggestionIndex s))) as [H0|H0].
      * destruct (nth_error (suggestions s) (Z.to_nat (indexOf (selectedSuggestionIndex s))))
          as [suggestion|] eqn:Hn.
        -- eexists. split; [reflexivity|]. apply render_inRange; [exact Hs | reflexivity].
        -- exfalso. apply nth_error_None in Hn. lia.
      * eexists. split; [reflexivity | exact Sub].
    + destruct (String.eqb key "Escape"); eexists; (split; [reflexivity|]);
        apply render_inRange; try exact Hs; reflexivity.
  - destruct (String.eqb key "Enter"); eexists; (split; [reflexivity|]);
      [exact Sub | exact Hs].
Qed.

Lemma loadGame_clearsGuess (v : Client) (mode : GameMode) (rl : FetchResult) :
  allEffects clearsGuess (loadGame v mode rl).
Proof. unfold loadGame. effects. Qed.

Lemma submitGuess_clearsGuess (v : Client) (s : State) (rg rr rl : FetchResult) :
  allEffects clearsGuess (submitGuess v s rg rr rl).
Proof. unfold submitGuess. effects; try (unfold revealAnswer; effects). Qed.

Lemma clearsGuess_In (t : Trace) (g : string) :
  forallb clearsGuess t = true -> In (Set_ (SetGuess g)) t -> g = "".
Proof.
  intros Ht Hin. rewrite forallb_forall in Ht. specialize (Ht _ Hin). simpl in Ht.
  destruct g; [reflexivity | discriminate].
Qed.

(** The guesses [handleKeyDown] stores are rows of the list, or empty. *)
Lemma handleKeyDown_stores (s : State) (key : string) (rg rr rl : FetchResult)
    (m : M unit) (g : string) :
  handleKeyDown s key rg rr rl = Some m -> In (Set_ (SetGuess g)) (trace m) ->
  g = "" \/ In g (suggestions s).
Proof.
  unfold handleKeyDown. intros Hm Hin.
  assert (Sub : In (Set_ (SetGuess g)) (trace (submitGuess Part000 s rg rr rl)) -> g = "").
  { apply clearsGuess_In, submitGuess_clearsGuess. }
  destruct (showSuggestions s && (0 <? List.length (suggestions s))).
  - destruct (String.eqb key "ArrowDown");
      [injection Hm as <-; simpl in Hin; intuition discriminate|].
    destruct (String.eqb key "ArrowUp");
      [injection Hm as <-; simpl in Hin; intuition discriminate|].
    destruct (String.eqb key "Enter"); cbn [andb] in Hm.
    + destruct (0 <=? indexOf (selectedSuggestionIndex s))%Z.
      * destruct (nth_error (suggestions s) (Z.to_nat (indexOf (selectedSuggestionIndex s))))
          as [suggestion|] eqn:Hn; [|discriminate].
        injection Hm as <-. simpl in Hin.
        destruct Hin as [[= <-]|Hin]; [|intuition discriminate].
        right. exact (nth_error_In _ _ Hn).
      * injection Hm as <-. left. exact (Sub Hin).
    + destruct (String.eqb key "Escape"); injection Hm as <-; simpl in Hin;
        intuition discriminate.
  - destruct (String.eqb key "Enter"); injection Hm as <-.
    + left. exact (Sub Hin).
    + simpl in Hin. contradiction.
Qed.

Lemma uiStep_inRange (v : Client) (s : State) (ev : UiEvent) :
  indexInRange v s = true -> indexInRange v (uiStep v s ev) = true.
Proof.
  intros Hs. unfold uiStep. destruct (uiEnabled v s ev) eqn:He; [|exact Hs].
  destruct ev as [ev|key rg rr rl|suggestion focused| | | |q r];
    cbn [uiHandler uiEnabled] in *.
  - apply andb_prop in He as [_ Hm]. apply negb_true_iff in Hm.
    apply render_inRange; [exact Hs | apply handler_keepsList, Hm].
  - unfold onKey. destruct v; cbn [isPart000].
    + apply render_inRange; [exact Hs|]. unfold handleKeyPress.
      destruct (String.eqb key "Enter"); [apply submitGuess_keepsList | reflexivity].
    + destruct (handleKeyDown_inRange s key rg rr rl Hs) as (m & -> & Hm). exact Hm.
    + apply render_inRange; [exact Hs|]. unfold handleKeyPress.
      destruct (String.eqb key "Enter"); [apply submitGuess_keepsList | reflexivity].
  - apply render_inRange; [exact Hs|]. unfold pickSuggestion.
    destruct (isPart000 v && negb focused && negb (gameWon s || gameLost s));
      reflexivity.
  - apply render_inRange; [exact Hs | reflexivity].
  - apply render_inRange; [exact Hs | reflexivity].
  - apply render_inRange; [exact Hs|]. unfold Autocomplete.effectTrace.
    destruct (negb _), (isPart000 v); reflexivity.
  - apply callback_inRange, Hs.
Qed.

Lemma uiRun_inRange (v : Client) (rl : FetchResult) (evs : list UiEvent) :
  indexInRange v (uiRun v rl evs) = true.
Proof.
  unfold uiRun.
  assert (H : indexInRange v (call initialState (loadGame v daily rl)) = true).
  { apply render_inRange; [reflexivity | apply loadGame_keepsList]. }
  revert H. generalize (call initialState (loadGame v daily rl)).
  induction evs as [|ev evs IH]; simpl; intros s H; [exact H|].
  apply IH, uiStep_inRange, H.
Qed.

(** X16.  On every page reached from mounting through the events of the game,
    the keyboard, the suggestions list and the autocomplete effect, a
    selected index points into the suggestions list, so the key handler of
    the input never stores [undefined] as the guess.  What it stores is a row
    of the list or, after a submitted guess, the empty string; in [Part000],
    Enter on a selected row of the open list stores that row, closes the list
    and sends no request. *)
Theorem enter_picks_a_listed_suggestion
    (v : Client) (rl : FetchResult) (evs : list UiEvent)
    (key : string) (rg rr rl' : FetchResult) :
  let s := uiRun v rl evs in
  indexInRange v s = true
  /\ (exists m,
        onKey v s key rg rr rl' = Some m
        /\ forall g, In (Set_ (SetGuess g)) (trace m) -> g = "" \/ In g (suggestions s))
  /\ (forall i row,
        isPart000 v = true -> showSuggestions s = true ->
        selectedSuggestionIndex s = Some i -> nth_error (suggestions s) i = Some row ->
        onKey v s "Enter" rg rr rl' =
          Some ([Set_ (SetGuess row); Set_ (SetSuggestions []);
                 Set_ (SetShowSuggestions false);
                 Set_ (SetSelectedSuggestionIndex None)], inr tt)).
Proof.
  intros s. pose proof (uiRun_inRange v rl evs) as Hs. fold s in Hs.
  split; [exact Hs|]. split.
  - unfold onKey. destruct (isPart000 v) eqn:Hv.
    + destruct v; try discriminate Hv.
      destruct (handleKeyDown_inRange s key rg rr rl' Hs) as (m & Hm & _).
      exists m. split; [exact Hm|]. intros g. apply (handleKeyDown_stores s key rg rr rl' m g Hm).
    + eexists. split; [reflexivity|]. intros g Hin. left. revert Hin.
      apply clearsGuess_In. unfold handleKeyPress.
      destruct (String.eqb key "Enter"); [apply submitGuess_clearsGuess | reflexivity].
  - intros i row Hv Hshow Hsel Hrow. unfold onKey, handleKeyDown.
    rewrite Hv, Hshow, Hsel. cbn [indexOf andb].
    assert (Hlen : (0 <? List.length (suggestions s)) = true).
    { apply Nat.ltb_lt. destruct (suggestions s); [destruct i; discriminate | simpl; lia]. }
    rewrite Hlen. cbn [String.eqb Ascii.eqb Bool.eqb andb].
    destruct (Z.leb_spec 0 (Z.of_nat i)); [|lia].
    rewrite Nat2Z.id, Hrow. reflexivity.
Qed.

(** ** The answer of /autocomplete *)

(** X17.  Whatever the server answers, the callback of the autocomplete timer
    sends its one request, returns normally and touches nothing of the game,
    the input or the error cell.  A failed request only empties the list of
    suggestions -- no message is shown -- and a successful one stores the
    players of the answer (none when the field is missing) and opens the
    list. *)
Theorem autocomplete_only_fills_suggestions
    (v : Client) (s : State) (q : string) (r : FetchResult) :
  let m := Autocomplete.callback v q r in
  let s' := call s m in
  snd m = inr tt
  /\ requests (trace m) = [GetAutocomplete q]
  /\ sameGame s s' /\ guess s' = guess s /\ error s' = error s
  /\ loading s' = loading s
  /\ (failed r = true ->
      suggestions s' = [] /\ showSuggestions s' = showSuggestions s)
  /\ (forall res data,
        r = Responded res -> ok res = true -> body res = Parsed data ->
        suggestions s' = match Json.players data with Some l => l | None => [] end
        /\ showSuggestions s' = true).
Proof.
  intros m s'. subst s' m. unfold call, sameGame.
  destruct (failed_or_parsed r) as [H|(res & data & -> & Hok & Hb)].
  - rewrite (callback_failed v q r H). cbn.
    repeat match goal with |- _ /\ _ => split end; try reflexivity.
    + intros _. split; reflexivity.
    + intros res data ->. intros Hok Hb. unfold failed in H.
      rewrite Hok, Hb in H. discriminate H.
  - rewrite (callback_ok v q res data Hok Hb).
    destruct v; cbn;
      repeat match goal with |- _ /\ _ => split end; try reflexivity;
      try (intros H; rewrite Hok, Hb in H; discriminate H).
    all: intros res' data' [= <-] _ Hb'; rewrite Hb in Hb'; injection Hb' as <-;
      split; reflexivity.
Qed.

(** ** The timers of the autocomplete *)

Module AutocompleteTimers.

Import Autocomplete.

Lemma truthy_trim (g : string) :
  Js.truthy (Js.trim g) = negb (Js.allWhiteSpace g).
Proof.
  destruct (Js.truthy (Js.trim g)) eqn:H, (Js.allWhiteSpace g) eqn:Hw; try reflexivity.
  - apply trim_falsy_iff in Hw. congruence.
  - apply trim_falsy_iff in H. congruence.
Qed.

Lemma filter_split_length {A} (p : A -> bool) (l : list A) :
  List.length (filter p l) + List.length (filter (fun x => negb (p x)) l) = List.length l.
Proof.
  induction l as [|x l IH]; [reflexivity|]. simpl. destruct (p x); simpl; lia.
Qed.

Lemma step_noBlank (v : Client) (b : Browser) (ev : Event) :
  timersCurrent v b -> noBlank b -> noBlank (step v b ev).
Proof.
  intros Hc [Ht Hs]. destruct ev as [g|dt r]; cbn [step].
  - destruct (String.eqb g (input b)); [split; assumption|].
    split.
    + intros tm Hin. rewrite (AutocompleteFacts.onGuessChange_timers v g b Hc) in Hin.
      rewrite truthy_trim in Hin.
      destruct (Js.allWhiteSpace g) eqn:Hw; simpl in Hin; [contradiction|].
      destruct Hin as [<-|[]]. exact Hw.
    + unfold onGuessChange. destruct (negb _); exact Hs.
  - split.
    + intros tm Hin. simpl in Hin. apply filter_In in Hin as [Hin _]. exact (Ht tm Hin).
    + intros e Hin. rewrite AutocompleteFacts.elapse_sent in Hin.
      apply in_app_or in Hin as [Hin|Hin]; [exact (Hs e Hin)|].
      apply in_map_iff in Hin as (tm & <- & Htm). apply filter_In in Htm as [Htm _].
      exists (query tm). split; [reflexivity | exact (Ht tm Htm)].
Qed.

Lemma step_count (v : Client) (b : Browser) (ev : Event) :
  timersCurrent v b ->
  List.length (sent (step v b ev)) + List.length (timers (step v b ev))
  <= List.length (sent b) + List.length (timers b) + (if isType ev then 1 else 0).
Proof.
  intros Hc. destruct ev as [g|dt r]; cbn [step isType].
  - destruct (String.eqb g (input b)); [lia|].
    rewrite (AutocompleteFacts.onGuessChange_timers v g b Hc).
    replace (sent (onGuessChange v g b)) with (sent b)
      by (unfold onGuessChange; destruct (negb _); reflexivity).
    destruct (Js.truthy _); simpl; lia.
  - rewrite AutocompleteFacts.elapse_sent, length_app, length_map.
    cbn [elapse timers].
    pose proof (filter_split_length (fun tm => due tm <=? now b + dt) (timers b)). lia.
Qed.

Lemma step_one_timer (v : Client) (b : Browser) (ev : Event) :
  timersCurrent v b -> List.length (timers b) <= 1 ->
  List.length (timers (step v b ev)) <= 1.
Proof.
  intros Hc Hl. destruct ev as [g|dt r]; cbn [step].
  - destruct (String.eqb g (input b)); [exact Hl|].
    rewrite (AutocompleteFacts.onGuessChange_timers v g b Hc).
    destruct (Js.truthy _); simpl; lia.
  - cbn [elapse timers].
    pose proof (filter_split_length (fun tm => due tm <=? now b + dt) (timers b)). lia.
Qed.

Lemma step_current (v : Client) (b : Browser) (ev : Event) :
  timersCurrent v b -> timersCurrent v (step v b ev).
Proof.
  intros Hc. destruct ev as [g|dt r]; cbn [step].
  - destruct (String.eqb g (input b)); [exact Hc|].
    apply AutocompleteFacts.onGuessChange_current, Hc.
  - apply AutocompleteFacts.elapse_current, Hc.
Qed.

Lemma fold_timers (v : Client) (evs : list Event) : forall (n : nat) (b : Browser),
  timersCurrent v b -> noBlank b -> List.length (timers b) <= 1 ->
  List.length (sent b) + List.length (timers b) <= n ->
  let b' := fold_left (step v) evs b in
  timersCurrent v b' /\ noBlank b' /\ List.length (timers b') <= 1
  /\ List.length (sent b') + List.length (timers b') <= n + List.length (filter isType evs).
Proof.
  induction evs as [|ev evs IH]; simpl; intros n b Hc Hn Hl Hk.
  - split; [assumption|]. split; [assumption|]. split; [assumption | lia].
  - destruct (IH (n + (if isType ev then 1 else 0)) (step v b ev))
      as (Hc' & Hn' & Hl' & Hk').
    + apply step_current, Hc.
    + apply step_noBlank; assumption.
    + apply step_one_timer; assumption.
    + pose proof (step_count v b ev Hc). lia.
    + split; [assumption|]. split; [assumption|]. split; [assumption|].
      destruct (isType ev); simpl in *; lia.
Qed.

Lemma run_timers (v : Client) (evs : list Event) :
  let b := run v evs in
  timersCurrent v b /\ noBlank b /\ List.length (timers b) <= 1
  /\ List.length (sent b) + List.length (timers b) <= List.length (filter isType evs).
Proof.
  apply (fold_timers v evs 0 start); simpl; try lia.
  - intros x [].
  - split; intros x [].
Qed.

End AutocompleteTimers.

(** X18.  On every run of guess changes and waits, at most one autocomplete
    timer is pending, none while the guess in the input is blank; no request
    is ever sent for a blank guess; and the requests sent and still to be sent
    are no more than the changes of the guess. *)
Theorem autocomplete_one_timer_never_blank
    (v : Client) (evs : list Autocomplete.Event) :
  let b := Autocomplete.run v evs in
  List.length (Autocomplete.timers b) <= 1
  /\ (Js.allWhiteSpace (Autocomplete.input b) = true -> Autocomplete.timers b = [])
  /\ (forall e, In e (Autocomplete.sent b) ->
        exists q, Autocomplete.request e = GetAutocomplete q
                  /\ Js.allWhiteSpace q = false)
  /\ List.length (Autocomplete.sent b) + List.length (Autocomplete.timers b)
     <= List.length (filter isType evs).
Proof.
  intros b. destruct (AutocompleteTimers.run_timers v evs) as (Hc & [Ht Hs] & Hl & Hk).
  fold b in Hc, Ht, Hs, Hl, Hk.
  split; [exact Hl|]. split; [|split; [exact Hs | exact Hk]].
  intros Hw. destruct (Autocomplete.timers b) as [|tm l] eqn:E; [reflexivity|].
  exfalso. pose proof (Ht tm (or_introl eq_refl)) as Hq.
  assert (Hin : In tm (Autocomplete.timers b)) by (rewrite E; left; reflexivity).
  destruct (Hc tm Hin) as (_ & Hi & _). rewrite Hi in Hq. congruence.
Qed.
